(** * PACOH-VI: meta-learning of Gaussian-process priors by variational inference

    A shallow embedding of

      - [src/random_gp.py]                (VectorizedGP, RandomGP, RandomGPPosterior,
                                           _filter),
      - [meta_learn/GPR_meta_vi.py]       (GPRegressionMetaLearnedVI and its training
                                           loop [meta_fit]),
      - [experiments/hyperparam_search/meta_vi_hyperparam.py]  (train_reg, train_test
                                           and the test runs),

    the properties of these programs that the specification states, and further
    properties that the code itself shows.

    Conventions of the embedding.
      - Python floats are idealised as real numbers ([R]); no rounding is modelled.
      - Python exceptions are values of [exn]; code that can raise returns a [result].
      - An [OrderedDict] is an association list in insertion order; a plain [dict]
        with string keys is a [gmap string _].
      - Random draws ([torch.normal], [rsample], [numpy.random.choice]) are inputs.
      - What these modules import from modules that are not embedded here
        (the neural-network module, the densities of [torch.distributions], the
        exact marginal likelihood of [gpytorch], data preparation) is a field of
        the class [Collaborators]; [CatDist], the batched GP and [RandomGPMeta]
        follow the specification.  The gradient step and the evaluation on
        validation data are fields of [MetaFit.Training], the data and the
        learner of a search trial fields of [SearchDriver.Driver]. *)

From Stdlib Require Import Reals Lra ZArith Lia List Ascii String Permutation.
From stdpp Require Import gmap strings list fin_maps.

Set Default Proof Using "Type".

(* ===================================================================== *)
(** * Python runtime *)
(* ===================================================================== *)

Module Py.

(** The exceptions the embedded code can raise or let through.  The last two are
    [BaseException]s that are not [Exception]s. *)
Inductive exn : Type :=
| AssertionError
| NotImplementedError
| KeyError (key : string)
| IndexError
| ValueError
| TypeError
| RuntimeError
| AttributeError
| KeyboardInterrupt
| SystemExit.

(** [isinstance(e, Exception)] *)
Definition is_Exception (e : exn) : bool :=
  match e with
  | KeyboardInterrupt | SystemExit => false
  | _ => true
  end.

Inductive result (A : Type) : Type :=
| Ok (a : A)
| Raise (e : exn).
Arguments Ok {A} a.
Arguments Raise {A} e.

Definition bind {A B} (m : result A) (k : A -> result B) : result B :=
  match m with
  | Ok a => k a
  | Raise e => Raise e
  end.

(** [assert b] *)
Definition assert (b : bool) : result unit :=
  if b then Ok tt else Raise AssertionError.

(** [x in [s1, ..., sn]] on strings *)
Definition str_in (x : string) (l : list string) : bool :=
  existsb (String.eqb x) l.

(** [sub in s] on strings: [sub] occurs in [s] *)
Fixpoint contains (sub s : string) : bool :=
  String.prefix sub s ||
  match s with
  | EmptyString => false
  | String _ s' => contains sub s'
  end.

(** [s.replace(".", "_")] *)
Fixpoint replace_dots (s : string) : string :=
  match s with
  | EmptyString => EmptyString
  | String c s' =>
      String (if Ascii.eqb c "."%char then "_"%char else c) (replace_dots s')
  end.

(** [for x in xs: acc = body(acc, x)], stopping at the first exception *)
Fixpoint for_each {A S} (xs : list A) (body : S -> A -> result S) (s : S) : result S :=
  match xs with
  | [] => Ok s
  | x :: xs' => bind (body s x) (for_each xs' body)
  end.

(** [[f(x) for x in xs]], stopping at the first exception *)
Fixpoint map_result {A B} (f : A -> result B) (xs : list A) : result (list B) :=
  match xs with
  | [] => Ok []
  | x :: xs' =>
      bind (f x) (fun y => bind (map_result f xs') (fun ys => Ok (y :: ys)))
  end.

(** [d[k]] on a dict with string keys *)
Definition getitem {V} (d : gmap string V) (k : string) : result V :=
  match d !! k with
  | Some v => Ok v
  | None => Raise (KeyError k)
  end.

(** A Python float: a finite value or the not-a-number sentinel. *)
Inductive float : Type :=
| Finite (r : R)
| NaN.

(** An [OrderedDict]: keys in insertion order. *)
Definition odict (V : Type) : Type := list (string * V).

Definition keys {V} (d : odict V) : list string := map fst d.
Definition values {V} (d : odict V) : list V := map snd d.

(** [d[k]] on an [OrderedDict] *)
Definition ogetitem {V} (d : odict V) (k : string) : result V :=
  match find (fun p : string * V => String.eqb k p.1) d with
  | Some p => Ok p.2
  | None => Raise (KeyError k)
  end.

(** [assert name not in list(d.keys()); d[name] = v] *)
Definition register {V} (d : odict V) (name : string) (v : V) : result (odict V) :=
  bind (assert (negb (str_in name (keys d)))) (fun _ => Ok (d ++ [(name, v)])).

End Py.

Import Py.

Notation "'let*' x := m 'in' k" := (Py.bind m (fun x => k))
  (at level 10, x pattern, m at level 100, k at level 200).

(* ===================================================================== *)
(** * Tensors *)
(* ===================================================================== *)

(** A parameter tensor, as torch holds it: a shape and the flat row-major data. *)
Record Tensor : Type := mkTensor { t_shape : list nat; t_data : list R }.

Definition numel (shape : list nat) : nat := fold_right Nat.mul 1 shape.

(** [c * torch.ones(shape)]; [torch.zeros(shape)] is [full shape 0]. *)
Definition full (shape : list nat) (c : R) : Tensor :=
  {| t_shape := shape; t_data := repeat c (numel shape) |}.

(** [shape[-1]] *)
Definition last_dim (shape : list nat) : result nat :=
  match reverse shape with
  | [] => Raise IndexError
  | n :: _ => Ok n
  end.

(** One event: a flat parameter vector, or a per-group slice of it. *)
Abbreviation vector := (list R) (only parsing).

(** A value with leading batch dimensions: a tensor of shape
    [batch_shape ++ event shape], held as its [numel batch_shape] events in
    row-major order.  [A] is [vector] for parameter samples (event shape [[D]])
    and [R] for log-densities (event shape [[]]). *)
Record Batched (A : Type) : Type :=
  mkBatched { batch_shape : list nat; items : list A }.
Arguments mkBatched {A} batch_shape items.
Arguments batch_shape {A} b.
Arguments items {A} b.

(** [value[..., lo:hi]] on one event *)
Definition slice (lo hi : nat) (v : vector) : vector := take (hi - lo) (drop lo v).

(** One regression task, [(train_x, train_y)]: an [n x d] matrix and [n] targets. *)
Abbreviation matrix := (list (list R)) (only parsing).
Abbreviation dataset := (list (list R) * list R)%type (only parsing).

(* ===================================================================== *)
(** * Distributions *)
(* ===================================================================== *)

(** The distribution objects the code builds: [Normal(loc, scale)],
    [LogNormal(loc, scale)] and [d.to_event(n)], which is [Independent(d, n)]. *)
Inductive Distribution : Type :=
| Normal (loc scale : Tensor)
| LogNormal (loc scale : Tensor)
| Independent (base_dist : Distribution) (reinterpreted_batch_ndims : nat).

Inductive family : Type := FNormal | FLogNormal.

(** Shape of the unreduced distribution, its batch shape and its event shape. *)
Fixpoint full_shape (d : Distribution) : list nat :=
  match d with
  | Normal loc _ | LogNormal loc _ => t_shape loc
  | Independent b _ => full_shape b
  end.

Fixpoint event_ndims (d : Distribution) : nat :=
  match d with
  | Normal _ _ | LogNormal _ _ => 0
  | Independent b n => n + event_ndims b
  end.

Definition dist_batch_shape (d : Distribution) : list nat :=
  take (length (full_shape d) - event_ndims d) (full_shape d).

Definition event_shape (d : Distribution) : list nat :=
  drop (length (full_shape d) - event_ndims d) (full_shape d).

(** [d.to_event(1)]: fails when [d] has no batch dimension left to reinterpret. *)
Definition to_event1 (d : Distribution) : result Distribution :=
  if (length (dist_batch_shape d) <? 1)%nat then Raise ValueError
  else Ok (Independent d 1).

(** [dist.event_shape[0]] *)
Definition event_size (d : Distribution) : nat := hd 0%nat (event_shape d).

(* ===================================================================== *)
(** * What the embedded modules import from elsewhere *)
(* ===================================================================== *)

Class Collaborators : Type := {
  (** [NeuralNetworkVectorized(input_dim, output_dim, layer_sizes).named_parameters()] *)
  nn_named_parameters : nat -> nat -> list nat -> odict Tensor;
  (** [dist.log_prob(v)] for one event [v] of a member distribution *)
  dist_log_prob : Distribution -> vector -> R;
  (** [dist.rsample()] for one event: the reparameterised draw that [dist] makes
      from the standard noise [eps] *)
  dist_rsample : Distribution -> vector -> vector;
  (** the exact marginal log-likelihood that [gpytorch] returns for the GP whose
      parameters are the flat vector [theta], on the data [(x, y)] *)
  gp_mll : vector -> matrix -> vector -> R;
  (** [RegressionModelMetaLearned] of [meta_learn/abstract.py]:
      [_check_meta_data_shapes], which also fixes [input_dim];
      [_compute_normalization_stats]; [_prepare_data_per_task] *)
  normalization_stats : Type;
  check_meta_data_shapes : list dataset -> result nat;
  compute_normalization_stats : list dataset -> result normalization_stats;
  prepare_data_per_task : normalization_stats -> dataset -> result dataset;
}.

(* ===================================================================== *)
(** * src/models.py: the joint distribution and the batched GP *)
(* ===================================================================== *)

(** Elementwise arithmetic on batched log-densities.  The two operands of every
    [+] and [-] below have the same shape whenever both exist; torch rejects
    shapes that differ and cannot be broadcast with a [RuntimeError]. *)
Definition bzip (f : R -> R -> R) (a b : Batched R) : result (Batched R) :=
  if bool_decide (batch_shape a = batch_shape b)
  then Ok (mkBatched (batch_shape a) (zip_with f (items a) (items b)))
  else Raise RuntimeError.

(** [c * t] for a Python float [c] *)
Definition bscale (c : R) (a : Batched R) : Batched R :=
  mkBatched (batch_shape a) (map (Rmult c) (items a)).

Definition bzeros (bs : list nat) : Batched R := mkBatched bs (repeat 0%R (numel bs)).

Module CatDist.

(** Modelled from the spec: class [CatDist] of [src/models.py], whose source is
    not at hand.  The specification (section 4.6): it "wraps an
    ordered sequence of independent distributions"; [sample]/[rsample] "draw
    each member independently with a shared leading batch shape and
    concatenate along the trailing event axis"; [log_prob(value)] "slices
    [value] back into per-member segments (using each member's known event
    size, in the same order used to build the concatenation) and sums their
    log-densities". *)
Record t : Type := mk { dists : list Distribution }.

(** total event size: the sum of the members' event sizes *)
Definition total_event_size (c : t) : nat :=
  fold_right Nat.add 0%nat (map event_size (dists c)).

(** Concatenation along the trailing axis of the members' draws, each draw
    holding [numel sample_shape] events. *)
Definition cat_last (sample_shape : list nat) (draws : list (list vector)) : list vector :=
  fold_right (zip_with app) (repeat [] (numel sample_shape)) draws.

(** Modelled from the spec: [CatDist.sample(sample_shape)] and
    [CatDist.rsample(sample_shape)]; [draws] holds, for each member in order,
    the events that member drew. *)
Definition sample (c : t) (sample_shape : list nat) (draws : list (list vector))
  : Batched vector :=
  mkBatched sample_shape (cat_last sample_shape draws).

(** log-density of member [d] on its draw *)
Definition member_log_prob `{Collaborators} (bs : list nat) (d : Distribution)
    (draw : list vector) : Batched R :=
  mkBatched bs (map (dist_log_prob d) draw).

(** the per-member log-densities of [value], members taken in order from
    offset [idx] *)
Fixpoint sliced_log_probs `{Collaborators} (ds : list Distribution) (idx : nat)
    (value : Batched vector) : list (Batched R) :=
  match ds with
  | [] => []
  | d :: ds' =>
      let n := event_size d in
      member_log_prob (batch_shape value) d (map (slice idx (idx + n)) (items value))
        :: sliced_log_probs ds' (idx + n) value
  end.

(** sum of same-shaped batched log-densities *)
Definition bsum (bs : list nat) (l : list (Batched R)) : Batched R :=
  fold_right (fun a acc => mkBatched bs (zip_with Rplus (items a) (items acc)))
             (bzeros bs) l.

(** Modelled from the spec: [CatDist.log_prob(value)], the sum of the members'
    log-densities on their slices of [value]. *)
Definition log_prob `{Collaborators} (c : t) (value : Batched vector) : Batched R :=
  bsum (batch_shape value) (sliced_log_probs (dists c) 0 value).

End CatDist.

Module VectorizedModel.

(** Modelled from the spec: [VectorizedModel.set_parameters_as_vector] and
    [LearnedGPRegressionModel] of [src/models.py], which with [gpytorch] decide
    what [VectorizedGP.forward] returns.  The specification (section 4.2):
    [evaluate(x, y, train)] takes [x] of shape [[B, n, d]] and [y] of shape
    [[B, n]], "where [B] is a parameter-sample batch size (every call is
    vectorized over [B] independently-parameterized GPs evaluated on
    possibly-tiled data)", and with [train=True] "computes the exact marginal
    log-likelihood per batch element", of shape [[B]].  A batch of parameters
    that does not match the data's leading dimension is a shape error. *)
Definition batched_mll `{Collaborators} (params : Batched vector)
    (x_data : list matrix) (y_data : list vector) : result (Batched R) :=
  let B := length x_data in
  if bool_decide (batch_shape params = [B]) && (length (items params) =? B)%nat
     && (length y_data =? B)%nat
  then Ok (mkBatched [B]
             (zip_with (fun theta xy => gp_mll theta xy.1 xy.2)
                       (items params) (zip x_data y_data)))
  else Raise RuntimeError.

End VectorizedModel.


(* ===================================================================== *)
(** * src/random_gp.py *)
(* ===================================================================== *)

Module VectorizedGP.

Record t : Type := mk {
  mean_module_str : string;
  covar_module_str : string;
  _params : odict Tensor;
}.

(** [_param(name, tensor)]: the name must be new. *)
Definition _param (params : odict Tensor) (name : string) (tensor : Tensor)
  : result (odict Tensor) :=
  register params name tensor.

(** [_param_module(name, module)]: registers every parameter of the module
    under [name + '.' + param_name]. *)
Definition _param_module (params : odict Tensor) (name : string)
    (module : odict Tensor) : result (odict Tensor) :=
  for_each module
    (fun ps (p : string * Tensor) => _param ps (name +:+ "." +:+ p.1) p.2)
    params.

(** [VectorizedGP.__init__] *)
Definition init `{Collaborators} (input_dim feature_dim : nat)
    (covar_module_str mean_module_str : string)
    (mean_nn_layers kernel_nn_layers : list nat) : result t :=
  let params : odict Tensor := [] in
  let* params :=
    (if String.eqb mean_module_str "NN" then
       _param_module params "mean_nn" (nn_named_parameters input_dim 1 mean_nn_layers)
     else if String.eqb mean_module_str "constant" then
       _param params "constant_mean" (full [1; 1]%nat 0%R)
     else Raise NotImplementedError) in
  let* params :=
    (if String.eqb covar_module_str "NN" then
       let* params :=
         _param_module params "kernel_nn"
           (nn_named_parameters input_dim feature_dim kernel_nn_layers) in
       _param params "lengthscale" (full [1; feature_dim]%nat 1%R)
     else if String.eqb covar_module_str "SE" then
       _param params "lengthscale" (full [1; input_dim]%nat 1%R)
     else Raise NotImplementedError) in
  let* params := _param params "noise" (full [1; 1]%nat 1%R) in
  Ok (mk mean_module_str covar_module_str params).

Definition named_parameters (self : t) : odict Tensor := _params self.

Definition parameter_shapes (self : t) : odict (list nat) :=
  map (fun p : string * Tensor => (p.1, t_shape p.2)) (named_parameters self).

(** [forward(x_data, y_data, train=True)[1]] of a copy of the model whose
    parameters were set from [params]: the marginal log-likelihood per batch
    element. *)
Definition forward_mll `{Collaborators} (self : t) (params : Batched vector)
    (x_data : list matrix) (y_data : list vector) : result (Batched R) :=
  VectorizedModel.batched_mll params x_data y_data.

End VectorizedGP.

Module RandomGP.

Record t : Type := mk {
  prior_factor : R;
  gp : VectorizedGP.t;
  _param_dists : odict Distribution;
  hyper_prior : CatDist.t;
}.

(** [_param_dist(name, dist)] *)
Definition _param_dist (dists : odict Distribution) (name : string)
    (dist : Distribution) : result (odict Distribution) :=
  register dists name dist.

(** The body of the loop over [self.gp.parameter_shapes().items()]: four
    independent [if] statements. *)
Definition prior_step (weight_prior_std bias_prior_std : R)
    (dists : odict Distribution) (item : string * list nat)
  : result (odict Distribution) :=
  let name := item.1 in
  let shape := item.2 in
  let* dists :=
    (if String.eqb name "constant_mean" then
       let* d := to_event1 (Normal (full [1%nat] 0%R) (full [1%nat] 1%R)) in
       _param_dist dists name d
     else Ok dists) in
  let* dists :=
    (if String.eqb name "lengthscale" then
       let* n := last_dim shape in
       let* d := to_event1 (LogNormal (full [n] 0%R) (full [n] 1%R)) in
       _param_dist dists name d
     else Ok dists) in
  let* dists :=
    (if String.eqb name "noise" then
       let* d := to_event1 (LogNormal (full [1%nat] (ln (1 / 10))%R)
                                      (full [1%nat] (2 / 10)%R)) in
       _param_dist dists name d
     else Ok dists) in
  if contains "mean_nn" name || contains "kernel_nn" name then
    let mean := full shape 0%R in
    let* std :=
      (if contains "weight" name then Ok (full shape weight_prior_std)
       else if contains "bias" name then Ok (full shape bias_prior_std)
       else Raise NotImplementedError) in
    let* d := to_event1 (Normal mean std) in
    _param_dist dists name d
  else Ok dists.

(** "check that parameters in prior and gp modules are aligned": the loop over
    [zip(gp names, prior names)] *)
Definition check_aligned (gp_names prior_names : list string) : result unit :=
  for_each (zip gp_names prior_names)
    (fun _ (p : string * string) => assert (String.eqb p.1 p.2)) tt.

(** [RandomGP.__init__(size_in, prior_factor, weight_prior_std, bias_prior_std,
    **kwargs)], the keyword arguments being those of [VectorizedGP]. *)
Definition init `{Collaborators} (size_in : nat)
    (prior_factor weight_prior_std bias_prior_std : R)
    (feature_dim : nat) (covar_module_str mean_module_str : string)
    (mean_nn_layers kernel_nn_layers : list nat) : result t :=
  let* gp := VectorizedGP.init size_in feature_dim covar_module_str mean_module_str
               mean_nn_layers kernel_nn_layers in
  let* dists := for_each (VectorizedGP.parameter_shapes gp)
                  (prior_step weight_prior_std bias_prior_std) [] in
  let* _ := check_aligned (keys (VectorizedGP.named_parameters gp)) (keys dists) in
  Ok (mk prior_factor gp dists (CatDist.mk (values dists))).

Definition _log_prob_prior `{Collaborators} (self : t) (params : Batched vector)
  : Batched R :=
  CatDist.log_prob (hyper_prior self) params.

(** [get_forward_fn(params)] followed by the call [fn(x_data, y_data)] *)
Definition _log_prob_likelihood `{Collaborators} (self : t) (params : Batched vector)
    (x_data : list matrix) (y_data : list vector) : result (Batched R) :=
  VectorizedGP.forward_mll (gp self) params x_data y_data.

Definition log_prob `{Collaborators} (self : t) (params : Batched vector)
    (x_data : list matrix) (y_data : list vector) : result (Batched R) :=
  let prior := bscale (prior_factor self) (_log_prob_prior self params) in
  let* likelihood := _log_prob_likelihood self params x_data y_data in
  bzip Rplus prior likelihood.

Definition parameter_shapes (self : t) : odict (list nat) :=
  map (fun p : string * Distribution => (p.1, event_shape p.2)) (_param_dists self).

End RandomGP.


(** [t.exp()], [a - b] and [t ** 2] on parameter tensors *)
Definition texp (t : Tensor) : Tensor := mkTensor (t_shape t) (map exp (t_data t)).

Definition tsquare (t : Tensor) : Tensor :=
  mkTensor (t_shape t) (map (fun s => (s ^ 2)%R) (t_data t)).

Definition tsub (a b : Tensor) : result Tensor :=
  if bool_decide (t_shape a = t_shape b)
  then Ok (mkTensor (t_shape a) (zip_with Rminus (t_data a) (t_data b)))
  else Raise RuntimeError.

(** The rows of a tensor along its last axis. *)
Definition lead_dims (shape : list nat) : list nat := take (length shape - 1) shape.
Definition last_size (shape : list nat) : nat := List.last shape 0%nat.

Definition rows_of (t : Tensor) : list vector :=
  let n := last_size (t_shape t) in
  map (fun i => take n (drop (i * n) (t_data t)))
      (seq 0 (numel (lead_dims (t_shape t)))).

(** [torch.cat(ts, dim=-1)]: the tensors must be at least one-dimensional and
    agree on all but the last axis. *)
Definition torch_cat_last (ts : list Tensor) : result Tensor :=
  match ts with
  | [] => Raise RuntimeError
  | t0 :: _ =>
      let lead := lead_dims (t_shape t0) in
      if forallb (fun t => bool_decide (t_shape t <> [] /\ lead_dims (t_shape t) = lead)) ts
      then Ok (mkTensor
                 (lead ++ [fold_right Nat.add 0%nat (map (fun t => last_size (t_shape t)) ts)])
                 (concat (CatDist.cat_last lead (map rows_of ts))))
      else Raise RuntimeError
  end.

Module RandomGPPosterior.

(** The three closures that [__init__] stores in [_param_dist_funcs]:
    the lambda of the [constant_mean] branch, the lambda of the
    [lengthscale]/[noise] branch and [dist_fn] of the neural-network branch. *)
Inductive dist_fn : Type := ConstMeanFn | LogNormalFn | NNFn.

(** The module: its trainable parameters by attribute name, and the registry of
    closures by group name. *)
Record t : Type := mk {
  attrs : gmap string Tensor;
  _param_dist_funcs : odict dist_fn;
}.

Definition getattr (self : t) (name : string) : result Tensor :=
  match attrs self !! name with
  | Some v => Ok v
  | None => Raise AttributeError
  end.

Definition setattr (self : t) (name : string) (v : Tensor) : t :=
  mk (<[name := v]> (attrs self)) (_param_dist_funcs self).

(** the attributes a closure reads when called with [name], and the family of
    the distribution it builds *)
Definition loc_attr (fn : dist_fn) (name : string) : string :=
  match fn with
  | ConstMeanFn => "const_mean_loc"
  | LogNormalFn | NNFn => name +:+ "_loc"
  end.

Definition scale_raw_attr (fn : dist_fn) (name : string) : string :=
  match fn with
  | ConstMeanFn => "const_mean_scale_raw"
  | LogNormalFn | NNFn => name +:+ "_scale_raw"
  end.

Definition family_of (fn : dist_fn) : family :=
  match fn with
  | ConstMeanFn | NNFn => FNormal
  | LogNormalFn => FLogNormal
  end.

(** [dist_fn(name)] *)
Definition call (self : t) (fn : dist_fn) (name : string) : result Distribution :=
  let* loc := getattr self (loc_attr fn name) in
  let* scale_raw := getattr self (scale_raw_attr fn name) in
  match family_of fn with
  | FNormal => to_event1 (Normal loc (texp scale_raw))
  | FLogNormal => to_event1 (LogNormal loc (texp scale_raw))
  end.

(** [_dist(name, dist_get_fn)] *)
Definition _dist (self : t) (name : string) (fn : dist_fn) : result t :=
  let* funcs := register (_param_dist_funcs self) name fn in
  Ok (mk (attrs self) funcs).

(** [torch.nn.Parameter(torch.normal(mu, init_std, size=size))]: the draw for
    attribute [attr] is the input [rng attr]. *)
Definition normal_draw (rng : string -> nat -> R) (attr : string) (size : list nat)
  : Tensor :=
  mkTensor size (map (rng attr) (seq 0 (numel size))).

(** The body of the loop over [named_param_shapes.items()]. *)
Definition init_step (rng : string -> nat -> R) (self : t) (item : string * list nat)
  : result t :=
  let name := item.1 in
  let shape := item.2 in
  let* self :=
    (if String.eqb name "constant_mean" then
       let self := setattr self "const_mean_loc" (normal_draw rng "const_mean_loc" shape) in
       let self := setattr self "const_mean_scale_raw"
                     (normal_draw rng "const_mean_scale_raw" shape) in
       _dist self name ConstMeanFn
     else Ok self) in
  let* self :=
    (if String.eqb name "lengthscale" || String.eqb name "noise" then
       let self := setattr self (name +:+ "_loc") (normal_draw rng (name +:+ "_loc") shape) in
       let self := setattr self (name +:+ "_scale_raw")
                     (normal_draw rng (name +:+ "_scale_raw") shape) in
       _dist self name LogNormalFn
     else Ok self) in
  if contains "mean_nn" name || contains "kernel_nn" name then
    let name := replace_dots name in
    let self := setattr self (name +:+ "_loc") (normal_draw rng (name +:+ "_loc") shape) in
    let self := setattr self (name +:+ "_scale_raw")
                  (normal_draw rng (name +:+ "_scale_raw") shape) in
    _dist self name NNFn
  else Ok self.

(** [forward()] *)
Definition forward (self : t) : result CatDist.t :=
  let* ds := map_result (fun p : string * dist_fn => call self p.2 p.1)
               (_param_dist_funcs self) in
  Ok (CatDist.mk ds).

(** the closing loop of [__init__]: [assert dist.event_shape == param_shape] over
    [zip(named_param_shapes.values(), self.forward().dists)] *)
Definition check_shapes (shapes : list (list nat)) (ds : list Distribution)
  : result unit :=
  for_each (zip shapes ds)
    (fun _ (p : list nat * Distribution) =>
       assert (bool_decide (event_shape p.2 = p.1))) tt.

(** [RandomGPPosterior.__init__(named_param_shapes, init_std)] *)
Definition init (rng : string -> nat -> R) (named_param_shapes : odict (list nat))
  : result t :=
  let* self := for_each named_param_shapes (init_step rng) (mk ∅ []) in
  let* c := forward self in
  let* _ := check_shapes (values named_param_shapes) (CatDist.dists c) in
  Ok self.

(** [rsample(sample_shape)]: [eps] holds, for each group in order, the standard
    noise of each of the [numel sample_shape] draws. *)
Definition rsample `{Collaborators} (self : t) (sample_shape : list nat)
    (eps : list (list vector)) : result (Batched vector) :=
  let* c := forward self in
  Ok (CatDist.sample c sample_shape
        (zip_with (fun d e => map (dist_rsample d) e) (CatDist.dists c) eps)).

Definition log_prob `{Collaborators} (self : t) (value : Batched vector)
  : result (Batched R) :=
  let* c := forward self in
  Ok (CatDist.log_prob c value).

(** [_get_base_dist(dist)] *)
Fixpoint _get_base_dist (dist : Distribution) : Distribution :=
  match dist with
  | Independent base _ => _get_base_dist base
  | _ => dist
  end.

(** The body of the loop of [mode()].  A base distribution is a [Normal] or a
    [LogNormal]; for a [Normal], [dist.mean] is its [loc]. *)
Definition mode_of (dist : Distribution) : result Tensor :=
  match _get_base_dist dist with
  | Normal loc _ => Ok loc
  | LogNormal loc scale =>
      let* diff := tsub loc (tsquare scale) in
      Ok (texp diff)
  | Independent _ _ => Raise NotImplementedError
  end.

(** [mode()] *)
Definition mode (self : t) : result Tensor :=
  let* modes :=
    map_result (fun p : string * dist_fn =>
                  let* dist := call self p.2 p.1 in mode_of dist)
               (_param_dist_funcs self) in
  torch_cat_last modes.

End RandomGPPosterior.


(* ===================================================================== *)
(** * meta_learn/GPR_meta_vi.py *)
(* ===================================================================== *)

#[global] Instance R_eq_dec : EqDecision R := Req_dec_T.

(** [torch.mean(t)] of a one-dimensional tensor; the mean of no element is NaN. *)
Definition torch_mean (l : list R) : float :=
  match l with
  | [] => NaN
  | _ => Finite (fold_right Rplus 0 l / INR (length l))%R
  end.

Definition fneg (x : float) : float :=
  match x with
  | Finite r => Finite (- r)%R
  | NaN => NaN
  end.

Module RandomGPMeta.

(** Modelled from the spec: class [RandomGPMeta] of [meta_learn/random_gp.py],
    whose source is not at hand.  It is constructed with the arguments of
    [RandomGP] and its [log_prob(params, data_tuples)] is, in the words of the
    specification (section 4.5), [sum_over_sampled_tasks(log_joint)], the
    log-joint of section 4.3 being [RandomGP.log_prob]. *)
Definition log_prob `{Collaborators} (self : RandomGP.t) (params : Batched vector)
    (data_tuples_tiled : list (list matrix * list vector)) : result (Batched R) :=
  for_each data_tuples_tiled
    (fun acc (xy : list matrix * list vector) =>
       let* lj := RandomGP.log_prob self params xy.1 xy.2 in
       bzip Rplus acc lj)
    (bzeros (batch_shape params)).

End RandomGPMeta.

Module GPRegressionMetaLearnedVI.

(** The [mean_module] and [covar_module] arguments: a family string, or an
    instance of [gpytorch.means.Mean] / [gpytorch.kernels.Kernel]. *)
Inductive module_arg : Type :=
| Str (s : string)
| ModuleInstance.

(** [arg in names or isinstance(arg, gpytorch...)] *)
Definition in_or_instance (arg : module_arg) (names : list string) : bool :=
  match arg with
  | Str s => str_in s names
  | ModuleInstance => true
  end.

(** [arg in names] *)
Definition arg_in (arg : module_arg) (names : list string) : bool :=
  match arg with
  | Str s => str_in s names
  | ModuleInstance => false
  end.

(** What a task dictionary holds. *)
Inductive pyval : Type :=
| VMatrix (m : matrix)
| VVector (v : vector)
| VModel (parameters : odict Tensor).

Record Optimizer : Type := mkOptimizer {
  algorithm : string;
  lr : R;
  opt_state : odict Tensor;
}.

Inductive LRScheduler : Type :=
| StepLR (step_size : nat) (gamma : R)
| DummyLRScheduler.

Record t `{Collaborators} : Type := mk {
  num_iter_fit : Z;
  prior_factor : R;
  feature_dim : nat;
  weight_prior_std : R;
  bias_prior_std : R;
  svi_batch_size : nat;
  task_batch_size : Z;
  input_dim : nat;
  stats : normalization_stats;
  random_gp : RandomGP.t;
  posterior : RandomGPPosterior.t;
  optimizer : Optimizer;
  lr_scheduler : LRScheduler;
  task_dicts : list (gmap string pyval);
  fitted : bool;
}.

(** The keyword arguments of [__init__]. *)
Record args : Type := mkArgs {
  a_num_iter_fit : Z;
  a_feature_dim : nat;
  a_prior_factor : R;
  a_weight_prior_std : R;
  a_bias_prior_std : R;
  a_covar_module : module_arg;
  a_mean_module : module_arg;
  a_mean_nn_layers : list nat;
  a_kernel_nn_layers : list nat;
  a_optimizer : string;
  a_lr : R;
  a_lr_decay : R;
  a_svi_batch_size : nat;
  a_cov_type : string;
  a_task_batch_size : Z;
}.

(** lines 79-82 of [__init__] *)
Definition effective_task_batch_size (task_batch_size : Z) (n_tasks : nat) : Z :=
  if (task_batch_size <? 1)%Z then Z.of_nat n_tasks
  else Z.min task_batch_size (Z.of_nat n_tasks).

(** The model part of [_setup_model_inference]: the two assertions, the random
    GP and the variational posterior.  [feature_dim] is not passed on, so the
    GP is built with its default of 2.  The constructors of [RandomGPMeta] and
    of the posterior of [meta_learn/random_gp.py] are taken to be those of
    [RandomGP] and [RandomGPPosterior] of [src/random_gp.py], the diagonal
    posterior that the specification describes (section 4.4). *)
Definition _setup_model_inference `{Collaborators} (rng : string -> nat -> R)
    (input_dim : nat) (prior_factor weight_prior_std bias_prior_std : R)
    (mean_module_str covar_module_str : module_arg)
    (mean_nn_layers kernel_nn_layers : list nat)
  : result (RandomGP.t * RandomGPPosterior.t) :=
  let* _ := assert (arg_in mean_module_str ["NN"; "constant"]) in
  let* _ := assert (arg_in covar_module_str ["NN"; "SE"]) in
  match mean_module_str, covar_module_str with
  | Str mean, Str covar =>
      let* random_gp := RandomGP.init input_dim prior_factor weight_prior_std
                          bias_prior_std 2 covar mean mean_nn_layers kernel_nn_layers in
      let param_shapes_dict := RandomGP.parameter_shapes random_gp in
      let* posterior := RandomGPPosterior.init rng param_shapes_dict in
      Ok (random_gp, posterior)
  | _, _ => Raise AssertionError
  end.

(** [_setup_optimizer(optimizer, lr, lr_decay)] *)
Definition _setup_optimizer (optimizer : string) (lr lr_decay : R)
  : result (Optimizer * LRScheduler) :=
  let* opt :=
    (if String.eqb optimizer "Adam" then Ok (mkOptimizer "Adam" lr [])
     else if String.eqb optimizer "SGD" then Ok (mkOptimizer "SGD" lr [])
     else Raise NotImplementedError) in
  Ok (opt, if Rlt_dec lr_decay 1 then StepLR 1000 lr_decay else DummyLRScheduler).

(** "Setup components that are different across tasks": one dictionary per
    task, with the keys [train_x] and [train_y]. *)
Definition make_task_dict `{Collaborators} (st : normalization_stats) (task : dataset)
  : result (gmap string pyval) :=
  let task_dict : gmap string pyval := ∅ in
  let* xy := prepare_data_per_task st task in
  let task_dict := <["train_x" := VMatrix xy.1]> task_dict in
  let task_dict := <["train_y" := VVector xy.2]> task_dict in
  Ok task_dict.

(** [GPRegressionMetaLearnedVI.__init__] *)
Definition init `{Collaborators} (rng : string -> nat -> R)
    (meta_train_data : list dataset) (a : args) : result t :=
  let* _ := assert (in_or_instance (a_mean_module a) ["NN"; "constant"; "zero"]) in
  let* _ := assert (in_or_instance (a_covar_module a) ["NN"; "SE"]) in
  let* _ := assert (str_in (a_optimizer a) ["Adam"; "SGD"]) in
  let task_batch_size :=
    effective_task_batch_size (a_task_batch_size a) (length meta_train_data) in
  let* input_dim := check_meta_data_shapes meta_train_data in
  let* st := compute_normalization_stats meta_train_data in
  let* model := _setup_model_inference rng input_dim (a_prior_factor a)
                  (a_weight_prior_std a) (a_bias_prior_std a)
                  (a_mean_module a) (a_covar_module a)
                  (a_mean_nn_layers a) (a_kernel_nn_layers a) in
  let* opt := _setup_optimizer (a_optimizer a) (a_lr a) (a_lr_decay a) in
  let* task_dicts := map_result (make_task_dict st) meta_train_data in
  Ok (mk _ (a_num_iter_fit a) (a_prior_factor a) (a_feature_dim a)
         (a_weight_prior_std a) (a_bias_prior_std a) (a_svi_batch_size a)
         task_batch_size input_dim st model.1 model.2 opt.1 opt.2 task_dicts false).

(** reading a tensor out of a task dictionary *)
Definition as_matrix (v : pyval) : result matrix :=
  match v with VMatrix m => Ok m | _ => Raise AttributeError end.

Definition as_vector (v : pyval) : result vector :=
  match v with VVector y => Ok y | _ => Raise AttributeError end.

(** [_tile_data_tuples(tasks_dicts, tile_size)] *)
Definition _tile_data_tuples (tasks_dicts : list (gmap string pyval)) (tile_size : nat)
  : result (list (list matrix * list vector)) :=
  map_result
    (fun task_dict : gmap string pyval =>
       let* xv := getitem task_dict "train_x" in
       let* yv := getitem task_dict "train_y" in
       let* x_data := as_matrix xv in
       let* y_data := as_vector yv in
       Ok (repeat x_data tile_size, repeat y_data tile_size))
    tasks_dicts.

(** [get_neg_elbo(tasks_dicts)]; [eps] is the standard noise from which
    [self.posterior.rsample] makes its [svi_batch_size] draws. *)
Definition get_neg_elbo `{Collaborators} (self : t) (eps : list (list vector))
    (tasks_dicts : list (gmap string pyval)) : result float :=
  let* data_tuples_tiled := _tile_data_tuples tasks_dicts (svi_batch_size self) in
  let* param_sample :=
    RandomGPPosterior.rsample (posterior self) [svi_batch_size self] eps in
  let* log_joint := RandomGPMeta.log_prob (random_gp self) param_sample data_tuples_tiled in
  let* log_q := RandomGPPosterior.log_prob (posterior self) param_sample in
  let* elbo := bzip Rminus log_joint (bscale (prior_factor self) log_q) in
  let* _ := assert (bool_decide (batch_shape elbo = [svi_batch_size self])) in
  Ok (fneg (torch_mean (items elbo))).

(** What [state_dict()] returns: the dictionary with the keys [optimizer] and
    [model]. *)
Record checkpoint : Type := mkCheckpoint {
  ck_optimizer : odict Tensor;
  ck_model : odict Tensor;
}.

(** [task_dict["model"].state_dict()] *)
Definition model_state_dict (task_dict : gmap string pyval) : result (odict Tensor) :=
  let* m := getitem task_dict "model" in
  match m with
  | VModel parameters => Ok parameters
  | _ => Raise AttributeError
  end.

(** [torch.all(a == b).item()] *)
Definition tensor_all_eq (a b : Tensor) : result bool :=
  if bool_decide (t_shape a = t_shape b)
  then Ok (bool_decide (t_data a = t_data b))
  else Raise RuntimeError.

(** [state_dict()] *)
Definition state_dict `{Collaborators} (self : t) : result checkpoint :=
  let opt_sd := opt_state (optimizer self) in
  let* first :=
    (match task_dicts self with
     | [] => Raise IndexError
     | task_dict :: _ => Ok task_dict
     end) in
  let* model_sd := model_state_dict first in
  let* _ :=
    for_each (task_dicts self)
      (fun _ (task_dict : gmap string pyval) =>
         let* sd := model_state_dict task_dict in
         for_each sd
           (fun _ (kt : string * Tensor) =>
              let* reference := ogetitem model_sd kt.1 in
              let* same := tensor_all_eq reference kt.2 in
              assert same)
           tt)
      tt in
  Ok (mkCheckpoint opt_sd model_sd).

(** [load_state_dict(state_dict)] *)
Definition load_state_dict `{Collaborators} (self : t) (state : checkpoint) : result t :=
  let* task_dicts :=
    map_result
      (fun task_dict : gmap string pyval =>
         let* _ := model_state_dict task_dict in
         Ok (<["model" := VModel (ck_model state)]> task_dict))
      (task_dicts self) in
  let opt := mkOptimizer (algorithm (optimizer self)) (lr (optimizer self))
               (ck_optimizer state) in
  Ok (mk _ (num_iter_fit self) (prior_factor self) (feature_dim self)
         (weight_prior_std self) (bias_prior_std self) (svi_batch_size self)
         (task_batch_size self) (input_dim self) (stats self) (random_gp self)
         (posterior self) opt (lr_scheduler self) task_dicts (fitted self)).

End GPRegressionMetaLearnedVI.


(* ===================================================================== *)
(** * experiments/hyperparam_search/meta_vi_hyperparam.py *)
(* ===================================================================== *)

Module HyperparamSearch.

(** A value of a trial configuration or of a result record. *)
Inductive value : Type :=
| VInt (z : Z)
| VFloat (x : float)
| VStr (s : string)
| VList (l : list Z)
| VBool (b : bool).

(** The body of the [try] block of [train_test] up to the last statement:
    provide the data, build and fit the model, evaluate it on the test set.  It
    returns [(ll, rmse, calib_err)] or raises. *)
Definition trial_body : Type := gmap string value -> result (float * float * float).

(** [results_dict.update(ll=..., rmse=..., calib_err=...)] *)
Definition update_metrics (results_dict : gmap string value) (ll rmse calib_err : float)
  : gmap string value :=
  <["calib_err" := VFloat calib_err]>
    (<["rmse" := VFloat rmse]> (<["ll" := VFloat ll]> results_dict)).

(** [train_test(config)]: what the remote call returns, or the exception that
    leaves it. *)
Definition train_test (fit_and_eval : trial_body) (config : gmap string value)
  : result (gmap string value) :=
  let results_dict := config in
  match fit_and_eval config with
  | Ok (ll, rmse, calib_err) => Ok (update_metrics results_dict ll rmse calib_err)
  | Raise e =>
      if is_Exception e
      then Ok (update_metrics results_dict NaN NaN NaN)
      else Raise e
  end.

End HyperparamSearch.


(* ===================================================================== *)
(** * More of src/random_gp.py *)
(* ===================================================================== *)

(** [d[k] = v] on an [OrderedDict]: a known key keeps its place. *)
Definition osetitem {V} (d : odict V) (k : string) (v : V) : odict V :=
  if str_in k (keys d)
  then map (fun p : string * V => if String.eqb p.1 k then (p.1, v) else p) d
  else d ++ [(k, v)].

(** [_filter(dict, str)] *)
Definition _filter {V} (dict : odict V) (str : string) : odict V :=
  fold_left
    (fun result (item : string * V) =>
       if contains str item.1 then osetitem result item.1 item.2 else result)
    dict [].

(* ===================================================================== *)
(** * More of experiments/hyperparam_search/meta_vi_hyperparam.py *)
(* ===================================================================== *)

Module SearchDriver.

Import HyperparamSearch.

Definition SEED : Z := 28.
Definition TEST_SEEDS : list Z := [28; 29; 30; 31; 32]%Z.

(** The keyword parameters of [GPRegressionMetaLearnedVI.__init__]. *)
Definition init_keywords : list string :=
  ["num_iter_fit"; "feature_dim"; "prior_factor"; "weight_prior_std";
   "bias_prior_std"; "covar_module"; "mean_module"; "mean_nn_layers";
   "kernel_nn_layers"; "optimizer"; "lr"; "lr_decay"; "svi_batch_size";
   "cov_type"; "task_batch_size"; "normalize_data"; "random_seed"].

(** What a trial needs from the rest of the repository: the data of
    [experiments/data_sim.py], and the meta-learner with its constructor body,
    its [meta_fit] and its [eval_datasets]. *)
Class Driver : Type := {
  data : Type;
  model : Type;
  (** [provide_data(dataset=args.dataset, seed=SEED)]: train, valid and test data *)
  provide_data : result (data * data * data);
  (** the body of [GPRegressionMetaLearnedVI.__init__], its keywords bound *)
  construct : data -> gmap string value -> result model;
  (** [model.meta_fit(valid_tuples, verbose, log_period, n_iter)] *)
  fit : model -> option data -> bool -> Z -> option Z -> result (float * model);
  (** [model.eval_datasets(data)]: log-likelihood, rmse and calibration error *)
  evaluate : model -> data -> result (float * float * float);
}.

(** [GPRegressionMetaLearnedVI(data_train, **config)]: a key of [config] that is
    no keyword of the constructor is a [TypeError] of the call. *)
Definition construct_with_kwargs `{Driver} (data_train : data)
    (config : gmap string value) : result model :=
  if forallb (fun kv : string * value => str_in kv.1 init_keywords) (map_to_list config)
  then construct data_train config
  else Raise TypeError.

(** One call of [reporter]. *)
Record report : Type := mkReport {
  timesteps_total : Z;
  loss : float;
  test_rmse : float;
  test_ll : float;
  calib_err : float;
}.

(** [config["num_iter_fit"] // eval_period] as the argument of [range]: the
    number of rounds. *)
Definition rounds (config : gmap string value) (eval_period : Z) : result nat :=
  let* v := getitem config "num_iter_fit" in
  match v with
  | VInt n => Ok (Z.to_nat (n / eval_period))
  | VBool b => Ok (Z.to_nat ((if b then 1 else 0) / eval_period))
  | _ => Raise TypeError
  end.

(** The loop of [train_reg]: [i] rounds left, the reports made so far in
    [reports]. *)
Fixpoint train_reg_loop `{Driver} (i : nat) (eval_period train_iter : Z) (m : model)
    (data_valid : data) (reports : list report) : list report * result unit :=
  match i with
  | O => (reports, Ok tt)
  | S i' =>
      match fit m None false 2000 (Some eval_period) with
      | Raise e => (reports, Raise e)
      | Ok (loss, m) =>
          let train_iter := (train_iter + eval_period)%Z in
          match evaluate m data_valid with
          | Raise e => (reports, Raise e)
          | Ok (ll, rmse, calib_err) =>
              train_reg_loop i' eval_period train_iter m data_valid
                (reports ++ [mkReport train_iter loss rmse ll calib_err])
          end
      end
  end.

(** [train_reg(config, reporter)]: the reports made, and how the call ends. *)
Definition train_reg `{Driver} (config : gmap string value) : list report * result unit :=
  match provide_data with
  | Raise e => ([], Raise e)
  | Ok (data_train, data_valid, _) =>
      match construct_with_kwargs data_train config with
      | Raise e => ([], Raise e)
      | Ok m =>
          let eval_period := 3000%Z in
          let train_iter := 0%Z in
          match rounds config eval_period with
          | Raise e => ([], Raise e)
          | Ok n => train_reg_loop n eval_period train_iter m data_valid []
          end
      end
  end.

(** The body of the [try] block of [train_test], up to its last statement. *)
Definition train_test_body `{Driver} : trial_body :=
  fun config =>
    let* d := provide_data in
    let data_train := d.1.1 in
    let data_test := d.2 in
    let* m := construct_with_kwargs data_train config in
    let* fitted := fit m (Some data_test) true 5000 None in
    evaluate fitted.2 data_test.

(** The end of [main]: every best configuration is copied once per test seed,
    the copy's [random_seed] set to the seed. *)
Definition test_configs (best_configs : list (gmap string value))
  : list (gmap string value) :=
  fold_left
    (fun test_configs config =>
       fold_left
         (fun test_configs seed =>
            let test_config := config in
            let test_config := <["random_seed" := VInt seed]> test_config in
            test_configs ++ [test_config])
         TEST_SEEDS test_configs)
    best_configs [].

(** [ray.get([train_test.remote(config) for config in test_configs])] *)
Definition run_tests (fit_and_eval : trial_body) (best_configs : list (gmap string value))
  : result (list (gmap string value)) :=
  map_result (train_test fit_and_eval) (test_configs best_configs).

End SearchDriver.

(* ===================================================================== *)
(** * More of meta_learn/GPR_meta_vi.py: the training loop *)
(* ===================================================================== *)

Module MetaFit.

Import GPRegressionMetaLearnedVI.

(** How [meta_fit] ends when it does not return: with an exception of the rest
    of the code, or with one of two built-in errors that only this loop meets. *)
Inductive error : Type :=
| PyError (e : exn)
| ZeroDivisionError
| UnboundLocalError (name : string).

Inductive outcome : Type :=
| Returned (loss : float)
| Failed (e : error).

(** What the loop needs from torch and from the parent class
    [RegressionModelMetaLearned]. *)
Class Training `{Collaborators} : Type := {
  (** [loss.backward(); self.optimizer.step()]: the optimizer, the loss as a
      function of the variational parameters and these parameters give the new
      parameters and the new buffers of the optimizer *)
  optimizer_step : Optimizer -> (RandomGPPosterior.t -> result float) ->
                   RandomGPPosterior.t -> RandomGPPosterior.t * odict Tensor;
  (** [self.eval_datasets(valid_tuples)] *)
  eval_datasets : t -> list (list Tensor) -> result (float * float * float);
}.

(** The learner together with the counter of its learning-rate scheduler
    ([last_epoch] of torch's [StepLR], the number of [step()] calls so far). *)
Record state `{Collaborators} : Type := mkState {
  learner : t;
  last_epoch : nat;
}.

Arguments mkState {_} _ _.

(** One [self.logger.info(message)]: the message's iteration, the total it
    names, the loss and, with validation data, the three validation metrics. *)
Record log_entry : Type := mkLog {
  log_itr : Z;
  log_total : Z;
  log_loss : float;
  log_valid : option (float * float * float);
}.

(** [rds_numpy.choice(a, size=size)]: [size] draws with replacement, [draw k]
    the random number behind the [k]-th one. *)
Definition choice {A} (a : list A) (size : Z) (draw : nat -> nat) : result (list A) :=
  if (size <? 0)%Z then Raise ValueError
  else
    match a with
    | [] => if (size =? 0)%Z then Ok [] else Raise ValueError
    | a0 :: _ =>
        Ok (map (fun k => nth (draw k mod length a) a a0) (seq 0 (Z.to_nat size)))
    end.

(** The learner with new variational parameters, optimizer and [fitted]. *)
Definition updated `{Collaborators} (self : t) (posterior : RandomGPPosterior.t)
    (optimizer : Optimizer) (fitted : bool) : t :=
  mk _ (num_iter_fit self) (prior_factor self) (feature_dim self)
       (weight_prior_std self) (bias_prior_std self) (svi_batch_size self)
       (task_batch_size self) (input_dim self) (stats self) (random_gp self)
       posterior optimizer (lr_scheduler self) (task_dicts self) fitted.

(** [self.lr_scheduler.step()], the counter already advanced to [last_epoch]:
    the new learning rate, or nothing when [last_epoch % step_size] divides by
    zero.  torch's [StepLR] multiplies the rate by [gamma] at every epoch that
    [step_size] divides; [DummyLRScheduler()] is built without the optimizer
    (line 350), so its [step] has no learning rate to change. *)
Definition lr_scheduler_step (scheduler : LRScheduler) (last_epoch : nat) (lr : R)
  : option R :=
  match scheduler with
  | StepLR step_size gamma =>
      if (last_epoch =? 0)%nat then Some lr
      else if (step_size =? 0)%nat then None
      else if negb (last_epoch mod step_size =? 0)%nat then Some lr
      else Some (lr * gamma)%R
  | DummyLRScheduler => Some lr
  end.

(** [itr == 1 or itr % log_period == 0], nothing when the remainder divides by
    zero. *)
Definition log_now (itr log_period : Z) : option bool :=
  if (itr =? 1)%Z then Some true
  else if (log_period =? 0)%Z then None
  else Some (itr mod log_period =? 0)%Z.

(** The local variables that one iteration of the loop hands to the next. *)
Record progress `{Collaborators} : Type := mkProgress {
  current : state;
  logged : list log_entry;
  loss : option float;
}.

Arguments mkProgress {_} _ _ _.

(** The body of the loop of [meta_fit] at iteration [itr], with the random
    numbers [draw] of [choice] and [eps] of [rsample]. *)
Definition iteration `{Training} (valid_tuples : option (list (list Tensor)))
    (verbose : bool) (log_period : Z) (draw : nat -> nat) (eps : list (list vector))
    (itr : Z) (p : progress) : progress * option error :=
  let self := learner (current p) in
  match choice (task_dicts self) (task_batch_size self) draw with
  | Raise e => (p, Some (PyError e))
  | Ok task_dict_batch =>
  match get_neg_elbo self eps task_dict_batch with
  | Raise e => (p, Some (PyError e))
  | Ok loss =>
      let objective := fun q : RandomGPPosterior.t =>
        get_neg_elbo (updated self q (optimizer self) (fitted self)) eps task_dict_batch in
      let stepped := optimizer_step (optimizer self) objective (posterior self) in
      let opt := mkOptimizer (algorithm (optimizer self)) (lr (optimizer self)) stepped.2 in
      let epoch := S (last_epoch (current p)) in
      match lr_scheduler_step (lr_scheduler self) epoch (lr opt) with
      | None =>
          (mkProgress (mkState (updated self stepped.1 opt (fitted self)) epoch)
                      (logged p) (Some loss),
           Some ZeroDivisionError)
      | Some lr' =>
          let opt := mkOptimizer (algorithm opt) lr' (opt_state opt) in
          let self := updated self stepped.1 opt (fitted self) in
          let p := mkProgress (mkState self epoch) (logged p) (Some loss) in
          match log_now itr log_period with
          | None => (p, Some ZeroDivisionError)
          | Some false => (p, None)
          | Some true =>
              match valid_tuples with
              | None =>
                  let message := mkLog itr (num_iter_fit self) loss None in
                  (mkProgress (current p)
                              (if verbose then logged p ++ [message] else logged p)
                              (Some loss), None)
              | Some valid_tuples =>
                  match eval_datasets self valid_tuples with
                  | Raise e => (p, Some (PyError e))
                  | Ok metrics =>
                      let message := mkLog itr (num_iter_fit self) loss (Some metrics) in
                      (mkProgress (current p)
                                  (if verbose then logged p ++ [message] else logged p)
                                  (Some loss), None)
                  end
              end
          end
      end
  end
  end.

(** [for itr in range(k + 1, k + n + 1)]: the iterations [k + 1], ..., [k + n];
    iteration [itr] uses the random numbers [rnd (itr - 1)]. *)
Fixpoint loop `{Training} (valid_tuples : option (list (list Tensor)))
    (verbose : bool) (log_period : Z) (rnd : nat -> (nat -> nat) * list (list vector))
    (n k : nat) (p : progress) : progress * option error :=
  match n with
  | O => (p, None)
  | S n' =>
      match iteration valid_tuples verbose log_period (rnd k).1 (rnd k).2
              (Z.of_nat (S k)) p with
      | (p, Some e) => (p, Some e)
      | (p, None) => loop valid_tuples verbose log_period rnd n' (S k) p
      end
  end.

(** [all([len(valid_tuple) == 4 for valid_tuple in valid_tuples])] *)
Definition all_of_length_4 (valid_tuples : list (list Tensor)) : bool :=
  forallb (fun valid_tuple => (length valid_tuple =? 4)%nat) valid_tuples.

(** [meta_fit(valid_tuples, verbose, log_period, n_iter)]: the learner after
    the call, the messages logged, and how the call ends. *)
Definition meta_fit `{Training} (self : state)
    (valid_tuples : option (list (list Tensor))) (verbose : bool) (log_period : Z)
    (n_iter : option Z) (rnd : nat -> (nat -> nat) * list (list vector))
  : state * list log_entry * outcome :=
  if negb (match valid_tuples with
           | None => true
           | Some valid_tuples => all_of_length_4 valid_tuples
           end)
  then (self, [], Failed (PyError AssertionError))
  else
    let n_iter := match n_iter with
                  | None => num_iter_fit (learner self)
                  | Some n_iter => n_iter
                  end in
    match loop valid_tuples verbose log_period rnd (Z.to_nat n_iter) 0
            (mkProgress self [] None) with
    | (p, Some e) => (current p, logged p, Failed e)
    | (p, None) =>
        let self := learner (current p) in
        let self := updated self (posterior self) (optimizer self) true in
        (mkState self (last_epoch (current p)), logged p,
         match loss p with
         | None => Failed (UnboundLocalError "loss")
         | Some loss => Returned loss
         end)
    end.

End MetaFit.


(* ===================================================================== *)
(** * Properties *)
(* ===================================================================== *)

(** ** A concrete environment, to run the embedding on examples *)

Module Example.

(** a network with one linear layer: a weight and a bias per output *)
Definition toy_nn (input_dim output_dim : nat) (_ : list nat) : odict Tensor :=
  [("out.weight", full [(input_dim * output_dim)%nat] 0%R);
   ("out.bias", full [output_dim] 0%R)].

(** a likelihood that only looks at the targets and the first parameter *)
Definition toy_mll (theta : vector) (_ : matrix) (y : vector) : R :=
  (hd 0 theta + fold_right Rplus 0 y)%R.

Definition toy : Collaborators := {|
  nn_named_parameters := toy_nn;
  dist_log_prob := fun _ v => fold_right Rplus 0%R v;
  dist_rsample := fun _ eps => eps;
  gp_mll := toy_mll;
  normalization_stats := unit;
  check_meta_data_shapes := fun _ => Ok 1%nat;
  compute_normalization_stats := fun _ => Ok tt;
  prepare_data_per_task := fun _ task => Ok task;
|}.

Definition toy_args (mean covar : string) (task_batch_size : Z) (svi : nat)
  : GPRegressionMetaLearnedVI.args :=
  GPRegressionMetaLearnedVI.mkArgs 100 1 1 1 3
    (GPRegressionMetaLearnedVI.Str covar) (GPRegressionMetaLearnedVI.Str mean)
    [32; 32]%nat [32; 32]%nat "Adam" 1 1 svi "diag" task_batch_size.

Definition toy_rng (_ : string) (_ : nat) : R := 0%R.

Definition task1 : dataset := ([[1%R]; [2%R]], [1%R; 2%R]).
Definition task2 : dataset := ([[3%R]], [5%R]).

(** a joint distribution of a two-dimensional and a one-dimensional member, and
    two draws of each *)
Definition joint : CatDist.t :=
  CatDist.mk [Independent (Normal (full [2%nat] 0%R) (full [2%nat] 1%R)) 1;
              Independent (LogNormal (full [1%nat] 0%R) (full [1%nat] 1%R)) 1].

Definition joint_draws : list (list (list R)) :=
  [[[1%R; 2%R]; [3%R; 4%R]]; [[5%R]; [6%R]]].

(** task dictionaries as [__init__] builds them *)
Definition task_dict1 : gmap string GPRegressionMetaLearnedVI.pyval :=
  <["train_y" := GPRegressionMetaLearnedVI.VVector (snd task1)]>
    (<["train_x" := GPRegressionMetaLearnedVI.VMatrix (fst task1)]> ∅).

Definition task_dict2 : gmap string GPRegressionMetaLearnedVI.pyval :=
  <["train_y" := GPRegressionMetaLearnedVI.VVector (snd task2)]>
    (<["train_x" := GPRegressionMetaLearnedVI.VMatrix (fst task2)]> ∅).

(** standard noise for two draws of each of three one-dimensional groups *)
Definition toy_eps : list (list (list R)) :=
  [[[0%R]; [1%R]]; [[0%R]; [1%R]]; [[0%R]; [1%R]]].

(** a schema of three groups, and values to initialise a posterior on it *)
Definition posterior_schema : odict (list nat) :=
  [("constant_mean", [1%nat]); ("lengthscale", [2%nat]); ("noise", [1%nat])].

Definition learned_values (_ : string) (i : nat) : R :=
  match i with 0%nat => 1%R | _ => 2%R end.

(** the prior of a GP with a constant mean and a squared-exponential kernel *)
Definition toy_random_gp : RandomGP.t :=
  match @RandomGP.init toy 1 1 1 3 2 "SE" "constant" [] [] with
  | Ok random_gp => random_gp
  | Raise _ => RandomGP.mk 0 (VectorizedGP.mk "" "" []) [] (CatDist.mk [])
  end.

End Example.

(** ** The task batch size *)

Import GPRegressionMetaLearnedVI.

Lemma init_task_batch_size `{Collaborators} rng data a self :
  init rng data a = Ok self ->
  task_batch_size self = effective_task_batch_size (a_task_batch_size a) (length data).
Proof.
  unfold init. intros Hinit.
  repeat match type of Hinit with
         | Py.bind ?m _ = Ok _ => destruct m; simpl in Hinit; [| discriminate]
         end.
  inversion Hinit. reflexivity.
Qed.

(** C10.  A meta-learner that was constructed has an effective task batch size
    of at most the number of meta-training tasks: the number of tasks when the
    supplied size is below 1, else the minimum of the supplied size and the
    number of tasks. *)
Theorem task_batch_size_bounded `{Collaborators} rng data a self :
  init rng data a = Ok self ->
  (task_batch_size self <= Z.of_nat (length data))%Z /\
  ((a_task_batch_size a < 1)%Z -> task_batch_size self = Z.of_nat (length data)) /\
  ((1 <= a_task_batch_size a)%Z ->
   task_batch_size self = Z.min (a_task_batch_size a) (Z.of_nat (length data))).
Proof.
  intros Hinit. rewrite (init_task_batch_size _ _ _ _ Hinit).
  unfold effective_task_batch_size.
  destruct (Z.ltb_spec (a_task_batch_size a) 1); repeat split; lia.
Qed.

Lemma task_batch_size_bounded_witness :
  exists self,
    @init Example.toy Example.toy_rng [Example.task1; Example.task2]
      (Example.toy_args "constant" "SE" 5 3) = Ok self /\
    (task_batch_size self <= 2)%Z.
Proof.
  eexists. split.
  - vm_compute. reflexivity.
  - refine (proj1 (@task_batch_size_bounded Example.toy Example.toy_rng
                     [Example.task1; Example.task2]
                     (Example.toy_args "constant" "SE" 5 3) _ _)).
    vm_compute. reflexivity.
Defined.

(** ** The trial boundary of the search driver *)

Import HyperparamSearch.

(** C9.  When the fitting or evaluation of a test trial raises an exception (an
    instance of [Exception]), [train_test] returns instead of raising: its
    record holds NaN under [ll], [rmse] and [calib_err], and under every other
    key what the trial configuration holds. *)
Theorem train_test_reports_nan (fit_and_eval : trial_body)
    (config : gmap string value) (e : exn) :
  fit_and_eval config = Raise e ->
  is_Exception e = true ->
  exists results_dict : gmap string value,
    train_test fit_and_eval config = Ok results_dict /\
    results_dict !! "ll" = Some (VFloat NaN) /\
    results_dict !! "rmse" = Some (VFloat NaN) /\
    results_dict !! "calib_err" = Some (VFloat NaN) /\
    (forall k : string, k <> "ll" -> k <> "rmse" -> k <> "calib_err" ->
                        results_dict !! k = config !! k).
Proof.
  intros Hraise Hexc. unfold train_test. rewrite Hraise, Hexc.
  eexists. split; [reflexivity |]. unfold update_metrics.
  repeat split.
  - rewrite lookup_insert_ne by discriminate.
    rewrite lookup_insert_ne by discriminate.
    apply lookup_insert_eq.
  - rewrite lookup_insert_ne by discriminate. apply lookup_insert_eq.
  - apply lookup_insert_eq.
  - intros k Hll Hrmse Hcal.
    rewrite !lookup_insert_ne by congruence. reflexivity.
Qed.

Lemma train_test_reports_nan_witness :
  exists results_dict : gmap string value,
    train_test (fun _ => Raise RuntimeError) {["lr" := VInt 3]} = Ok results_dict /\
    results_dict !! "ll" = Some (VFloat NaN) /\
    results_dict !! "rmse" = Some (VFloat NaN) /\
    results_dict !! "calib_err" = Some (VFloat NaN) /\
    (forall k : string, k <> "ll" -> k <> "rmse" -> k <> "calib_err" ->
       results_dict !! k = ({["lr" := VInt 3]} : gmap string value) !! k).
Proof.
  apply (train_test_reports_nan (fun _ => Raise RuntimeError) {["lr" := VInt 3]}
           RuntimeError); reflexivity.
Defined.

(** An exception that is not an [Exception] leaves [train_test]. *)
Lemma train_test_lets_through (fit_and_eval : trial_body)
    (config : gmap string value) (e : exn) :
  fit_and_eval config = Raise e ->
  is_Exception e = false ->
  train_test fit_and_eval config = Raise e.
Proof. intros Hraise Hexc. unfold train_test. rewrite Hraise, Hexc. reflexivity. Qed.

(** ** Unsupported mean and kernel families *)

Lemma register_raises {V} (d : odict V) name v e :
  register d name v = Raise e -> e = AssertionError.
Proof.
  unfold register, assert. destruct (negb _); simpl; congruence.
Qed.

Lemma _param_module_raises params name module e :
  VectorizedGP._param_module params name module = Raise e -> e = AssertionError.
Proof.
  unfold VectorizedGP._param_module. revert params.
  induction module as [| p module IH]; intros params; simpl; [discriminate |].
  destruct (VectorizedGP._param params _ _) as [ps | e'] eqn:Hp; simpl.
  - apply IH.
  - intros [= <-]. exact (register_raises _ _ _ _ Hp).
Qed.

Lemma str_in_two_false x a b :
  str_in x [a; b] = false -> String.eqb x a = false /\ String.eqb x b = false.
Proof.
  unfold str_in. simpl. rewrite orb_false_r. apply orb_false_elim.
Qed.

Lemma VectorizedGP_init_unsupported `{Collaborators} input_dim feature_dim
    (covar mean : string) ml kl :
  str_in mean ["NN"; "constant"] = false \/ str_in covar ["NN"; "SE"] = false ->
  exists e, VectorizedGP.init input_dim feature_dim covar mean ml kl = Raise e /\
            (e = NotImplementedError \/ e = AssertionError).
Proof.
  intros Hbad. unfold VectorizedGP.init.
  destruct (str_in mean ["NN"; "constant"]) eqn:Hmean.
  - destruct Hbad as [Hbad | Hbad]; [discriminate |].
    apply str_in_two_false in Hbad as [HNN HSE]. rewrite HNN, HSE.
    match goal with
    | |- context [Py.bind ?m _] => destruct m as [ps | e] eqn:Hstage
    end; simpl.
    + eexists. split; [reflexivity | left; reflexivity].
    + exists e. split; [reflexivity | right].
      unfold str_in in Hmean. simpl in Hmean.
      destruct (String.eqb mean "NN").
      * exact (_param_module_raises _ _ _ _ Hstage).
      * destruct (String.eqb mean "constant"); [| discriminate Hmean].
        exact (register_raises _ _ _ _ Hstage).
  - apply str_in_two_false in Hmean as [HNN Hconst]. rewrite HNN, Hconst. simpl.
    eexists. split; [reflexivity | left; reflexivity].
Qed.

Lemma init_unsupported `{Collaborators} rng data a (mean covar : string) :
  str_in mean ["NN"; "constant"] = false \/ str_in covar ["NN"; "SE"] = false ->
  a_mean_module a = Str mean ->
  a_covar_module a = Str covar ->
  exists e, init rng data a = Raise e /\
            (forall d st, check_meta_data_shapes data = Ok d ->
                          compute_normalization_stats data = Ok st ->
                          e = AssertionError).
Proof.
  intros Hbad Hmean Hcovar. unfold init. rewrite Hmean, Hcovar.
  repeat match goal with
         | |- exists e, Py.bind (assert ?b) _ = _ /\ _ =>
             destruct b; simpl; [| eexists; split; reflexivity]
         end.
  destruct (check_meta_data_shapes data) as [d | e1]; simpl;
    [| eexists; split; [reflexivity | intros; discriminate]].
  destruct (compute_normalization_stats data) as [st | e2]; simpl;
    [| eexists; split; [reflexivity | intros; discriminate]].
  unfold _setup_model_inference, arg_in.
  destruct Hbad as [Hbad | Hbad]; rewrite Hbad.
  - simpl. eexists; split; reflexivity.
  - destruct (str_in mean ["NN"; "constant"]); simpl; eexists; split; reflexivity.
Qed.

(** C8.  A mean-family string outside [NN], [constant] or a kernel-family string
    outside [NN], [SE] makes the construction of the GP model raise (a
    [NotImplementedError], or the [AssertionError] of a duplicate parameter name
    met before the kernel is looked at), and makes the construction of the
    meta-learner raise (an [AssertionError] once the data checks have passed):
    no object is built from a coerced family. *)
Theorem unsupported_family_raises `{Collaborators} (mean covar : string) :
  str_in mean ["NN"; "constant"] = false \/ str_in covar ["NN"; "SE"] = false ->
  (forall input_dim feature_dim mean_nn_layers kernel_nn_layers,
      exists e,
        VectorizedGP.init input_dim feature_dim covar mean
          mean_nn_layers kernel_nn_layers = Raise e /\
        (e = NotImplementedError \/ e = AssertionError)) /\
  (forall rng data a,
      a_mean_module a = Str mean ->
      a_covar_module a = Str covar ->
      exists e,
        init rng data a = Raise e /\
        (forall d st, check_meta_data_shapes data = Ok d ->
                      compute_normalization_stats data = Ok st ->
                      e = AssertionError)).
Proof.
  intros Hbad. split.
  - intros. apply VectorizedGP_init_unsupported. exact Hbad.
  - intros. apply init_unsupported with mean covar; assumption.
Qed.

Lemma unsupported_family_raises_witness :
  (exists e,
      @VectorizedGP.init Example.toy 1 2 "SE" "zero" [32; 32]%nat [32; 32]%nat = Raise e /\
      (e = NotImplementedError \/ e = AssertionError)) /\
  (exists e,
      @init Example.toy Example.toy_rng [Example.task1]
        (Example.toy_args "zero" "SE" 5 3) = Raise e /\
      (forall d st, @check_meta_data_shapes Example.toy [Example.task1] = Ok d ->
                    @compute_normalization_stats Example.toy [Example.task1] = Ok st ->
                    e = AssertionError)).
Proof.
  assert (Hbad : str_in "zero" ["NN"; "constant"] = false \/
                 str_in "SE" ["NN"; "SE"] = false) by (left; reflexivity).
  destruct (@unsupported_family_raises Example.toy "zero" "SE" Hbad) as [Hgp Hml].
  split.
  - apply Hgp.
  - apply Hml; reflexivity.
Defined.

(** The supported families are accepted: the GP model is built for each of the
    four combinations when the network's parameter names do not clash. *)
Example supported_families_build :
  forall mean covar, In mean ["NN"; "constant"] -> In covar ["NN"; "SE"] ->
    exists gp, @VectorizedGP.init Example.toy 1 2 covar mean [32]%nat [32]%nat = Ok gp.
Proof.
  intros mean covar Hm Hc. simpl in Hm, Hc.
  destruct Hm as [<- | [<- | []]]; destruct Hc as [<- | [<- | []]];
    eexists; vm_compute; reflexivity.
Qed.

(** ** Checkpoints *)

Lemma map_result_Forall2 {A B} (f : A -> result B) (P : A -> B -> Prop) xs ys :
  (forall x y, f x = Ok y -> P x y) ->
  map_result f xs = Ok ys -> Forall2 P xs ys.
Proof.
  intros Hf. revert ys. induction xs as [| x xs IH]; intros ys; simpl.
  - intros [= <-]. constructor.
  - destruct (f x) as [y | e] eqn:Hx; simpl; [| discriminate].
    destruct (map_result f xs) as [ys' | e]; simpl; [| discriminate].
    intros [= <-]. constructor; [apply Hf; exact Hx | apply IH; reflexivity].
Qed.

Lemma make_task_dict_keys `{Collaborators} st task task_dict :
  make_task_dict st task = Ok task_dict ->
  task_dict !! "model" = None /\
  exists x y, task_dict !! "train_x" = Some (VMatrix x) /\
              task_dict !! "train_y" = Some (VVector y).
Proof.
  unfold make_task_dict. destruct (prepare_data_per_task st task) as [xy | e]; simpl;
    [| discriminate].
  intros [= <-]. split.
  - rewrite !lookup_insert_ne by discriminate. apply lookup_empty.
  - exists xy.1, xy.2. split.
    + rewrite lookup_insert_ne by discriminate. apply lookup_insert_eq.
    + apply lookup_insert_eq.
Qed.

(** The task dictionaries that [__init__] builds: one per task, none with a
    [model] entry. *)
Lemma init_task_dicts `{Collaborators} rng data a self :
  init rng data a = Ok self ->
  Forall2 (fun (_ : dataset) (task_dict : gmap string pyval) =>
             task_dict !! "model" = None)
          data (task_dicts self).
Proof.
  unfold init. intros Hinit.
  repeat match type of Hinit with
         | Py.bind ?m _ = Ok _ =>
             let E := fresh "Hstage" in
             destruct m eqn:E; simpl in Hinit; [| discriminate]
         end.
  inversion Hinit; subst; simpl.
  eapply map_result_Forall2; [| eassumption].
  intros task task_dict Htask. exact (proj1 (make_task_dict_keys _ _ _ Htask)).
Qed.





(** C5.  On every meta-learner that [__init__] has built from at least one
    task, [state_dict()] and [load_state_dict(state)] raise [KeyError('model')]:
    the task dictionaries hold [train_x] and [train_y] only. *)
Theorem checkpoint_raises_key_error `{Collaborators} rng data a self :
  init rng data a = Ok self ->
  data <> [] ->
  state_dict self = Raise (KeyError "model") /\
  (forall state, load_state_dict self state = Raise (KeyError "model")).
Proof.
  intros Hinit Hdata. pose proof (init_task_dicts _ _ _ _ Hinit) as Hdicts.
  unfold state_dict, load_state_dict.
  destruct Hdicts as [| task task_dict data' dicts' Hmodel _]; [congruence |].
  unfold model_state_dict, getitem. simpl. rewrite Hmodel. simpl.
  split; [reflexivity | intros; reflexivity].
Qed.

Lemma checkpoint_raises_key_error_witness :
  exists self,
    @init Example.toy Example.toy_rng [Example.task1; Example.task2]
      (Example.toy_args "NN" "SE" 2 3) = Ok self /\
    @state_dict Example.toy self = Raise (KeyError "model") /\
    (forall state, @load_state_dict Example.toy self state = Raise (KeyError "model")).
Proof.
  eexists. split.
  - vm_compute. reflexivity.
  - refine (@checkpoint_raises_key_error Example.toy Example.toy_rng
              [Example.task1; Example.task2] (Example.toy_args "NN" "SE" 2 3) _ _ _).
    + vm_compute. reflexivity.
    + discriminate.
Defined.

(** ** The joint distribution: slicing inverts concatenation *)

Section CatDistFacts.
Context `{Collaborators}.

Lemma zip_with_app_assoc (a b c : list vector) :
  zip_with app a (zip_with app b c) = zip_with app (zip_with app a b) c.
Proof.
  revert b c. induction a as [| x a IH]; intros [| y b] [| z c]; simpl; try reflexivity.
  rewrite IH, app_assoc. reflexivity.
Qed.

Lemma zip_with_app_nil (N : nat) (l : list vector) :
  length l = N -> zip_with app (repeat [] N) l = l.
Proof.
  revert N. induction l as [| x l IH]; intros [| N]; simpl; try discriminate; try reflexivity.
  intros [= Hlen]. rewrite IH by exact Hlen. reflexivity.
Qed.

Lemma cat_last_cons bs (draw : list vector) (draws : list (list vector)) :
  CatDist.cat_last bs (draw :: draws) = zip_with app draw (CatDist.cat_last bs draws).
Proof. reflexivity. Qed.

Lemma cat_last_length bs (draws : list (list vector)) :
  Forall (fun draw => length draw = numel bs) draws ->
  length (CatDist.cat_last bs draws) = numel bs.
Proof.
  induction 1 as [| draw draws Hlen _ IH].
  - apply repeat_length.
  - rewrite cat_last_cons, length_zip_with, IH, Hlen. apply Nat.min_id.
Qed.

Lemma slice_middle (p v r : vector) (idx n : nat) :
  length p = idx -> length v = n -> slice idx (idx + n) (p ++ v ++ r) = v.
Proof.
  intros <- <-. unfold slice.
  replace (length p + length v - length p)%nat with (length v) by lia.
  rewrite drop_app_length, take_app_length. reflexivity.
Qed.

Lemma map_slice_zip (pre draw rest : list vector) (idx n : nat) :
  length pre = length draw -> length rest = length draw ->
  Forall (fun p => length p = idx) pre ->
  Forall (fun v => length v = n) draw ->
  map (slice idx (idx + n)) (zip_with app pre (zip_with app draw rest)) = draw.
Proof.
  revert pre rest.
  induction draw as [| v draw IH]; intros [| p pre] [| r rest]; simpl;
    try discriminate; try reflexivity.
  intros [= Hpre] [= Hrest] Hp Hv.
  inversion Hp; subst. inversion Hv; subst.
  rewrite slice_middle by reflexivity. f_equal. apply IH; assumption.
Qed.

Lemma zip_with_app_lengths (pre draw : list vector) (idx n : nat) :
  length pre = length draw ->
  Forall (fun p => length p = idx) pre ->
  Forall (fun v => length v = n) draw ->
  Forall (fun p => length p = (idx + n)%nat) (zip_with app pre draw).
Proof.
  revert draw. induction pre as [| p pre IH]; intros [| v draw]; simpl;
    try discriminate; intros Hlen Hp Hv; [constructor |].
  injection Hlen as Hlen. inversion Hp; subst. inversion Hv; subst.
  constructor; [apply length_app | apply IH; assumption].
Qed.

(** The members' draws, well-shaped for the batch shape [bs]: each member drew
    [numel bs] events of its own event size. *)
Definition well_shaped (bs : list nat) (ds : list Distribution)
    (draws : list (list vector)) : Prop :=
  Forall2 (fun d draw => length draw = numel bs /\
                         Forall (fun v => length v = event_size d) draw)
          ds draws.

Lemma well_shaped_lengths bs ds draws :
  well_shaped bs ds draws -> Forall (fun draw => length draw = numel bs) draws.
Proof.
  induction 1 as [| d draw ds draws [Hlen _] _ IH]; constructor; assumption.
Qed.

Lemma sliced_log_probs_cat bs ds draws (pre : list vector) (idx : nat) :
  well_shaped bs ds draws ->
  length pre = numel bs ->
  Forall (fun p => length p = idx) pre ->
  CatDist.sliced_log_probs ds idx
    (mkBatched bs (zip_with app pre (CatDist.cat_last bs draws)))
  = zip_with (CatDist.member_log_prob bs) ds draws.
Proof.
  intros Hshape. revert pre idx.
  induction Hshape as [| d draw ds draws [Hlen Hev] Hrest IH]; intros pre idx Hpre Hidx.
  - reflexivity.
  - pose proof (cat_last_length bs draws (well_shaped_lengths _ _ _ Hrest)) as Hcat.
    rewrite cat_last_cons. cbn [CatDist.sliced_log_probs zip_with batch_shape items].
    f_equal.
    + unfold CatDist.member_log_prob. f_equal. f_equal.
      apply map_slice_zip; try congruence; assumption.
    + rewrite zip_with_app_assoc. apply IH.
      * rewrite length_zip_with, Hpre, Hlen. apply Nat.min_id.
      * apply zip_with_app_lengths; [congruence | assumption | assumption].
Qed.

End CatDistFacts.

(** C3.  For every sequence of member distributions and every draw of the
    joint distribution, of any batch shape, [log_prob] of the concatenated draw
    is the sum of the members' [log_prob]s on their own draws: the slices, taken
    in construction order with each member's event size, are the draws. *)
Theorem catdist_log_prob_of_sample `{Collaborators} (c : CatDist.t)
    (sample_shape : list nat) (draws : list (list vector)) :
  well_shaped sample_shape (CatDist.dists c) draws ->
  CatDist.log_prob c (CatDist.sample c sample_shape draws)
  = CatDist.bsum sample_shape
      (zip_with (CatDist.member_log_prob sample_shape) (CatDist.dists c) draws).
Proof.
  intros Hshape. unfold CatDist.log_prob, CatDist.sample. simpl.
  rewrite <- (zip_with_app_nil (numel sample_shape)
                (CatDist.cat_last sample_shape draws))
    by (apply cat_last_length; eapply well_shaped_lengths; exact Hshape).
  rewrite sliced_log_probs_cat; [reflexivity | exact Hshape | apply repeat_length |].
  induction (numel sample_shape); simpl; constructor; [reflexivity | assumption].
Qed.

Lemma catdist_log_prob_of_sample_witness :
  @CatDist.log_prob Example.toy Example.joint
    (CatDist.sample Example.joint [2; 1]%nat Example.joint_draws)
  = CatDist.bsum [2; 1]%nat
      (zip_with (@CatDist.member_log_prob Example.toy [2; 1]%nat)
         (CatDist.dists Example.joint) Example.joint_draws).
Proof.
  apply (@catdist_log_prob_of_sample Example.toy Example.joint [2; 1]%nat
           Example.joint_draws).
  repeat constructor.
Defined.

(** ** The log-density of one event *)

Section EventDensities.
Context `{Collaborators}.

(** The joint log-density of one flat parameter vector: the sum of the members'
    log-densities on their slices of it. *)
Fixpoint event_log_prob (ds : list Distribution) (idx : nat) (theta : vector) : R :=
  match ds with
  | [] => 0
  | d :: ds' =>
      dist_log_prob d (slice idx (idx + event_size d) theta)
      + event_log_prob ds' (idx + event_size d) theta
  end.

Definition joint_log_density (c : CatDist.t) (theta : vector) : R :=
  event_log_prob (CatDist.dists c) 0 theta.

Lemma zip_with_map_map {A} (f g : A -> R) (op : R -> R -> R) (l : list A) :
  zip_with op (map f l) (map g l) = map (fun a => op (f a) (g a)) l.
Proof. induction l as [| a l IH]; simpl; [reflexivity | rewrite IH; reflexivity]. Qed.

Lemma repeat_as_map {A} (c : R) (l : list A) :
  repeat c (length l) = map (fun _ => c) l.
Proof. induction l as [| a l IH]; simpl; [reflexivity | rewrite IH; reflexivity]. Qed.

Lemma bsum_sliced bs ds idx (value : Batched vector) :
  batch_shape value = bs ->
  length (items value) = numel bs ->
  CatDist.bsum bs (CatDist.sliced_log_probs ds idx value)
  = mkBatched bs (map (event_log_prob ds idx) (items value)).
Proof.
  intros Hbs Hlen. revert idx. induction ds as [| d ds IH]; intros idx.
  - simpl. unfold bzeros. rewrite <- Hlen. rewrite repeat_as_map. reflexivity.
  - cbn [CatDist.sliced_log_probs CatDist.bsum fold_right event_log_prob].
    fold (CatDist.bsum bs (CatDist.sliced_log_probs ds (idx + event_size d) value)).
    rewrite IH. unfold CatDist.member_log_prob. cbn [items].
    rewrite map_map, zip_with_map_map. reflexivity.
Qed.

(** [log_prob] works event by event along the batch. *)
Lemma catdist_log_prob_items (c : CatDist.t) (value : Batched vector) :
  length (items value) = numel (batch_shape value) ->
  CatDist.log_prob c value
  = mkBatched (batch_shape value) (map (joint_log_density c) (items value)).
Proof.
  intros Hlen. unfold CatDist.log_prob. apply bsum_sliced; [reflexivity | exact Hlen].
Qed.

End EventDensities.

(** ** The log-joint of the hierarchical prior *)

Section LogJoint.
Context `{Collaborators}.

(** The log-joint of one parameter sample on one task: the weighted prior
    log-density plus the marginal log-likelihood, both at [theta]. *)
Definition log_joint (self : RandomGP.t) (theta : vector) (x : matrix) (y : vector) : R :=
  (RandomGP.prior_factor self * joint_log_density (RandomGP.hyper_prior self) theta
   + gp_mll theta x y)%R.

Lemma zip_with_map_l {A B} (f : A -> R) (g : A -> B -> R) (op : R -> R -> R)
    (l : list A) (k : list B) :
  zip_with op (map f l) (zip_with g l k) = zip_with (fun a b => op (f a) (g a b)) l k.
Proof.
  revert k. induction l as [| a l IH]; intros [| b k]; simpl; try reflexivity.
  rewrite IH. reflexivity.
Qed.

Lemma batched_mll_ok (thetas : list vector) (x_data : list matrix) (y_data : list vector) :
  length thetas = length x_data ->
  length y_data = length x_data ->
  VectorizedModel.batched_mll (mkBatched [length x_data] thetas) x_data y_data
  = Ok (mkBatched [length x_data]
          (zip_with (fun theta xy => gp_mll theta xy.1 xy.2) thetas (zip x_data y_data))).
Proof.
  intros Hth Hy. unfold VectorizedModel.batched_mll. cbn [batch_shape items].
  rewrite bool_decide_eq_true_2 by reflexivity.
  rewrite Hth, Hy, Nat.eqb_refl. reflexivity.
Qed.

Lemma RandomGP_log_prob_ok (self : RandomGP.t) (thetas : list vector)
    (x_data : list matrix) (y_data : list vector) :
  length thetas = length x_data ->
  length y_data = length x_data ->
  RandomGP.log_prob self (mkBatched [length x_data] thetas) x_data y_data
  = Ok (mkBatched [length x_data]
          (zip_with (fun theta xy => log_joint self theta xy.1 xy.2)
                    thetas (zip x_data y_data))).
Proof.
  intros Hth Hy.
  unfold RandomGP.log_prob, RandomGP._log_prob_likelihood, VectorizedGP.forward_mll,
    RandomGP._log_prob_prior.
  rewrite batched_mll_ok by assumption. cbn [Py.bind].
  rewrite catdist_log_prob_items
    by (cbn [items batch_shape numel fold_right]; lia).
  unfold bzip, bscale. cbn [batch_shape items].
  rewrite bool_decide_eq_true_2 by reflexivity.
  rewrite map_map, zip_with_map_l. reflexivity.
Qed.

End LogJoint.

(** C2.  For a parameter sample with a leading batch dimension [B] and a task
    tiled to [B], [RandomGP.log_prob] returns, for each batch index, the prior
    factor times the joint prior log-density of that index's parameter vector
    plus the GP marginal log-likelihood of that index's data under the same
    parameter vector. *)
Theorem log_prob_is_log_joint `{Collaborators} (self : RandomGP.t)
    (B : nat) (thetas : list vector) (x_data : list matrix) (y_data : list vector) :
  length thetas = B -> length x_data = B -> length y_data = B ->
  RandomGP.log_prob self (mkBatched [B] thetas) x_data y_data
  = Ok (mkBatched [B]
          (zip_with
             (fun theta xy =>
                (RandomGP.prior_factor self
                 * joint_log_density (RandomGP.hyper_prior self) theta
                 + gp_mll theta xy.1 xy.2)%R)
             thetas (zip x_data y_data))).
Proof.
  intros Hth Hx Hy. subst B. rewrite <- Hx.
  apply RandomGP_log_prob_ok; congruence.
Qed.

Lemma log_prob_is_log_joint_witness :
  @RandomGP.log_prob Example.toy Example.toy_random_gp
    (mkBatched [2%nat] [[1; 1; 1]; [2; 2; 2]]%R)
    [fst Example.task1; fst Example.task1] [snd Example.task1; snd Example.task1]
  = Ok (mkBatched [2%nat]
          (zip_with
             (fun theta xy =>
                (RandomGP.prior_factor Example.toy_random_gp
                 * @joint_log_density Example.toy
                     (RandomGP.hyper_prior Example.toy_random_gp) theta
                 + @gp_mll Example.toy theta xy.1 xy.2)%R)
             [[1; 1; 1]; [2; 2; 2]]%R
             (zip [fst Example.task1; fst Example.task1]
                  [snd Example.task1; snd Example.task1]))).
Proof.
  apply (@log_prob_is_log_joint Example.toy Example.toy_random_gp 2); reflexivity.
Defined.

(** ** The negative ELBO *)

Section NegElbo.
Context `{Collaborators}.

(** A task dictionary that holds the data [(x, y)]. *)
Definition holds_task (task_dict : gmap string pyval) (xy : dataset) : Prop :=
  task_dict !! "train_x" = Some (VMatrix xy.1) /\
  task_dict !! "train_y" = Some (VVector xy.2).

(** The log-joint of one parameter sample over the tasks of a batch. *)
Definition sum_log_joint (self : RandomGP.t) (theta : vector) (data : list dataset) : R :=
  fold_left (fun acc xy => (acc + log_joint self theta xy.1 xy.2)%R) data 0%R.

Definition tile (B : nat) (xy : dataset) : list matrix * list vector :=
  (repeat xy.1 B, repeat xy.2 B).

Lemma tile_data_tuples_ok tasks data B :
  Forall2 holds_task tasks data ->
  _tile_data_tuples tasks B = Ok (map (tile B) data).
Proof.
  unfold _tile_data_tuples.
  induction 1 as [| task_dict xy tasks data [Hx Hy] _ IH]; [reflexivity |].
  cbn [map_result]. rewrite IH. unfold getitem. rewrite Hx, Hy. reflexivity.
Qed.

Lemma zip_with_repeat {A B C} (g : A -> B -> C) (l : list A) (b : B) :
  zip_with g l (repeat b (length l)) = map (fun a => g a b) l.
Proof. induction l as [| a l IH]; simpl; [reflexivity | rewrite IH; reflexivity]. Qed.

Lemma zip_repeat {A B} (a : A) (b : B) (n : nat) :
  zip (repeat a n) (repeat b n) = repeat (a, b) n.
Proof. induction n as [| n IH]; simpl; [reflexivity | rewrite IH; reflexivity]. Qed.

Lemma meta_log_prob_from (self : RandomGP.t) (thetas : list vector) (data : list dataset)
    (f : vector -> R) :
  for_each (map (tile (length thetas)) data)
    (fun acc (xy : list matrix * list vector) =>
       let* lj := RandomGP.log_prob self (mkBatched [length thetas] thetas) xy.1 xy.2 in
       bzip Rplus acc lj)
    (mkBatched [length thetas] (map f thetas))
  = Ok (mkBatched [length thetas]
          (map (fun theta =>
                  fold_left (fun acc xy => (acc + log_joint self theta xy.1 xy.2)%R)
                            data (f theta))
               thetas)).
Proof.
  revert f. induction data as [| xy data IH]; intros f; [reflexivity |].
  cbn [map for_each tile fst snd].
  pose proof (RandomGP_log_prob_ok self thetas (repeat xy.1 (length thetas))
                (repeat xy.2 (length thetas))) as Hlj.
  rewrite !repeat_length in Hlj. rewrite Hlj by reflexivity. cbn [Py.bind].
  unfold bzip. cbn [batch_shape items].
  rewrite bool_decide_eq_true_2 by reflexivity. cbn [Py.bind].
  rewrite zip_repeat, zip_with_repeat, zip_with_map_map.
  rewrite (IH (fun theta => (f theta + log_joint self theta xy.1 xy.2)%R)).
  reflexivity.
Qed.

Lemma meta_log_prob_ok (self : RandomGP.t) (thetas : list vector) (data : list dataset) :
  RandomGPMeta.log_prob self (mkBatched [length thetas] thetas)
    (map (tile (length thetas)) data)
  = Ok (mkBatched [length thetas] (map (fun theta => sum_log_joint self theta data) thetas)).
Proof.
  unfold RandomGPMeta.log_prob, bzeros. cbn [batch_shape numel fold_right].
  rewrite Nat.mul_1_r, repeat_as_map. apply meta_log_prob_from.
Qed.

(** The draws that [rsample] makes from the noise [eps]. *)
Definition posterior_draws (q : CatDist.t) (B : nat) (eps : list (list vector))
  : list vector :=
  CatDist.cat_last [B]
    (zip_with (fun d e => map (dist_rsample d) e) (CatDist.dists q) eps).

Lemma posterior_draws_length q B eps :
  Forall (fun e => length e = B) eps ->
  length (posterior_draws q B eps) = B.
Proof.
  intros Heps. unfold posterior_draws.
  rewrite cat_last_length; [cbn; lia |].
  cbn [numel fold_right]. rewrite Nat.mul_1_r.
  generalize (CatDist.dists q). induction Heps as [| e eps He _ IH]; intros [| d ds];
    cbn [zip_with]; constructor.
  - rewrite length_map. exact He.
  - apply IH.
Qed.

(** The elbo of one parameter sample over the tasks [data]. *)
Definition elbo_of (self : t) (q : CatDist.t) (data : list dataset) (theta : vector) : R :=
  (sum_log_joint (random_gp self) theta data
   - prior_factor self * joint_log_density q theta)%R.

Lemma get_neg_elbo_ok (self : t) eps tasks data q :
  RandomGPPosterior.forward (posterior self) = Ok q ->
  Forall (fun e => length e = svi_batch_size self) eps ->
  Forall2 holds_task tasks data ->
  get_neg_elbo self eps tasks
  = Ok (fneg (torch_mean (map (elbo_of self q data)
                            (posterior_draws q (svi_batch_size self) eps)))).
Proof.
  intros Hq Heps Htasks. unfold get_neg_elbo.
  rewrite (tile_data_tuples_ok _ _ _ Htasks). cbn [Py.bind].
  unfold RandomGPPosterior.rsample, RandomGPPosterior.log_prob. rewrite Hq.
  cbn [Py.bind]. unfold CatDist.sample.
  fold (posterior_draws q (svi_batch_size self) eps).
  pose proof (posterior_draws_length q _ eps Heps) as Hlen.
  set (thetas := posterior_draws q (svi_batch_size self) eps) in *.
  rewrite <- Hlen. rewrite meta_log_prob_ok. cbn [Py.bind].
  rewrite catdist_log_prob_items
    by (cbn [items batch_shape numel fold_right]; lia).
  unfold bzip, bscale. cbn [batch_shape items].
  rewrite bool_decide_eq_true_2 by reflexivity. cbn [Py.bind batch_shape items].
  unfold assert. rewrite bool_decide_eq_true_2 by reflexivity. cbn [Py.bind].
  rewrite map_map, zip_with_map_map. reflexivity.
Qed.

End NegElbo.

Lemma torch_mean_nonempty (l : list R) :
  (0 < length l)%nat ->
  torch_mean l = Finite (fold_right Rplus 0 l / INR (length l))%R.
Proof. destruct l; simpl; [lia | reflexivity]. Qed.

(** C1.  For every mini-batch of tasks, [get_neg_elbo] returns the negation of
    the mean, over the [svi_batch_size] reparameterised draws of the posterior,
    of the log-joint of the draw over the tasks of the batch minus the prior
    factor times the posterior log-density of the same draw. *)
Theorem neg_elbo_is_negated_mean `{Collaborators} (self : t) eps tasks data q :
  (0 < svi_batch_size self)%nat ->
  RandomGPPosterior.forward (posterior self) = Ok q ->
  Forall (fun e => length e = svi_batch_size self) eps ->
  Forall2 holds_task tasks data ->
  RandomGPPosterior.rsample (posterior self) [svi_batch_size self] eps
  = Ok (mkBatched [svi_batch_size self] (posterior_draws q (svi_batch_size self) eps)) /\
  length (posterior_draws q (svi_batch_size self) eps) = svi_batch_size self /\
  get_neg_elbo self eps tasks
  = Ok (Finite
          (- (fold_right Rplus 0
                (map (fun theta =>
                        sum_log_joint (random_gp self) theta data
                        - prior_factor self * joint_log_density q theta)
                     (posterior_draws q (svi_batch_size self) eps))
              / INR (svi_batch_size self)))%R).
Proof.
  intros HB Hq Heps Htasks.
  pose proof (posterior_draws_length q _ eps Heps) as Hlen.
  split; [| split; [exact Hlen |]].
  - unfold RandomGPPosterior.rsample. rewrite Hq. reflexivity.
  - rewrite (get_neg_elbo_ok self eps tasks data q Hq Heps Htasks).
    rewrite torch_mean_nonempty by (rewrite length_map, Hlen; exact HB).
    rewrite length_map, Hlen. reflexivity.
Qed.

Lemma toy_tasks_hold :
  Forall2 holds_task [Example.task_dict1; Example.task_dict2]
          [Example.task1; Example.task2].
Proof. repeat constructor. Qed.

Lemma neg_elbo_is_negated_mean_witness :
  exists self q,
    @init Example.toy Example.toy_rng [Example.task1; Example.task2]
      (Example.toy_args "constant" "SE" 2 2) = Ok self /\
    RandomGPPosterior.forward (posterior self) = Ok q /\
    @get_neg_elbo Example.toy self Example.toy_eps
      [Example.task_dict1; Example.task_dict2]
    = Ok (Finite
            (- (fold_right Rplus 0
                  (map (fun theta =>
                          @sum_log_joint Example.toy (random_gp self) theta
                            [Example.task1; Example.task2]
                          - prior_factor self * @joint_log_density Example.toy q theta)
                       (@posterior_draws Example.toy q (svi_batch_size self)
                          Example.toy_eps))
                / INR (svi_batch_size self)))%R).
Proof.
  eexists. eexists. split; [vm_compute; reflexivity |].
  split; [vm_compute; reflexivity |].
  refine (proj2 (proj2 (@neg_elbo_is_negated_mean Example.toy _ Example.toy_eps
                          [Example.task_dict1; Example.task_dict2]
                          [Example.task1; Example.task2] _ _ _ _ _))).
  - cbn. lia.
  - vm_compute. reflexivity.
  - repeat constructor.
  - exact toy_tasks_hold.
Defined.

(** ** Order and choice of the tasks in a batch *)

Section TaskOrder.
Context `{Collaborators}.

Definition total (l : list R) : R := fold_right Rplus 0%R l.

Lemma total_Permutation (l l' : list R) : Permutation l l' -> total l = total l'.
Proof.
  induction 1 as [| x l l' _ IH | x y l | l l' l'' _ IH1 _ IH2]; simpl.
  - reflexivity.
  - rewrite IH. reflexivity.
  - lra.
  - congruence.
Qed.

Lemma fold_left_add {A} (f : A -> R) (l : list A) (a : R) :
  fold_left (fun acc x => (acc + f x)%R) l a = (a + total (map f l))%R.
Proof.
  revert a. induction l as [| x l IH]; intros a; simpl.
  - lra.
  - rewrite IH. lra.
Qed.

Lemma sum_log_joint_total self theta (data : list dataset) :
  sum_log_joint self theta data
  = total (map (fun xy : dataset => log_joint self theta xy.1 xy.2) data).
Proof. unfold sum_log_joint. rewrite fold_left_add. lra. Qed.

Lemma sum_log_joint_Permutation self theta (data data' : list dataset) :
  Permutation data data' ->
  sum_log_joint self theta data = sum_log_joint self theta data'.
Proof.
  intros Hperm. rewrite !sum_log_joint_total.
  apply total_Permutation, Permutation_map, Hperm.
Qed.

Lemma total_minus {A} (f g : A -> R) (l : list A) :
  total (map (fun a => (f a - g a)%R) l) = (total (map f l) - total (map g l))%R.
Proof. induction l as [| a l IH]; simpl; [lra | rewrite IH; lra]. Qed.

End TaskOrder.

(** C6.  For a fixed posterior sample (fixed noise [eps]), the negative ELBO of
    a batch of tasks does not change when the tasks of the batch are permuted;
    it does change with the choice of the tasks: two batches on which the
    log-joint, summed over the draws, differs get different losses. *)
Theorem neg_elbo_order_and_choice `{Collaborators} (self : t) eps q :
  (0 < svi_batch_size self)%nat ->
  RandomGPPosterior.forward (posterior self) = Ok q ->
  Forall (fun e => length e = svi_batch_size self) eps ->
  (forall tasks tasks' data,
      Forall2 holds_task tasks data ->
      Permutation tasks tasks' ->
      get_neg_elbo self eps tasks' = get_neg_elbo self eps tasks) /\
  (forall tasks1 data1 tasks2 data2,
      Forall2 holds_task tasks1 data1 ->
      Forall2 holds_task tasks2 data2 ->
      total (map (fun theta => sum_log_joint (random_gp self) theta data1)
               (posterior_draws q (svi_batch_size self) eps))
      <> total (map (fun theta => sum_log_joint (random_gp self) theta data2)
                  (posterior_draws q (svi_batch_size self) eps)) ->
      get_neg_elbo self eps tasks1 <> get_neg_elbo self eps tasks2).
Proof.
  intros HB Hq Heps. split.
  - intros tasks tasks' data Htasks Hperm.
    destruct (Permutation_Forall2 Hperm Htasks) as (data' & Hdata & Htasks').
    rewrite (get_neg_elbo_ok self eps tasks data q Hq Heps Htasks).
    rewrite (get_neg_elbo_ok self eps tasks' data' q Hq Heps Htasks').
    do 3 f_equal. apply map_ext. intros theta. unfold elbo_of.
    rewrite (sum_log_joint_Permutation _ _ _ _ Hdata). reflexivity.
  - intros tasks1 data1 tasks2 data2 Htasks1 Htasks2 Hdiff.
    rewrite (get_neg_elbo_ok self eps tasks1 data1 q Hq Heps Htasks1).
    rewrite (get_neg_elbo_ok self eps tasks2 data2 q Hq Heps Htasks2).
    pose proof (posterior_draws_length q _ eps Heps) as Hlen.
    rewrite !torch_mean_nonempty by (rewrite length_map, Hlen; exact HB).
    rewrite !length_map, Hlen. cbn [fneg]. intros [= Heq].
    apply Hdiff. fold (total (map (elbo_of self q data1)
                                (posterior_draws q (svi_batch_size self) eps))) in Heq.
    fold (total (map (elbo_of self q data2)
                   (posterior_draws q (svi_batch_size self) eps))) in Heq.
    unfold elbo_of in Heq. rewrite !total_minus in Heq.
    assert (HBpos : (0 < INR (svi_batch_size self))%R) by (apply lt_0_INR; lia).
    apply Ropp_eq_compat in Heq. rewrite !Ropp_involutive in Heq.
    apply (Rmult_eq_compat_r (INR (svi_batch_size self))) in Heq.
    unfold Rdiv in Heq. rewrite !Rmult_assoc, !Rinv_l, !Rmult_1_r in Heq by lra.
    lra.
Qed.

Lemma neg_elbo_order_and_choice_witness :
  exists self q,
    @init Example.toy Example.toy_rng [Example.task1; Example.task2]
      (Example.toy_args "constant" "SE" 2 2) = Ok self /\
    RandomGPPosterior.forward (posterior self) = Ok q /\
    @get_neg_elbo Example.toy self Example.toy_eps
      [Example.task_dict2; Example.task_dict1]
    = @get_neg_elbo Example.toy self Example.toy_eps
        [Example.task_dict1; Example.task_dict2] /\
    @get_neg_elbo Example.toy self Example.toy_eps [Example.task_dict1]
    <> @get_neg_elbo Example.toy self Example.toy_eps [Example.task_dict2].
Proof.
  eexists. eexists. split; [vm_compute; reflexivity |].
  split; [vm_compute; reflexivity |].
  match goal with
  | |- @get_neg_elbo _ ?self _ _ = _ /\ _ =>
      destruct (@neg_elbo_order_and_choice Example.toy self Example.toy_eps _
                  ltac:(cbn; lia) ltac:(vm_compute; reflexivity)
                  ltac:(repeat constructor)) as [Horder Hchoice]
  end.
  split.
  - apply (Horder [Example.task_dict1; Example.task_dict2]
                  [Example.task_dict2; Example.task_dict1]
                  [Example.task1; Example.task2]).
    + exact toy_tasks_hold.
    + apply perm_swap.
  - apply (Hchoice [Example.task_dict1] [Example.task1]
                   [Example.task_dict2] [Example.task2]).
    + repeat constructor.
    + repeat constructor.
    + unfold total, sum_log_joint, log_joint, joint_log_density, posterior_draws.
      clear Horder Hchoice. cbn -[Rplus Rmult Rminus].
      unfold Example.toy_mll. cbn [hd fold_right]. lra.
Defined.

(** ** The parameter schema shared by the GP model, the prior and the posterior *)

Section Schema.
Context `{Collaborators}.

(** The last axis of a shape: what [to_event(1)] makes the event shape. *)
Definition last_axis (shape : list nat) : list nat := drop (length shape - 1) shape.

(** The name under which the posterior registers a group of the schema. *)
Definition posterior_name (name : string) : string :=
  if contains "mean_nn" name || contains "kernel_nn" name
  then replace_dots name else name.

(** The spec's invariant: the GP model, the prior and the posterior agree on
    group names and shapes. *)
Definition agree_on_names_and_shapes (rg : RandomGP.t) (post : RandomGPPosterior.t)
    (q : CatDist.t) : Prop :=
  keys (VectorizedGP.named_parameters (RandomGP.gp rg)) = keys (RandomGP._param_dists rg) /\
  keys (RandomGPPosterior._param_dist_funcs post) = keys (RandomGP._param_dists rg) /\
  values (VectorizedGP.parameter_shapes (RandomGP.gp rg))
    = values (RandomGP.parameter_shapes rg) /\
  map event_shape (CatDist.dists q) = values (RandomGP.parameter_shapes rg).

(** The entries that [VectorizedGP.__init__] can register. *)
Inductive gp_item : string * list nat -> Prop :=
| gp_constant_mean : gp_item ("constant_mean", [1; 1]%nat)
| gp_lengthscale d : gp_item ("lengthscale", [1; d]%nat)
| gp_noise : gp_item ("noise", [1; 1]%nat)
| gp_mean_nn pn shape : gp_item ("mean_nn." +:+ pn, shape)
| gp_kernel_nn pn shape : gp_item ("kernel_nn." +:+ pn, shape).

Lemma register_ok {V} (d d' : odict V) name v :
  register d name v = Ok d' -> d' = d ++ [(name, v)].
Proof.
  unfold register, assert. destruct (negb _); simpl; congruence.
Qed.

Definition shape_item (p : string * Tensor) : string * list nat := (p.1, t_shape p.2).

Lemma _param_module_items params params' (prefix : string) module :
  VectorizedGP._param_module params prefix module = Ok params' ->
  map shape_item params'
  = map shape_item params
    ++ map (fun p : string * Tensor => (prefix +:+ "." +:+ p.1, t_shape p.2)) module.
Proof.
  unfold VectorizedGP._param_module. revert params.
  induction module as [| p module IH]; intros params; simpl.
  - intros [= <-]. rewrite app_nil_r. reflexivity.
  - destruct (VectorizedGP._param params _ _) as [ps | e] eqn:Hp; simpl; [| discriminate].
    intros Hrest. apply IH in Hrest. rewrite Hrest.
    apply register_ok in Hp. subst ps. rewrite map_app, <- app_assoc. reflexivity.
Qed.

Lemma Forall_gp_item_module (prefix : string) (module : odict Tensor) :
  prefix = "mean_nn" \/ prefix = "kernel_nn" ->
  Forall gp_item
    (map (fun p : string * Tensor => (prefix +:+ "." +:+ p.1, t_shape p.2)) module).
Proof.
  intros Hprefix. induction module as [| p module IH]; simpl; constructor; [| exact IH].
  destruct Hprefix as [-> | ->].
  - exact (gp_mean_nn p.1 (t_shape p.2)).
  - exact (gp_kernel_nn p.1 (t_shape p.2)).
Qed.

(** Every entry of the schema of a constructed GP model is one of [gp_item]. *)
Lemma VectorizedGP_init_items input_dim feature_dim covar mean ml kl gp :
  VectorizedGP.init input_dim feature_dim covar mean ml kl = Ok gp ->
  Forall gp_item (VectorizedGP.parameter_shapes gp).
Proof.
  unfold VectorizedGP.init, VectorizedGP.parameter_shapes, VectorizedGP.named_parameters.
  intros Hinit.
  match type of Hinit with
  | Py.bind ?m _ = _ => destruct m as [ps1 | e] eqn:Hmean; [| discriminate]
  end.
  cbn [Py.bind] in Hinit.
  match type of Hinit with
  | Py.bind ?m _ = _ => destruct m as [ps2 | e] eqn:Hcovar; [| discriminate]
  end.
  cbn [Py.bind] in Hinit.
  match type of Hinit with
  | Py.bind ?m _ = _ => destruct m as [ps3 | e] eqn:Hnoise; [| discriminate]
  end.
  cbn [Py.bind] in Hinit. injection Hinit as <-. cbn [VectorizedGP._params].
  change (Forall gp_item (map shape_item ps3)).
  apply register_ok in Hnoise. subst ps3. rewrite map_app. apply Forall_app. split.
  2: { repeat constructor. }
  assert (H1 : Forall gp_item (map shape_item ps1)).
  { destruct (String.eqb mean "NN").
    - apply _param_module_items in Hmean. rewrite Hmean. simpl.
      apply Forall_gp_item_module. left; reflexivity.
    - destruct (String.eqb mean "constant"); [| discriminate].
      apply register_ok in Hmean. subst ps1. repeat constructor. }
  destruct (String.eqb covar "NN").
  - match type of Hcovar with
    | Py.bind ?m _ = _ => destruct m as [ps | e] eqn:Hk; [| discriminate]
    end.
    cbn [Py.bind] in Hcovar. apply register_ok in Hcovar. subst ps2.
    apply _param_module_items in Hk.
    rewrite map_app, Hk. repeat (apply Forall_app; split); try assumption.
    + apply Forall_gp_item_module. right; reflexivity.
    + repeat constructor.
  - destruct (String.eqb covar "SE"); [| discriminate].
    apply register_ok in Hcovar. subst ps2. rewrite map_app.
    apply Forall_app. split; [assumption | repeat constructor].
Qed.

End Schema.

Section SchemaProofs.
Context `{Collaborators}.

Lemma prefix_append (s r : string) : String.prefix s (s +:+ r) = true.
Proof.
  induction s as [| c s IH]; simpl; [destruct r; reflexivity |].
  destruct (ascii_dec c c); [apply IH | congruence].
Qed.

Lemma contains_prefix (sub rest : string) : contains sub (sub +:+ rest) = true.
Proof.
  pose proof (prefix_append sub rest) as Hp.
  destruct (sub +:+ rest); cbn [contains]; rewrite Hp; reflexivity.
Qed.

Lemma to_event1_ok d d' :
  to_event1 d = Ok d' -> d' = Independent d 1.
Proof. unfold to_event1. destruct (_ <? _)%nat; congruence. Qed.

Lemma nn_step_item w b dists (name : string) shape dists' :
  (let* std :=
     (if contains "weight" name then Ok (full shape w)
      else if contains "bias" name then Ok (full shape b)
      else Raise NotImplementedError) in
   let* d := to_event1 (Normal (full shape 0) std) in
   register dists name d) = Ok dists' ->
  exists d, dists' = dists ++ [(name, d)] /\ event_shape d = last_axis shape.
Proof.
  intros Hstep.
  match type of Hstep with
  | Py.bind ?m _ = _ => destruct m as [std | e] eqn:Hstd; [| discriminate]
  end.
  cbn [Py.bind] in Hstep.
  destruct (to_event1 _) as [d | e] eqn:Hd; [| discriminate].
  cbn [Py.bind] in Hstep. apply register_ok in Hstep. apply to_event1_ok in Hd.
  exists d. split; [exact Hstep |]. subst d. reflexivity.
Qed.

Lemma prior_step_item w b dists item dists' :
  gp_item item ->
  RandomGP.prior_step w b dists item = Ok dists' ->
  exists d, dists' = dists ++ [(item.1, d)] /\ event_shape d = last_axis item.2.
Proof.
  intros Hitem. unfold RandomGP.prior_step, RandomGP._param_dist.
  destruct Hitem as [| d | | pn shape | pn shape]; cbn [fst snd].
  - cbn. destruct (register dists _ _) as [ds | e] eqn:Hr; cbn; [| discriminate].
    intros [= <-]. apply register_ok in Hr. eexists. split; [exact Hr | reflexivity].
  - cbn. destruct (register dists _ _) as [ds | e] eqn:Hr; cbn; [| discriminate].
    intros [= <-]. apply register_ok in Hr. eexists. split; [exact Hr | reflexivity].
  - cbn. destruct (register dists _ _) as [ds | e] eqn:Hr; cbn; [| discriminate].
    intros [= <-]. apply register_ok in Hr. eexists. split; [exact Hr | reflexivity].
  - change ("mean_nn." +:+ pn =? "constant_mean")%string with false.
    change ("mean_nn." +:+ pn =? "lengthscale")%string with false.
    change ("mean_nn." +:+ pn =? "noise")%string with false.
    cbn [Py.bind].
    change ("mean_nn." +:+ pn) with ("mean_nn" +:+ ("." +:+ pn)) at 1.
    rewrite contains_prefix. cbn [orb]. apply nn_step_item.
  - change ("kernel_nn." +:+ pn =? "constant_mean")%string with false.
    change ("kernel_nn." +:+ pn =? "lengthscale")%string with false.
    change ("kernel_nn." +:+ pn =? "noise")%string with false.
    cbn [Py.bind].
    change ("kernel_nn." +:+ pn) with ("kernel_nn" +:+ ("." +:+ pn)) at 2.
    rewrite contains_prefix, orb_true_r. apply nn_step_item.
Qed.

Lemma prior_loop_items w b items dists dists' :
  Forall gp_item items ->
  for_each items (RandomGP.prior_step w b) dists = Ok dists' ->
  keys dists' = keys dists ++ map fst items /\
  map event_shape (values dists')
  = map event_shape (values dists) ++ map (fun item => last_axis item.2) items.
Proof.
  intros Hitems. revert dists.
  induction Hitems as [| item items Hitem _ IH]; intros dists; cbn [for_each].
  - intros [= <-]. rewrite !app_nil_r. split; reflexivity.
  - destruct (RandomGP.prior_step w b dists item) as [ds | e] eqn:Hstep; [| discriminate].
    cbn [Py.bind]. intros Hrest. apply IH in Hrest as [Hk Hs].
    destruct (prior_step_item _ _ _ _ _ Hitem Hstep) as (d & -> & Hd).
    rewrite Hk, Hs. unfold keys, values. rewrite !map_app. cbn [map fst snd].
    rewrite Hd, <- !app_assoc. split; reflexivity.
Qed.

(** The names that the schema of a GP model can hold. *)
Definition gp_name (name : string) : Prop := exists shape, gp_item (name, shape).

Lemma posterior_step_item rng self name shape self' :
  gp_name name ->
  RandomGPPosterior.init_step rng self (name, shape) = Ok self' ->
  keys (RandomGPPosterior._param_dist_funcs self')
  = keys (RandomGPPosterior._param_dist_funcs self) ++ [posterior_name name].
Proof.
  intros [shape' Hitem]. unfold RandomGPPosterior.init_step, RandomGPPosterior._dist.
  unfold posterior_name. cbn [fst snd].
  inversion Hitem as [| d | | pn sh | pn sh]; subst.
  - cbn. destruct (register _ _ _) as [fs | e] eqn:Hr; cbn; [| discriminate].
    intros [= <-]. apply register_ok in Hr. cbn in *. subst fs.
    unfold keys. rewrite map_app. reflexivity.
  - cbn. destruct (register _ _ _) as [fs | e] eqn:Hr; cbn; [| discriminate].
    intros [= <-]. apply register_ok in Hr. cbn in *. subst fs.
    unfold keys. rewrite map_app. reflexivity.
  - cbn. destruct (register _ _ _) as [fs | e] eqn:Hr; cbn; [| discriminate].
    intros [= <-]. apply register_ok in Hr. cbn in *. subst fs.
    unfold keys. rewrite map_app. reflexivity.
  - change ("mean_nn." +:+ pn =? "constant_mean")%string with false.
    change ("mean_nn." +:+ pn =? "lengthscale")%string with false.
    change ("mean_nn." +:+ pn =? "noise")%string with false.
    cbn [Py.bind orb].
    change ("mean_nn." +:+ pn) with ("mean_nn" +:+ ("." +:+ pn)) at 1 4.
    rewrite !contains_prefix. cbn [orb].
    destruct (register _ _ _) as [fs | e] eqn:Hr; cbn [Py.bind]; [| discriminate].
    intros [= <-]. apply register_ok in Hr. cbn in *. subst fs.
    unfold keys. rewrite map_app. reflexivity.
  - change ("kernel_nn." +:+ pn =? "constant_mean")%string with false.
    change ("kernel_nn." +:+ pn =? "lengthscale")%string with false.
    change ("kernel_nn." +:+ pn =? "noise")%string with false.
    cbn [Py.bind orb].
    change ("kernel_nn." +:+ pn) with ("kernel_nn" +:+ ("." +:+ pn)) at 2 5.
    rewrite !contains_prefix, !orb_true_r.
    destruct (register _ _ _) as [fs | e] eqn:Hr; cbn [Py.bind]; [| discriminate].
    intros [= <-]. apply register_ok in Hr. cbn in *. subst fs.
    unfold keys. rewrite map_app. reflexivity.
Qed.

Lemma posterior_loop_items rng items self self' :
  Forall (fun item : string * list nat => gp_name item.1) items ->
  for_each items (RandomGPPosterior.init_step rng) self = Ok self' ->
  keys (RandomGPPosterior._param_dist_funcs self')
  = keys (RandomGPPosterior._param_dist_funcs self) ++ map posterior_name (map fst items).
Proof.
  intros Hitems. revert self.
  induction Hitems as [| [name shape] items Hitem _ IH]; intros self; cbn [for_each].
  - intros [= <-]. rewrite app_nil_r. reflexivity.
  - destruct (RandomGPPosterior.init_step rng self (name, shape)) as [s | e] eqn:Hstep;
      [| discriminate].
    cbn [Py.bind]. intros Hrest. apply IH in Hrest. rewrite Hrest.
    rewrite (posterior_step_item _ _ _ _ _ Hitem Hstep), <- app_assoc. reflexivity.
Qed.

Lemma map_result_length {A B} (f : A -> result B) xs ys :
  map_result f xs = Ok ys -> length ys = length xs.
Proof.
  revert ys. induction xs as [| x xs IH]; intros ys; cbn [map_result].
  - intros [= <-]. reflexivity.
  - destruct (f x); cbn [Py.bind]; [| discriminate].
    destruct (map_result f xs); cbn [Py.bind]; [| discriminate].
    intros [= <-]. cbn. f_equal. apply IH. reflexivity.
Qed.

Lemma check_shapes_ok shapes ds :
  RandomGPPosterior.check_shapes shapes ds = Ok tt ->
  length shapes = length ds ->
  map event_shape ds = shapes.
Proof.
  unfold RandomGPPosterior.check_shapes. revert ds.
  induction shapes as [| shape shapes IH]; intros [| d ds];
    cbn [for_each zip_with fst snd map length]; try discriminate; [reflexivity |].
  unfold assert at 1. case_bool_decide as Heq; cbn [Py.bind]; [| discriminate].
  intros Hrest [= Hlen]. rewrite Heq. f_equal. apply IH; assumption.
Qed.
End SchemaProofs.

Lemma prior_schema_names (dists : odict Distribution) (items : odict (list nat)) :
  Forall gp_item items ->
  keys dists = map fst items ->
  Forall (fun item : string * list nat => gp_name item.1)
         (map (fun p : string * Distribution => (p.1, event_shape p.2)) dists).
Proof.
  intros Hitems. revert dists.
  induction Hitems as [| [n sh] items Hitem _ IH]; intros [| [name d] dists];
    cbn [keys map fst]; try discriminate; intros Hkeys; constructor.
  - cbn [fst]. injection Hkeys as -> _. exists sh. exact Hitem.
  - apply IH. injection Hkeys as _ Hrest. exact Hrest.
Qed.

(** The alignment loop alone compares the two name sequences up to the length
    of the shorter one; the construction never reaches it with sequences that
    differ, as the theorem below shows. *)
Example check_aligned_compares_common_prefix :
  RandomGP.check_aligned ["constant_mean"; "lengthscale"; "noise"]
                         ["constant_mean"; "lengthscale"] = Ok tt /\
  RandomGP.check_aligned ["constant_mean"; "lengthscale"; "noise"]
                         ["constant_mean"; "noise"] = Raise AssertionError.
Proof. split; reflexivity. Qed.

(** C7, as the code has it.  When [RandomGP] is constructed, the GP model's
    schema and the prior's schema hold the same names in the same order, and the
    prior's event shape of a group is the last axis of the GP model's shape of
    that group; a posterior constructed on the prior's schema holds, in the same
    order, the prior's names with the dots of the neural-network groups replaced
    by underscores, and distributions of exactly the prior's event shapes. *)
Theorem schema_alignment `{Collaborators} size_in prior_factor weight_prior_std
    bias_prior_std feature_dim covar mean mean_nn_layers kernel_nn_layers rg :
  RandomGP.init size_in prior_factor weight_prior_std bias_prior_std feature_dim
    covar mean mean_nn_layers kernel_nn_layers = Ok rg ->
  keys (VectorizedGP.named_parameters (RandomGP.gp rg)) = keys (RandomGP._param_dists rg) /\
  values (RandomGP.parameter_shapes rg)
  = map last_axis (values (VectorizedGP.parameter_shapes (RandomGP.gp rg))) /\
  (forall rng post,
      RandomGPPosterior.init rng (RandomGP.parameter_shapes rg) = Ok post ->
      keys (RandomGPPosterior._param_dist_funcs post)
      = map posterior_name (keys (RandomGP._param_dists rg)) /\
      exists q, RandomGPPosterior.forward post = Ok q /\
                map event_shape (CatDist.dists q) = values (RandomGP.parameter_shapes rg)).
Proof.
  unfold RandomGP.init. intros Hinit.
  destruct (VectorizedGP.init _ _ _ _ _ _) as [gp | e] eqn:Hgp; [| discriminate].
  cbn [Py.bind] in Hinit.
  destruct (for_each _ _ _) as [dists | e] eqn:Hloop; [| discriminate].
  cbn [Py.bind] in Hinit.
  destruct (RandomGP.check_aligned _ _) as [[] | e]; [| discriminate].
  cbn [Py.bind] in Hinit. injection Hinit as <-.
  pose proof (VectorizedGP_init_items _ _ _ _ _ _ _ Hgp) as Hitems.
  destruct (prior_loop_items _ _ _ _ _ Hitems Hloop) as [Hkeys Hshapes].
  cbn [RandomGP.gp RandomGP._param_dists] in *.
  assert (Hnames : keys (VectorizedGP.named_parameters gp) = keys dists).
  { rewrite Hkeys. unfold VectorizedGP.parameter_shapes, keys.
    rewrite map_map. reflexivity. }
  assert (Hprior : values (RandomGP.parameter_shapes (RandomGP.mk prior_factor gp dists
                                                         (CatDist.mk (values dists))))
                   = map event_shape (values dists)).
  { unfold RandomGP.parameter_shapes, values. cbn [RandomGP._param_dists].
    rewrite !map_map. reflexivity. }
  split; [exact Hnames |]. split.
  - rewrite Hprior, Hshapes. unfold values. cbn [map app]. rewrite map_map. reflexivity.
  - intros rng post. unfold RandomGPPosterior.init.
    match goal with
    | |- Py.bind ?m _ = _ -> _ => destruct m as [self | e] eqn:Hpost; [| discriminate]
    end.
    cbn [Py.bind].
    destruct (RandomGPPosterior.forward self) as [q | e] eqn:Hq; [| discriminate].
    cbn [Py.bind].
    destruct (RandomGPPosterior.check_shapes _ _) as [[] | e] eqn:Hcheck; [| discriminate].
    cbn [Py.bind]. intros [= <-].
    assert (Hfuncs : keys (RandomGPPosterior._param_dist_funcs self)
                     = map posterior_name (keys dists)).
    { apply posterior_loop_items in Hpost.
      - rewrite Hpost. unfold RandomGP.parameter_shapes.
        cbn [RandomGP._param_dists RandomGPPosterior._param_dist_funcs keys map app].
        unfold keys. rewrite !map_map. reflexivity.
      - unfold RandomGP.parameter_shapes. cbn [RandomGP._param_dists].
        eapply prior_schema_names; [exact Hitems | exact Hkeys]. }
    split; [exact Hfuncs |]. exists q. split; [exact Hq |].
    apply check_shapes_ok; [exact Hcheck |].
    unfold RandomGPPosterior.forward in Hq.
    destruct (map_result _ _) as [ds | e] eqn:Hds; [| discriminate].
    cbn [Py.bind] in Hq. injection Hq as <-. cbn [CatDist.dists].
    apply map_result_length in Hds. rewrite Hds.
    unfold values, RandomGP.parameter_shapes. cbn [RandomGP._param_dists].
    rewrite !length_map.
    apply (f_equal length) in Hfuncs. unfold keys in Hfuncs.
    rewrite !length_map in Hfuncs. symmetry. exact Hfuncs.
Qed.

Lemma schema_alignment_witness :
  exists rg,
    @RandomGP.init Example.toy 1 1 1 3 2 "SE" "NN" [32]%nat [32]%nat = Ok rg /\
    keys (VectorizedGP.named_parameters (RandomGP.gp rg)) = keys (RandomGP._param_dists rg) /\
    values (RandomGP.parameter_shapes rg)
    = map last_axis (values (VectorizedGP.parameter_shapes (RandomGP.gp rg))) /\
    (forall rng post,
        RandomGPPosterior.init rng (RandomGP.parameter_shapes rg) = Ok post ->
        keys (RandomGPPosterior._param_dist_funcs post)
        = map posterior_name (keys (RandomGP._param_dists rg)) /\
        exists q, RandomGPPosterior.forward post = Ok q /\
                  map event_shape (CatDist.dists q)
                  = values (RandomGP.parameter_shapes rg)).
Proof.
  eexists. split; [vm_compute; reflexivity |].
  apply (@schema_alignment Example.toy 1 1 1 3 2 "SE" "NN" [32]%nat [32]%nat).
  vm_compute. reflexivity.
Defined.

(** The invariant as the specification words it fails on the default model
    (constant mean, squared-exponential kernel): the GP model holds its
    parameters with shapes [[1, 1]], [[1, d]], [[1, 1]], the prior and the
    posterior hold event shapes [[1]], [[d]], [[1]]. *)
Lemma schema_agreement_counterexample :
  exists rg post q,
    @RandomGP.init Example.toy 2 1 1 3 2 "SE" "constant" [32]%nat [32]%nat = Ok rg /\
    RandomGPPosterior.init Example.toy_rng (RandomGP.parameter_shapes rg) = Ok post /\
    RandomGPPosterior.forward post = Ok q /\
    ~ agree_on_names_and_shapes rg post q.
Proof.
  eexists. eexists. eexists.
  split; [vm_compute; reflexivity |].
  split; [vm_compute; reflexivity |].
  split; [vm_compute; reflexivity |].
  intros (_ & _ & Hshapes & _). vm_compute in Hshapes. discriminate Hshapes.
Qed.

(** With a neural-network mean the posterior's names differ from the prior's:
    on the example network, [mean_nn_out_weight] against [mean_nn.out.weight]. *)
Example posterior_names_differ :
  exists rg post,
    @RandomGP.init Example.toy 1 1 1 3 2 "SE" "NN" [32]%nat [32]%nat = Ok rg /\
    RandomGPPosterior.init Example.toy_rng (RandomGP.parameter_shapes rg) = Ok post /\
    keys (RandomGP._param_dists rg)
    = ["mean_nn.out.weight"; "mean_nn.out.bias"; "lengthscale"; "noise"] /\
    keys (RandomGPPosterior._param_dist_funcs post)
    = ["mean_nn_out_weight"; "mean_nn_out_bias"; "lengthscale"; "noise"].
Proof.
  eexists. eexists.
  split; [vm_compute; reflexivity |].
  split; [vm_compute; reflexivity |].
  split; vm_compute; reflexivity.
Qed.

(** ** The mode of the posterior *)

Section Mode.

(** The closed-form mode of a group, in the specification's words: the mean
    [loc] for a Normal group, [exp(loc - scale^2)] for a LogNormal group. *)
Definition closed_form_mode (fam : family) (loc scale : vector) : vector :=
  match fam with
  | FNormal => loc
  | FLogNormal => zip_with (fun l s => exp (l - s ^ 2)%R) loc scale
  end.

(** The group registered under [name] with the closure [fn] has the learned
    location [loc] and the learned scale [scale]: its two parameters are
    one-dimensional tensors of one size, and the scale is the exponential of
    the raw scale. *)
Definition learned (self : RandomGPPosterior.t) (name : string)
    (fn : RandomGPPosterior.dist_fn) (loc scale : vector) : Prop :=
  RandomGPPosterior.attrs self !! RandomGPPosterior.loc_attr fn name
  = Some (mkTensor [length loc] loc) /\
  exists raw,
    RandomGPPosterior.attrs self !! RandomGPPosterior.scale_raw_attr fn name
    = Some (mkTensor [length loc] raw) /\
    length raw = length loc /\
    scale = map exp raw.

Definition group_mode (p : string * RandomGPPosterior.dist_fn) (g : vector * vector)
  : vector :=
  closed_form_mode (RandomGPPosterior.family_of p.2) g.1 g.2.

Lemma map_exp_zip_minus_square (loc raw : vector) :
  map exp (zip_with Rminus loc (map (fun s => (s ^ 2)%R) (map exp raw)))
  = zip_with (fun l s => exp (l - s ^ 2)%R) loc (map exp raw).
Proof.
  revert raw. induction loc as [| l loc IH]; intros [| r raw]; cbn [map zip_with];
    try reflexivity.
  rewrite IH. reflexivity.
Qed.

Lemma group_mode_of (self : RandomGPPosterior.t) name fn loc scale :
  learned self name fn loc scale ->
  (let* dist := RandomGPPosterior.call self fn name in RandomGPPosterior.mode_of dist)
  = Ok (mkTensor [length loc]
          (closed_form_mode (RandomGPPosterior.family_of fn) loc scale)).
Proof.
  intros (Hloc & raw & Hraw & Hlen & ->).
  unfold RandomGPPosterior.call, RandomGPPosterior.getattr. rewrite Hloc, Hraw.
  cbn [Py.bind].
  destruct (RandomGPPosterior.family_of fn); cbn.
  - reflexivity.
  - unfold tsub, tsquare, texp. cbn [t_shape t_data].
    rewrite bool_decide_eq_true_2 by reflexivity. cbn [Py.bind t_shape t_data].
    rewrite map_exp_zip_minus_square. reflexivity.
Qed.

Lemma modes_of_groups (self : RandomGPPosterior.t) funcs (groups : list (vector * vector)) :
  Forall2 (fun p g => learned self p.1 p.2 g.1 g.2) funcs groups ->
  map_result (fun p : string * RandomGPPosterior.dist_fn =>
                let* dist := RandomGPPosterior.call self p.2 p.1 in
                RandomGPPosterior.mode_of dist) funcs
  = Ok (zip_with (fun p g => mkTensor [length g.1] (group_mode p g)) funcs groups).
Proof.
  induction 1 as [| p g funcs groups Hg _ IH]; [reflexivity |].
  cbn [map_result]. rewrite (group_mode_of _ _ _ _ _ Hg). cbn [Py.bind].
  rewrite IH. reflexivity.
Qed.

Lemma closed_form_mode_length fam (loc scale : vector) :
  length scale = length loc -> length (closed_form_mode fam loc scale) = length loc.
Proof.
  intros Hlen. destruct fam; cbn; [reflexivity |].
  rewrite length_zip_with, Hlen. apply Nat.min_id.
Qed.

Lemma cat_last_rows (vs : list vector) :
  CatDist.cat_last [] (map (fun v => [v]) vs) = [concat vs].
Proof.
  induction vs as [| v vs IH]; [reflexivity |].
  cbn [map]. rewrite cat_last_cons, IH. reflexivity.
Qed.

Lemma rows_of_vector (v : vector) : rows_of (mkTensor [length v] v) = [v].
Proof.
  unfold rows_of. cbn. rewrite drop_0, take_ge by lia. reflexivity.
Qed.

Lemma sum_last_sizes (vs : list vector) :
  fold_right Nat.add 0%nat
    (map (fun t => last_size (t_shape t)) (map (fun v => mkTensor [length v] v) vs))
  = length (concat vs).
Proof.
  induction vs as [| v vs IH]; [reflexivity |].
  cbn [map fold_right concat t_shape]. rewrite length_app, <- IH. reflexivity.
Qed.

Lemma torch_cat_last_vectors (vs : list vector) :
  vs <> [] ->
  torch_cat_last (map (fun v => mkTensor [length v] v) vs)
  = Ok (mkTensor [length (concat vs)] (concat vs)).
Proof.
  intros Hne. unfold torch_cat_last.
  destruct (map (fun v => mkTensor [length v] v) vs) as [| t0 ts] eqn:Hts.
  { destruct vs; [congruence | discriminate]. }
  assert (Hlead : lead_dims (t_shape t0) = []).
  { destruct vs as [| v vs']; [discriminate |]. injection Hts as <- _. reflexivity. }
  rewrite Hlead, <- Hts. clear Hts Hlead t0 ts.
  replace (forallb _ _) with true.
  2: { symmetry. apply forallb_forall. intros t Ht.
       apply in_map_iff in Ht as (w & <- & _).
       apply bool_decide_eq_true_2. split; [discriminate | reflexivity]. }
  rewrite sum_last_sizes, map_map.
  rewrite (map_ext _ (fun v => [v])) by (intros; apply rows_of_vector).
  rewrite cat_last_rows. cbn [concat app]. rewrite app_nil_r. reflexivity.
Qed.

End Mode.

(** C4.  Whatever the learned locations and scales, [mode()] returns the
    concatenation, in the order of the schema, of the closed-form mode of every
    group: [loc] for a Normal group and [exp(loc - scale^2)] for a LogNormal
    group. *)
Theorem mode_closed_form (self : RandomGPPosterior.t) (groups : list (vector * vector)) :
  RandomGPPosterior._param_dist_funcs self <> [] ->
  Forall2 (fun p g => learned self p.1 p.2 g.1 g.2)
          (RandomGPPosterior._param_dist_funcs self) groups ->
  RandomGPPosterior.mode self
  = Ok (mkTensor
          [length (concat (zip_with group_mode
                             (RandomGPPosterior._param_dist_funcs self) groups))]
          (concat (zip_with group_mode
                     (RandomGPPosterior._param_dist_funcs self) groups))).
Proof.
  intros Hne Hgroups. unfold RandomGPPosterior.mode.
  rewrite (modes_of_groups _ _ _ Hgroups). cbn [Py.bind].
  set (funcs := RandomGPPosterior._param_dist_funcs self) in *.
  assert (Hz : zip_with (fun p g => mkTensor [length g.1] (group_mode p g)) funcs groups
               = map (fun v => mkTensor [length v] v) (zip_with group_mode funcs groups)).
  { clearbody funcs. clear Hne.
    induction Hgroups as [| p g fs gs Hg _ IH]; [reflexivity |].
    cbn [zip_with map]. rewrite IH. f_equal. f_equal. f_equal.
    destruct Hg as (_ & raw & _ & Hlen & Hs). unfold group_mode.
    rewrite closed_form_mode_length; [reflexivity |].
    rewrite Hs, length_map. exact Hlen. }
  rewrite Hz. apply torch_cat_last_vectors.
  destruct Hgroups; [congruence | discriminate].
Qed.

Lemma mode_closed_form_witness :
  exists self,
    RandomGPPosterior.init Example.learned_values Example.posterior_schema = Ok self /\
    RandomGPPosterior.mode self
    = Ok (mkTensor [4%nat]
            [1; exp (1 - exp 1 ^ 2); exp (2 - exp 2 ^ 2); exp (1 - exp 1 ^ 2)]%R).
Proof.
  eexists. split; [vm_compute; reflexivity |].
  refine (mode_closed_form _
            [([1], [exp 1]); ([1; 2], [exp 1; exp 2]); ([1], [exp 1])]%R _ _).
  - discriminate.
  - repeat constructor;
      try (vm_compute; reflexivity);
      (eexists; split; [vm_compute; reflexivity | split; reflexivity]).
Defined.


(* ===================================================================== *)
(** * Further properties of the code *)
(* ===================================================================== *)

(** ** Objects to run the embedding on *)

Module Fixture.

Definition no_learner : @GPRegressionMetaLearnedVI.t Example.toy :=
  @GPRegressionMetaLearnedVI.mk Example.toy 0 0 0 0 0 0 0 0 tt
    (RandomGP.mk 0 (VectorizedGP.mk "" "" []) [] (CatDist.mk []))
    (RandomGPPosterior.mk ∅ []) (mkOptimizer "" 0 []) DummyLRScheduler [] false.

(** the meta-learner built on two tasks with a constant mean and a
    squared-exponential kernel *)
Definition learner : @GPRegressionMetaLearnedVI.t Example.toy :=
  Eval vm_compute in
    match @init Example.toy Example.toy_rng [Example.task1; Example.task2]
            (Example.toy_args "constant" "SE" 5 2) with
    | Ok self => self
    | Raise _ => no_learner
    end.

End Fixture.

Lemma learner_built :
  @init Example.toy Example.toy_rng [Example.task1; Example.task2]
    (Example.toy_args "constant" "SE" 5 2) = Ok Fixture.learner.
Proof. vm_compute. reflexivity. Qed.

(** ** The constructed meta-learner *)

Section Constructed.
Context `{Collaborators}.

Lemma init_stages rng data a self :
  init rng data a = Ok self ->
  exists d st model opt dicts,
    str_in (a_optimizer a) ["Adam"; "SGD"] = true /\
    check_meta_data_shapes data = Ok d /\
    compute_normalization_stats data = Ok st /\
    _setup_model_inference rng d (a_prior_factor a) (a_weight_prior_std a)
      (a_bias_prior_std a) (a_mean_module a) (a_covar_module a)
      (a_mean_nn_layers a) (a_kernel_nn_layers a) = Ok model /\
    _setup_optimizer (a_optimizer a) (a_lr a) (a_lr_decay a) = Ok opt /\
    map_result (make_task_dict st) data = Ok dicts /\
    self = mk _ (a_num_iter_fit a) (a_prior_factor a) (a_feature_dim a)
             (a_weight_prior_std a) (a_bias_prior_std a) (a_svi_batch_size a)
             (effective_task_batch_size (a_task_batch_size a) (length data))
             d st model.1 model.2 opt.1 opt.2 dicts false.
Proof.
  unfold init. intros Hinit.
  destruct (in_or_instance (a_mean_module a) _); [| discriminate]. cbn [assert Py.bind] in Hinit.
  destruct (in_or_instance (a_covar_module a) _); [| discriminate].
  cbn [assert Py.bind] in Hinit.
  destruct (str_in (a_optimizer a) _) eqn:Hopt; [| discriminate].
  cbn [assert Py.bind] in Hinit.
  destruct (check_meta_data_shapes data) as [d | e] eqn:Hd; [| discriminate].
  cbn [Py.bind] in Hinit.
  destruct (compute_normalization_stats data) as [st | e] eqn:Hst; [| discriminate].
  cbn [Py.bind] in Hinit.
  destruct (_setup_model_inference _ _ _ _ _ _ _ _ _) as [model | e] eqn:Hmodel;
    [| discriminate].
  cbn [Py.bind] in Hinit.
  destruct (_setup_optimizer _ _ _) as [opt | e] eqn:Hsetup; [| discriminate].
  cbn [Py.bind] in Hinit.
  destruct (map_result _ _) as [dicts | e] eqn:Hdicts; [| discriminate].
  cbn [Py.bind] in Hinit. injection Hinit as <-.
  exists d, st, model, opt, dicts. repeat split; assumption || reflexivity.
Qed.

End Constructed.

(** X1.  A constructed meta-learner is not fitted and holds one dictionary per
    meta-training task, in the order of the tasks, with exactly the two entries
    [train_x] and [train_y] that [_prepare_data_per_task] made of the task. *)
Theorem init_task_dicts_hold_prepared_data `{Collaborators} rng data a self :
  init rng data a = Ok self ->
  fitted self = false /\
  Forall2 (fun (task : dataset) (task_dict : gmap string pyval) =>
             exists xy, prepare_data_per_task (stats self) task = Ok xy /\
                        task_dict = <["train_y" := VVector xy.2]>
                                      (<["train_x" := VMatrix xy.1]> ∅))
          data (task_dicts self).
Proof.
  intros Hinit.
  destruct (init_stages _ _ _ _ Hinit)
    as (d & st & model & opt & dicts & _ & _ & _ & _ & _ & Hdicts & ->).
  cbn [fitted task_dicts stats]. split; [reflexivity |].
  eapply map_result_Forall2; [| exact Hdicts].
  intros task task_dict. unfold make_task_dict.
  destruct (prepare_data_per_task st task) as [xy | e]; [| discriminate].
  cbn [Py.bind]. intros [= <-]. exists xy. split; reflexivity.
Qed.

Lemma init_task_dicts_hold_prepared_data_witness :
  fitted Fixture.learner = false /\
  Forall2 (fun (task : dataset) (task_dict : gmap string pyval) =>
             exists xy, @prepare_data_per_task Example.toy (stats Fixture.learner) task
                        = Ok xy /\
                        task_dict = <["train_y" := VVector xy.2]>
                                      (<["train_x" := VMatrix xy.1]> ∅))
          [Example.task1; Example.task2] (task_dicts Fixture.learner).
Proof.
  exact (@init_task_dicts_hold_prepared_data Example.toy Example.toy_rng
           [Example.task1; Example.task2] (Example.toy_args "constant" "SE" 5 2)
           Fixture.learner learner_built).
Defined.

(** X2.  The constructor accepts the optimizers [Adam] and [SGD] only: any other
    string fails an assertion before the data is looked at, so the
    [NotImplementedError] of [_setup_optimizer] is never reached.  A constructed
    meta-learner has that optimizer with the given learning rate, and a
    [StepLR] schedule of step size 1000 and factor [lr_decay] when
    [lr_decay < 1], the dummy schedule otherwise. *)
Theorem init_optimizer_and_schedule `{Collaborators} rng data a :
  (str_in (a_optimizer a) ["Adam"; "SGD"] = false ->
   init rng data a = Raise AssertionError) /\
  (forall self, init rng data a = Ok self ->
     str_in (a_optimizer a) ["Adam"; "SGD"] = true /\
     algorithm (optimizer self) = a_optimizer a /\
     lr (optimizer self) = a_lr a /\
     opt_state (optimizer self) = [] /\
     ((a_lr_decay a < 1)%R -> lr_scheduler self = StepLR 1000 (a_lr_decay a)) /\
     ((1 <= a_lr_decay a)%R -> lr_scheduler self = DummyLRScheduler)).
Proof.
  split.
  - intros Hopt. unfold init.
    destruct (in_or_instance (a_mean_module a) _); [| reflexivity].
    cbn [assert Py.bind].
    destruct (in_or_instance (a_covar_module a) _); [| reflexivity].
    cbn [assert Py.bind]. rewrite Hopt. reflexivity.
  - intros self Hinit.
    destruct (init_stages _ _ _ _ Hinit)
      as (d & st & model & opt & dicts & Hin & _ & _ & _ & Hopt & _ & ->).
    cbn [optimizer lr_scheduler]. split; [exact Hin |].
    unfold _setup_optimizer in Hopt.
    destruct (String.eqb_spec (a_optimizer a) "Adam") as [HA | HA].
    + cbn [Py.bind] in Hopt. injection Hopt as <-. cbn.
      rewrite HA. repeat split; try reflexivity.
      * intros Hlt. destruct (Rlt_dec (a_lr_decay a) 1); [reflexivity | lra].
      * intros Hge. destruct (Rlt_dec (a_lr_decay a) 1); [lra | reflexivity].
    + destruct (String.eqb_spec (a_optimizer a) "SGD") as [HS | HS]; [| discriminate].
      cbn [Py.bind] in Hopt. injection Hopt as <-. cbn.
      rewrite HS. repeat split; try reflexivity.
      * intros Hlt. destruct (Rlt_dec (a_lr_decay a) 1); [reflexivity | lra].
      * intros Hge. destruct (Rlt_dec (a_lr_decay a) 1); [lra | reflexivity].
Qed.


Lemma init_optimizer_and_schedule_witness :
  @init Example.toy Example.toy_rng [Example.task1]
    (mkArgs 100 1 1 1 3 (Str "SE") (Str "constant") [32]%nat [32]%nat
       "RMSprop" 1 1 3 "diag" 5) = Raise AssertionError /\
  algorithm (optimizer Fixture.learner) = "Adam" /\
  lr_scheduler Fixture.learner = DummyLRScheduler.
Proof.
  split.
  - apply (proj1 (@init_optimizer_and_schedule Example.toy Example.toy_rng
                    [Example.task1]
                    (mkArgs 100 1 1 1 3 (Str "SE") (Str "constant") [32]%nat [32]%nat
                       "RMSprop" 1 1 3 "diag" 5))).
    reflexivity.
  - destruct (proj2 (@init_optimizer_and_schedule Example.toy Example.toy_rng
                       [Example.task1; Example.task2]
                       (Example.toy_args "constant" "SE" 5 2))
                Fixture.learner learner_built)
      as (_ & Halg & _ & _ & _ & Hdummy).
    split; [exact Halg |]. apply Hdummy. cbn. lra.
Defined.


(** ** Checkpoints of a meta-learner whose task dictionaries hold models *)

Module Fixture2.



End Fixture2.

Section Checkpoints.
Context `{Collaborators}.







End Checkpoints.




Module Fixture3.




End Fixture3.





(** ** The schema of the GP model *)

Section GPSchema.
Context `{Collaborators}.

Lemma str_in_In (x : string) (l : list string) : str_in x l = true <-> In x l.
Proof.
  unfold str_in. rewrite existsb_exists. split.
  - intros (y & Hin & Heq). apply String.eqb_eq in Heq. subst. exact Hin.
  - intros Hin. exists x. split; [exact Hin | apply String.eqb_refl].
Qed.

Lemma register_fresh {V} (d d' : odict V) name v :
  register d name v = Ok d' -> ~ In name (keys d) /\ d' = d ++ [(name, v)].
Proof.
  unfold register, assert. destruct (str_in name (keys d)) eqn:Hin; cbn; [discriminate |].
  intros [= <-]. split; [| reflexivity].
  intros Hk. apply str_in_In in Hk. congruence.
Qed.

Lemma register_NoDup {V} (d d' : odict V) name v :
  register d name v = Ok d' -> NoDup (keys d) -> NoDup (keys d').
Proof.
  intros Hreg Hnd. apply register_fresh in Hreg as [Hfresh ->].
  unfold keys in *. rewrite map_app. apply NoDup_app. repeat split.
  - exact Hnd.
  - intros x Hx Hx'. cbn in Hx'. apply list_elem_of_In in Hx, Hx'.
    destruct Hx' as [<- | []]. exact (Hfresh Hx).
  - cbn. apply NoDup_singleton.
Qed.

Lemma _param_module_NoDup params params' prefix module :
  VectorizedGP._param_module params prefix module = Ok params' ->
  NoDup (keys params) -> NoDup (keys params').
Proof.
  unfold VectorizedGP._param_module. revert params.
  induction module as [| p module IH]; intros params; cbn [for_each].
  - intros [= <-]. trivial.
  - destruct (VectorizedGP._param params _ _) as [ps | e] eqn:Hp; [| discriminate].
    cbn [Py.bind]. intros Hrest Hnd. apply (IH ps Hrest).
    exact (register_NoDup _ _ _ _ Hp Hnd).
Qed.

(** The entries of a network registered under [prefix]. *)
Definition prefixed (prefix : string) (module : odict Tensor) : odict (list nat) :=
  map (fun p : string * Tensor => (prefix +:+ "." +:+ p.1, t_shape p.2)) module.

End GPSchema.

(** X7.  The parameter names of a constructed GP model are pairwise distinct. *)
Theorem VectorizedGP_names_distinct `{Collaborators} input_dim feature_dim covar mean
    mean_nn_layers kernel_nn_layers gp :
  VectorizedGP.init input_dim feature_dim covar mean mean_nn_layers kernel_nn_layers
  = Ok gp ->
  NoDup (keys (VectorizedGP.named_parameters gp)).
Proof.
  unfold VectorizedGP.init, VectorizedGP.named_parameters. intros Hinit.
  match type of Hinit with
  | Py.bind ?m _ = _ => destruct m as [ps1 | e] eqn:Hmean; [| discriminate]
  end.
  cbn [Py.bind] in Hinit.
  match type of Hinit with
  | Py.bind ?m _ = _ => destruct m as [ps2 | e] eqn:Hcovar; [| discriminate]
  end.
  cbn [Py.bind] in Hinit.
  match type of Hinit with
  | Py.bind ?m _ = _ => destruct m as [ps3 | e] eqn:Hnoise; [| discriminate]
  end.
  cbn [Py.bind] in Hinit. injection Hinit as <-. cbn [VectorizedGP._params].
  apply (register_NoDup _ _ _ _ Hnoise).
  assert (H1 : NoDup (keys ps1)).
  { destruct (String.eqb mean "NN").
    - apply (_param_module_NoDup _ _ _ _ Hmean). constructor.
    - destruct (String.eqb mean "constant"); [| discriminate].
      apply (register_NoDup _ _ _ _ Hmean). constructor. }
  destruct (String.eqb covar "NN").
  - match type of Hcovar with
    | Py.bind ?m _ = _ => destruct m as [ps | e] eqn:Hk; [| discriminate]
    end.
    cbn [Py.bind] in Hcovar. apply (register_NoDup _ _ _ _ Hcovar).
    exact (_param_module_NoDup _ _ _ _ Hk H1).
  - destruct (String.eqb covar "SE"); [| discriminate].
    exact (register_NoDup _ _ _ _ Hcovar H1).
Qed.

Lemma VectorizedGP_names_distinct_witness :
  exists gp,
    @VectorizedGP.init Example.toy 1 2 "NN" "NN" [32]%nat [32]%nat = Ok gp /\
    NoDup (keys (VectorizedGP.named_parameters gp)).
Proof.
  eexists. split; [vm_compute; reflexivity |].
  apply (@VectorizedGP_names_distinct Example.toy 1 2 "NN" "NN" [32]%nat [32]%nat).
  vm_compute. reflexivity.
Defined.

(** X8.  The schema of a constructed GP model, in order: the parameters of the
    mean (the network's, under [mean_nn.], or [constant_mean] of shape
    [[1, 1]]), then the parameters of the kernel network under [kernel_nn.] if
    the kernel has one, then [lengthscale] of shape [[1, feature_dim]] with a
    kernel network and [[1, input_dim]] without, then [noise] of shape
    [[1, 1]]. *)
Theorem VectorizedGP_schema_layout `{Collaborators} input_dim feature_dim covar mean
    mean_nn_layers kernel_nn_layers gp :
  VectorizedGP.init input_dim feature_dim covar mean mean_nn_layers kernel_nn_layers
  = Ok gp ->
  VectorizedGP.parameter_shapes gp
  = (if String.eqb mean "NN"
     then prefixed "mean_nn" (nn_named_parameters input_dim 1 mean_nn_layers)
     else [("constant_mean", [1; 1]%nat)])
    ++ (if String.eqb covar "NN"
        then prefixed "kernel_nn"
               (nn_named_parameters input_dim feature_dim kernel_nn_layers)
             ++ [("lengthscale", [1; feature_dim]%nat)]
        else [("lengthscale", [1; input_dim]%nat)])
    ++ [("noise", [1; 1]%nat)].
Proof.
  unfold VectorizedGP.init, VectorizedGP.parameter_shapes, VectorizedGP.named_parameters.
  intros Hinit.
  match type of Hinit with
  | Py.bind ?m _ = _ => destruct m as [ps1 | e] eqn:Hmean; [| discriminate]
  end.
  cbn [Py.bind] in Hinit.
  match type of Hinit with
  | Py.bind ?m _ = _ => destruct m as [ps2 | e] eqn:Hcovar; [| discriminate]
  end.
  cbn [Py.bind] in Hinit.
  match type of Hinit with
  | Py.bind ?m _ = _ => destruct m as [ps3 | e] eqn:Hnoise; [| discriminate]
  end.
  cbn [Py.bind] in Hinit. injection Hinit as <-. cbn [VectorizedGP._params].
  change (map (fun p : string * Tensor => (p.1, t_shape p.2)) ps3)
    with (map shape_item ps3).
  apply register_ok in Hnoise. subst ps3.
  assert (H1 : map shape_item ps1
               = if String.eqb mean "NN"
                 then prefixed "mean_nn" (nn_named_parameters input_dim 1 mean_nn_layers)
                 else [("constant_mean", [1; 1]%nat)]).
  { destruct (String.eqb mean "NN").
    - apply _param_module_items in Hmean. exact Hmean.
    - destruct (String.eqb mean "constant"); [| discriminate].
      apply register_ok in Hmean. subst ps1. reflexivity. }
  rewrite map_app, app_assoc. f_equal. rewrite <- H1.
  destruct (String.eqb covar "NN").
  - match type of Hcovar with
    | Py.bind ?m _ = _ => destruct m as [ps | e] eqn:Hk; [| discriminate]
    end.
    cbn [Py.bind] in Hcovar. apply register_ok in Hcovar. subst ps2.
    apply _param_module_items in Hk. rewrite map_app, Hk, <- app_assoc. reflexivity.
  - destruct (String.eqb covar "SE"); [| discriminate].
    apply register_ok in Hcovar. subst ps2. rewrite map_app. reflexivity.
Qed.

Lemma VectorizedGP_schema_layout_witness :
  exists gp,
    @VectorizedGP.init Example.toy 3 2 "NN" "constant" [32]%nat [32]%nat = Ok gp /\
    VectorizedGP.parameter_shapes gp
    = [("constant_mean", [1; 1]); ("kernel_nn.out.weight", [6]);
       ("kernel_nn.out.bias", [2]); ("lengthscale", [1; 2]); ("noise", [1; 1])]%nat.
Proof.
  eexists. split; [vm_compute; reflexivity |].
  apply (@VectorizedGP_schema_layout Example.toy 3 2 "NN" "constant" [32]%nat [32]%nat).
  vm_compute. reflexivity.
Defined.

(** ** The priors of the random GP *)

Section Priors.
Context `{Collaborators}.

(** The prior that [RandomGP.__init__] gives to an entry of the GP's schema. *)
Inductive prior_for (weight_prior_std bias_prior_std : R)
  : string * list nat -> Distribution -> Prop :=
| prior_constant_mean shape :
    prior_for weight_prior_std bias_prior_std ("constant_mean", shape)
      (Independent (Normal (full [1%nat] 0%R) (full [1%nat] 1%R)) 1)
| prior_lengthscale shape d :
    last_dim shape = Ok d ->
    prior_for weight_prior_std bias_prior_std ("lengthscale", shape)
      (Independent (LogNormal (full [d] 0%R) (full [d] 1%R)) 1)
| prior_noise shape :
    prior_for weight_prior_std bias_prior_std ("noise", shape)
      (Independent (LogNormal (full [1%nat] (ln (1 / 10))%R) (full [1%nat] (2 / 10)%R)) 1)
| prior_weight name shape :
    contains "mean_nn" name || contains "kernel_nn" name = true ->
    contains "weight" name = true ->
    shape <> [] ->
    prior_for weight_prior_std bias_prior_std (name, shape)
      (Independent (Normal (full shape 0%R) (full shape weight_prior_std)) 1)
| prior_bias name shape :
    contains "mean_nn" name || contains "kernel_nn" name = true ->
    contains "weight" name = false ->
    contains "bias" name = true ->
    shape <> [] ->
    prior_for weight_prior_std bias_prior_std (name, shape)
      (Independent (Normal (full shape 0%R) (full shape bias_prior_std)) 1).

Lemma to_event1_base_shape base d :
  to_event1 base = Ok d -> event_ndims base = 0%nat -> full_shape base <> [].
Proof.
  unfold to_event1, dist_batch_shape. intros Hd Hn. rewrite Hn, Nat.sub_0_r, firstn_all in Hd.
  destruct (full_shape base); [discriminate | discriminate].
Qed.

Lemma nn_step_prior_for w b dists (name : string) shape dists' :
  contains "mean_nn" name || contains "kernel_nn" name = true ->
  (let* std :=
     (if contains "weight" name then Ok (full shape w)
      else if contains "bias" name then Ok (full shape b)
      else Raise NotImplementedError) in
   let* d := to_event1 (Normal (full shape 0) std) in
   register dists name d) = Ok dists' ->
  exists d, dists' = dists ++ [(name, d)] /\ prior_for w b (name, shape) d.
Proof.
  intros Hnn Hstep.
  destruct (contains "weight" name) eqn:Hw.
  - cbn [Py.bind] in Hstep.
    destruct (to_event1 _) as [d | e] eqn:Hd; [| discriminate].
    cbn [Py.bind] in Hstep. apply register_ok in Hstep.
    pose proof (to_event1_base_shape _ _ Hd eq_refl) as Hshape.
    apply to_event1_ok in Hd. subst d. eexists. split; [exact Hstep |].
    apply prior_weight; assumption.
  - destruct (contains "bias" name) eqn:Hb; [| discriminate].
    cbn [Py.bind] in Hstep.
    destruct (to_event1 _) as [d | e] eqn:Hd; [| discriminate].
    cbn [Py.bind] in Hstep. apply register_ok in Hstep.
    pose proof (to_event1_base_shape _ _ Hd eq_refl) as Hshape.
    apply to_event1_ok in Hd. subst d. eexists. split; [exact Hstep |].
    apply prior_bias; assumption.
Qed.

Lemma prior_step_prior_for w b dists item dists' :
  gp_item item ->
  RandomGP.prior_step w b dists item = Ok dists' ->
  exists d, dists' = dists ++ [(item.1, d)] /\ prior_for w b item d.
Proof.
  intros Hitem. unfold RandomGP.prior_step, RandomGP._param_dist.
  destruct Hitem as [| d | | pn shape | pn shape]; cbn [fst snd].
  - cbn. destruct (register dists _ _) as [ds | e] eqn:Hr; cbn; [| discriminate].
    intros [= <-]. apply register_ok in Hr. eexists. split; [exact Hr | constructor].
  - cbn. destruct (register dists _ _) as [ds | e] eqn:Hr; cbn; [| discriminate].
    intros [= <-]. apply register_ok in Hr. eexists. split; [exact Hr |].
    apply prior_lengthscale. reflexivity.
  - cbn. destruct (register dists _ _) as [ds | e] eqn:Hr; cbn; [| discriminate].
    intros [= <-]. apply register_ok in Hr. eexists. split; [exact Hr | constructor].
  - change ("mean_nn." +:+ pn =? "constant_mean")%string with false.
    change ("mean_nn." +:+ pn =? "lengthscale")%string with false.
    change ("mean_nn." +:+ pn =? "noise")%string with false.
    cbn [Py.bind].
    assert (Hnn : contains "mean_nn" ("mean_nn." +:+ pn)
                  || contains "kernel_nn" ("mean_nn." +:+ pn) = true).
    { change ("mean_nn." +:+ pn) with ("mean_nn" +:+ ("." +:+ pn)) at 1.
      rewrite contains_prefix. reflexivity. }
    rewrite Hnn. apply nn_step_prior_for. exact Hnn.
  - change ("kernel_nn." +:+ pn =? "constant_mean")%string with false.
    change ("kernel_nn." +:+ pn =? "lengthscale")%string with false.
    change ("kernel_nn." +:+ pn =? "noise")%string with false.
    cbn [Py.bind].
    assert (Hnn : contains "mean_nn" ("kernel_nn." +:+ pn)
                  || contains "kernel_nn" ("kernel_nn." +:+ pn) = true).
    { change ("kernel_nn." +:+ pn) with ("kernel_nn" +:+ ("." +:+ pn)) at 2.
      rewrite contains_prefix. apply orb_true_r. }
    rewrite Hnn. apply nn_step_prior_for. exact Hnn.
Qed.

Lemma prior_loop_prior_for w b items dists dists' :
  Forall gp_item items ->
  for_each items (RandomGP.prior_step w b) dists = Ok dists' ->
  exists added,
    dists' = dists ++ added /\
    Forall2 (fun item nd => nd.1 = item.1 /\ prior_for w b item nd.2) items added.
Proof.
  intros Hitems. revert dists.
  induction Hitems as [| item items Hitem _ IH]; intros dists; cbn [for_each].
  - intros [= <-]. exists []. rewrite app_nil_r. split; constructor.
  - destruct (RandomGP.prior_step w b dists item) as [ds | e] eqn:Hstep; [| discriminate].
    cbn [Py.bind]. intros Hrest. apply IH in Hrest as (added & -> & Hadded).
    destruct (prior_step_prior_for _ _ _ _ _ Hitem Hstep) as (d & -> & Hd).
    exists ((item.1, d) :: added). rewrite <- app_assoc. split; [reflexivity |].
    constructor; [split; [reflexivity | exact Hd] | exact Hadded].
Qed.

End Priors.

(** X9.  A constructed random GP gives every parameter of its GP model exactly
    one prior, in the order of the schema: a standard Normal to
    [constant_mean], a standard LogNormal per dimension to [lengthscale], a
    LogNormal with location [ln 0.1] and scale [0.2] to [noise], and to a
    neural-network parameter a centred Normal of standard deviation
    [weight_prior_std] if its name contains [weight], else of
    [bias_prior_std], its name then containing [bias]; the joint prior has
    these distributions as members, in this order. *)
Theorem RandomGP_priors `{Collaborators} size_in prior_factor weight_prior_std
    bias_prior_std feature_dim covar mean mean_nn_layers kernel_nn_layers rg :
  RandomGP.init size_in prior_factor weight_prior_std bias_prior_std feature_dim
    covar mean mean_nn_layers kernel_nn_layers = Ok rg ->
  Forall2 (fun item nd => nd.1 = item.1 /\
                          prior_for weight_prior_std bias_prior_std item nd.2)
          (VectorizedGP.parameter_shapes (RandomGP.gp rg)) (RandomGP._param_dists rg) /\
  CatDist.dists (RandomGP.hyper_prior rg) = values (RandomGP._param_dists rg).
Proof.
  unfold RandomGP.init. intros Hinit.
  destruct (VectorizedGP.init _ _ _ _ _ _) as [gp | e] eqn:Hgp; [| discriminate].
  cbn [Py.bind] in Hinit.
  destruct (for_each _ _ _) as [dists | e] eqn:Hloop; [| discriminate].
  cbn [Py.bind] in Hinit.
  destruct (RandomGP.check_aligned _ _) as [[] | e]; [| discriminate].
  cbn [Py.bind] in Hinit. injection Hinit as <-.
  cbn [RandomGP.gp RandomGP._param_dists RandomGP.hyper_prior CatDist.dists].
  split; [| reflexivity].
  pose proof (VectorizedGP_init_items _ _ _ _ _ _ _ Hgp) as Hitems.
  destruct (prior_loop_prior_for _ _ _ _ _ Hitems Hloop) as (added & -> & Hadded).
  exact Hadded.
Qed.

Lemma RandomGP_priors_witness :
  exists rg,
    @RandomGP.init Example.toy 1 1 1 3 2 "SE" "NN" [32]%nat [32]%nat = Ok rg /\
    Forall2 (fun item nd => nd.1 = item.1 /\ prior_for 1 3 item nd.2)
            (VectorizedGP.parameter_shapes (RandomGP.gp rg)) (RandomGP._param_dists rg) /\
    CatDist.dists (RandomGP.hyper_prior rg) = values (RandomGP._param_dists rg).
Proof.
  eexists. split; [vm_compute; reflexivity |].
  apply (@RandomGP_priors Example.toy 1 1 1 3 2 "SE" "NN" [32]%nat [32]%nat).
  vm_compute. reflexivity.
Defined.

(** ** The distributions of the posterior *)

Section PosteriorDists.


Lemma call_shape (self : RandomGPPosterior.t) fn name d :
  RandomGPPosterior.call self fn name = Ok d ->
  exists loc scale_raw,
    RandomGPPosterior.getattr self (RandomGPPosterior.loc_attr fn name) = Ok loc /\
    RandomGPPosterior.getattr self (RandomGPPosterior.scale_raw_attr fn name)
    = Ok scale_raw /\
    t_shape loc <> [] /\
    d = Independent
          (match RandomGPPosterior.family_of fn with
           | FNormal => Normal loc (texp scale_raw)
           | FLogNormal => LogNormal loc (texp scale_raw)
           end) 1.
Proof.
  unfold RandomGPPosterior.call. intros Hcall.
  destruct (RandomGPPosterior.getattr self (RandomGPPosterior.loc_attr fn name))
    as [loc | e]; [| discriminate].
  cbn [Py.bind] in Hcall.
  destruct (RandomGPPosterior.getattr self (RandomGPPosterior.scale_raw_attr fn name))
    as [raw | e]; [| discriminate].
  cbn [Py.bind] in Hcall. exists loc, raw. split; [reflexivity |]. split; [reflexivity |].
  destruct (RandomGPPosterior.family_of fn).
  - pose proof (to_event1_base_shape _ _ Hcall eq_refl) as Hshape.
    apply to_event1_ok in Hcall. split; [exact Hshape | exact Hcall].
  - pose proof (to_event1_base_shape _ _ Hcall eq_refl) as Hshape.
    apply to_event1_ok in Hcall. split; [exact Hshape | exact Hcall].
Qed.

Lemma Forall2_Forall_r {A B} (P : B -> Prop) (l : list A) (k : list B) :
  Forall2 (fun _ b => P b) l k -> Forall P k.
Proof. induction 1; constructor; assumption. Qed.

Lemma forward_members (self : RandomGPPosterior.t) (q : CatDist.t) (P : Distribution -> Prop) :
  (forall fn name d, RandomGPPosterior.call self fn name = Ok d -> P d) ->
  RandomGPPosterior.forward self = Ok q ->
  Forall P (CatDist.dists q).
Proof.
  intros HP. unfold RandomGPPosterior.forward.
  destruct (map_result _ _) as [ds | e] eqn:Hds; [| discriminate].
  cbn [Py.bind]. intros [= <-]. cbn [CatDist.dists].
  eapply Forall2_Forall_r. eapply map_result_Forall2; [| exact Hds].
  intros p d Hd. cbn beta in Hd. exact (HP _ _ _ Hd).
Qed.

End PosteriorDists.


Module Fixture4.

(** a posterior on the three groups of the example schema *)
Definition posterior : RandomGPPosterior.t :=
  Eval vm_compute in
    match RandomGPPosterior.init Example.learned_values Example.posterior_schema with
    | Ok self => self
    | Raise _ => RandomGPPosterior.mk ∅ []
    end.

Definition joint : CatDist.t :=
  Eval vm_compute in
    match RandomGPPosterior.forward posterior with
    | Ok q => q
    | Raise _ => CatDist.mk []
    end.

End Fixture4.

Lemma posterior_built :
  RandomGPPosterior.init Example.learned_values Example.posterior_schema
  = Ok Fixture4.posterior.
Proof. vm_compute. reflexivity. Qed.



(** ** What the constructor of the posterior rejects *)

Section PosteriorRejects.

Lemma _dist_raises self name fn e :
  RandomGPPosterior._dist self name fn = Raise e -> e = AssertionError.
Proof.
  unfold RandomGPPosterior._dist.
  destruct (register _ _ _) as [fs | e'] eqn:Hr; cbn [Py.bind]; [discriminate |].
  intros [= <-]. exact (register_raises _ _ _ _ Hr).
Qed.

Lemma _dist_NoDup self name fn self' :
  RandomGPPosterior._dist self name fn = Ok self' ->
  NoDup (keys (RandomGPPosterior._param_dist_funcs self)) ->
  NoDup (keys (RandomGPPosterior._param_dist_funcs self')).
Proof.
  unfold RandomGPPosterior._dist.
  destruct (register _ _ _) as [fs | e'] eqn:Hr; cbn [Py.bind]; [| discriminate].
  intros [= <-]. cbn [RandomGPPosterior._param_dist_funcs].
  exact (register_NoDup _ _ _ _ Hr).
Qed.

(** the registry is all that [init_step] needs to keep duplicate-free *)
Definition registry_ok (self : RandomGPPosterior.t) : Prop :=
  NoDup (keys (RandomGPPosterior._param_dist_funcs self)).

Lemma init_step_outcome rng self item :
  registry_ok self ->
  match RandomGPPosterior.init_step rng self item with
  | Ok self' => registry_ok self'
  | Raise e => e = AssertionError
  end.
Proof.
  intros Hok. unfold RandomGPPosterior.init_step.
  set (s1 := if String.eqb item.1 "constant_mean" then _ else Ok self).
  assert (H1 : match s1 with Ok s => registry_ok s | Raise e => e = AssertionError end).
  { subst s1. destruct (String.eqb item.1 "constant_mean"); [| exact Hok].
    destruct (RandomGPPosterior._dist _ _ _) as [s | e] eqn:Hd.
    - exact (_dist_NoDup _ _ _ _ Hd Hok).
    - exact (_dist_raises _ _ _ _ Hd). }
  destruct s1 as [self1 | e]; cbn [Py.bind]; [| exact H1].
  set (s2 := if String.eqb item.1 "lengthscale" || String.eqb item.1 "noise"
             then _ else Ok self1).
  assert (H2 : match s2 with Ok s => registry_ok s | Raise e => e = AssertionError end).
  { subst s2. destruct (String.eqb item.1 "lengthscale" || String.eqb item.1 "noise");
      [| exact H1].
    destruct (RandomGPPosterior._dist _ _ _) as [s | e] eqn:Hd.
    - exact (_dist_NoDup _ _ _ _ Hd H1).
    - exact (_dist_raises _ _ _ _ Hd). }
  destruct s2 as [self2 | e]; cbn [Py.bind]; [| exact H2].
  destruct (contains "mean_nn" item.1 || contains "kernel_nn" item.1); [| exact H2].
  destruct (RandomGPPosterior._dist _ _ _) as [s | e] eqn:Hd.
  - exact (_dist_NoDup _ _ _ _ Hd H2).
  - exact (_dist_raises _ _ _ _ Hd).
Qed.

Lemma init_loop_outcome rng items self :
  registry_ok self ->
  match for_each items (RandomGPPosterior.init_step rng) self with
  | Ok self' => registry_ok self'
  | Raise e => e = AssertionError
  end.
Proof.
  revert self. induction items as [| item items IH]; intros self Hok; cbn [for_each].
  - exact Hok.
  - pose proof (init_step_outcome rng self item Hok) as Hstep.
    destruct (RandomGPPosterior.init_step rng self item) as [s | e]; cbn [Py.bind].
    + apply IH. exact Hstep.
    + exact Hstep.
Qed.

Lemma call_event_shape (self : RandomGPPosterior.t) fn name d :
  RandomGPPosterior.call self fn name = Ok d -> length (event_shape d) = 1%nat.
Proof.
  intros Hcall. destruct (call_shape _ _ _ _ Hcall) as (loc & raw & _ & _ & Hshape & ->).
  unfold event_shape.
  assert (Hfs : full_shape (Independent
                  match RandomGPPosterior.family_of fn with
                  | FNormal => Normal loc (texp raw)
                  | FLogNormal => LogNormal loc (texp raw)
                  end 1) = t_shape loc)
    by (destruct (RandomGPPosterior.family_of fn); reflexivity).
  assert (Hnd : event_ndims (Independent
                  match RandomGPPosterior.family_of fn with
                  | FNormal => Normal loc (texp raw)
                  | FLogNormal => LogNormal loc (texp raw)
                  end 1) = 1%nat)
    by (destruct (RandomGPPosterior.family_of fn); reflexivity).
  rewrite Hfs, Hnd, length_drop.
  destruct (t_shape loc); [congruence | cbn; lia].
Qed.

End PosteriorRejects.

(** X11.  On a schema that holds the names of a GP model, the posterior is
    constructed only if every shape of the schema is one-dimensional: a shape
    of any other rank fails the constructor. *)
Theorem posterior_requires_vector_shapes rng (named_param_shapes : odict (list nat)) self :
  Forall (fun item : string * list nat => gp_name item.1) named_param_shapes ->
  RandomGPPosterior.init rng named_param_shapes = Ok self ->
  Forall (fun shape : list nat => length shape = 1%nat) (values named_param_shapes).
Proof.
  intros Hnames. unfold RandomGPPosterior.init.
  destruct (for_each _ _ _) as [s | e] eqn:Hloop; [| discriminate]. cbn [Py.bind].
  destruct (RandomGPPosterior.forward s) as [q | e] eqn:Hq; [| discriminate].
  cbn [Py.bind].
  destruct (RandomGPPosterior.check_shapes _ _) as [[] | e] eqn:Hcheck; [| discriminate].
  cbn [Py.bind]. intros [= <-].
  pose proof (posterior_loop_items _ _ _ _ Hnames Hloop) as Hkeys.
  pose proof (forward_members s q (fun d => length (event_shape d) = 1%nat)
                (call_event_shape s) Hq) as Hone.
  assert (Hlen : length (values named_param_shapes) = length (CatDist.dists q)).
  { unfold RandomGPPosterior.forward in Hq.
    destruct (map_result _ _) as [ds | e] eqn:Hds; [| discriminate].
    cbn [Py.bind] in Hq. injection Hq as <-. cbn [CatDist.dists].
    apply map_result_length in Hds. rewrite Hds.
    apply (f_equal length) in Hkeys. unfold keys, values in *.
    cbn [RandomGPPosterior._param_dist_funcs map app] in Hkeys.
    rewrite !length_map in Hkeys. rewrite length_map. symmetry. exact Hkeys. }
  rewrite <- (check_shapes_ok _ _ Hcheck Hlen).
  apply Forall_map. exact Hone.
Qed.

Lemma posterior_requires_vector_shapes_witness :
  Forall (fun shape : list nat => length shape = 1%nat) (values Example.posterior_schema).
Proof.
  apply (posterior_requires_vector_shapes Example.learned_values Example.posterior_schema
           Fixture4.posterior).
  - constructor; [exists [1; 1]%nat; constructor |].
    constructor; [exists [1; 2]%nat; constructor |].
    constructor; [exists [1; 1]%nat; constructor | constructor].
  - exact posterior_built.
Defined.

(** X12.  On a schema that holds the names of a GP model, two groups whose names
    are the same once the dots of the neural-network names are replaced by
    underscores make the constructor of the posterior fail an assertion. *)
Theorem posterior_rejects_colliding_names rng (named_param_shapes : odict (list nat)) :
  Forall (fun item : string * list nat => gp_name item.1) named_param_shapes ->
  ~ NoDup (map posterior_name (keys named_param_shapes)) ->
  RandomGPPosterior.init rng named_param_shapes = Raise AssertionError.
Proof.
  intros Hnames Hdup. unfold RandomGPPosterior.init.
  pose proof (init_loop_outcome rng named_param_shapes (RandomGPPosterior.mk ∅ [])) as Hout.
  destruct (for_each _ _ _) as [s | e] eqn:Hloop; cbn [Py.bind].
  - exfalso. apply Hdup.
    pose proof (posterior_loop_items _ _ _ _ Hnames Hloop) as Hkeys.
    cbn [RandomGPPosterior._param_dist_funcs keys map app] in Hkeys.
    unfold keys. rewrite <- Hkeys. apply Hout. constructor.
  - rewrite Hout by constructor. reflexivity.
Qed.

Lemma posterior_rejects_colliding_names_witness :
  RandomGPPosterior.init Example.learned_values
    [("mean_nn.fc.weight", [2%nat]); ("mean_nn.fc_weight", [2%nat])]
  = Raise AssertionError.
Proof.
  apply posterior_rejects_colliding_names.
  - constructor; [exists [2%nat]; exact (gp_mean_nn "fc.weight" [2%nat]) |].
    constructor; [exists [2%nat]; exact (gp_mean_nn "fc_weight" [2%nat]) | constructor].
  - intros Hnd. vm_compute in Hnd. inversion Hnd as [| x l Hfresh _]. subst.
    apply Hfresh. constructor.
Defined.

(** ** Filtering a dictionary by its keys *)

Section Filter.
Context {V : Type}.

Lemma str_in_not_In (x : string) (l : list string) : str_in x l = false <-> ~ In x l.
Proof.
  rewrite <- str_in_In. destruct (str_in x l); split; congruence.
Qed.

Lemma keys_app (d d' : odict V) : keys (d ++ d') = keys d ++ keys d'.
Proof. unfold keys. apply map_app. Qed.

Lemma _filter_loop (s : string) (d acc : odict V) :
  NoDup (keys (acc ++ d)) ->
  fold_left
    (fun result (item : string * V) =>
       if contains s item.1 then osetitem result item.1 item.2 else result)
    d acc
  = acc ++ List.filter (fun item => contains s item.1) d.
Proof.
  revert acc. induction d as [| [k v] d IH]; intros acc Hnd;
    cbn [fold_left List.filter fst snd].
  - symmetry. apply app_nil_r.
  - rewrite keys_app in Hnd. simpl in Hnd.
    destruct (contains s k) eqn:Hc.
    + assert (Hfresh : str_in k (keys acc) = false).
      { apply str_in_not_In. intros Hin.
        apply NoDup_app in Hnd as (_ & Hdis & _).
        apply (Hdis k); [apply list_elem_of_In; exact Hin | left]. }
      unfold osetitem. rewrite Hfresh.
      rewrite IH.
      * rewrite <- app_assoc. reflexivity.
      * rewrite <- app_assoc. rewrite keys_app. exact Hnd.
    + rewrite IH; [reflexivity |].
      rewrite keys_app.
      apply NoDup_app in Hnd as (Ha & Hdis & Hd).
      apply NoDup_cons in Hd as (_ & Hd).
      apply NoDup_app. repeat split; [exact Ha | | exact Hd].
      intros x Hx Hx'. apply (Hdis x Hx). right. exact Hx'.
Qed.

Lemma find_filter_key (s k : string) (d : odict V) :
  find (fun p : string * V => String.eqb k p.1)
       (List.filter (fun item => contains s item.1) d)
  = if contains s k then find (fun p : string * V => String.eqb k p.1) d else None.
Proof.
  induction d as [| [k' v] d IH]; simpl.
  - destruct (contains s k); reflexivity.
  - destruct (contains s k') eqn:Hc'; simpl.
    + destruct (String.eqb k k') eqn:Hk.
      * apply String.eqb_eq in Hk. subst. rewrite Hc'. reflexivity.
      * exact IH.
    + destruct (String.eqb k k') eqn:Hk.
      * apply String.eqb_eq in Hk. subst. rewrite Hc' in *. exact IH.
      * exact IH.
Qed.

End Filter.

(** X13. [_filter(dict, str)] of a dictionary (its keys distinct, as those of
    an [OrderedDict] are) keeps exactly the entries whose key contains [str],
    in their order; a look-up in the result is the look-up in the dictionary
    for such a key and a [KeyError] for every other key. *)
Theorem _filter_selects {V} (dict : odict V) (str : string) :
  NoDup (keys dict) ->
  _filter dict str = List.filter (fun item => contains str item.1) dict /\
  forall key,
    ogetitem (_filter dict str) key
    = if contains str key then ogetitem dict key else Raise (KeyError key).
Proof.
  intros Hnd.
  assert (Heq : _filter dict str = List.filter (fun item => contains str item.1) dict).
  { unfold _filter. rewrite _filter_loop; [reflexivity | exact Hnd]. }
  split; [exact Heq |].
  intros key. rewrite Heq. unfold ogetitem. rewrite find_filter_key.
  destruct (contains str key); reflexivity.
Qed.

Lemma _filter_selects_witness :
  _filter [("mean_nn.out.weight", 1%nat); ("lengthscale", 2%nat);
           ("mean_nn.out.bias", 3%nat)] "mean_nn"
  = [("mean_nn.out.weight", 1%nat); ("mean_nn.out.bias", 3%nat)].
Proof.
  refine (proj1 (_filter_selects
    [("mean_nn.out.weight", 1%nat); ("lengthscale", 2%nat); ("mean_nn.out.bias", 3%nat)]
    "mean_nn" _)).
  repeat constructor; rewrite ?list_elem_of_In; simpl; intuition discriminate.
Defined.

(** ** The trials of the hyper-parameter search *)

Module Fixture5.

Import SearchDriver.

(** a driver whose model is the number of iterations it was trained for *)
Definition counting : Driver := {|
  data := nat;
  model := Z;
  provide_data := Ok (1%nat, 2%nat, 3%nat);
  construct := fun _ _ => Ok 0%Z;
  fit := fun m _ _ _ n_iter =>
           let m' := (m + match n_iter with Some n => n | None => 10000 end)%Z in
           Ok (Finite (IZR m'), m');
  evaluate := fun m _ => Ok (Finite 1, Finite 2, Finite (IZR m));
|}.

Definition search_config (num_iter_fit : Z) : gmap string value :=
  <["num_iter_fit" := VInt num_iter_fit]> (<["lr" := VFloat (Finite 1)]> ∅).

End Fixture5.

Section Trials.

Import SearchDriver.

Context `{Driver}.

Lemma train_reg_loop_reports (i : nat) (eval_period train_iter : Z) (m : model)
    (data_valid : data) (reports reports' : list report) (outcome : result unit) :
  train_reg_loop i eval_period train_iter m data_valid reports = (reports', outcome) ->
  exists new,
    reports' = reports ++ new /\
    map timesteps_total new
    = map (fun j => (train_iter + eval_period * Z.of_nat (S j))%Z) (seq 0 (length new)) /\
    (length new <= i)%nat /\
    (outcome = Ok tt -> length new = i).
Proof.
  revert train_iter m reports.
  induction i as [| i IH]; intros train_iter m reports; cbn [train_reg_loop].
  - intros [= <- <-]. exists []. rewrite app_nil_r. repeat split; simpl; lia.
  - destruct (fit m None false 2000 (Some eval_period)) as [[l m'] | e].
    2: { intros [= <- <-]. exists []. rewrite app_nil_r.
         repeat split; simpl; try lia. discriminate. }
    destruct (evaluate m' data_valid) as [[[ll rmse] calib] | e].
    2: { intros [= <- <-]. exists []. rewrite app_nil_r.
         repeat split; simpl; try lia. discriminate. }
    intros Hloop. apply IH in Hloop as (new & -> & Hsteps & Hlen & Hdone).
    exists (mkReport (train_iter + eval_period) l rmse ll calib :: new).
    split; [rewrite <- app_assoc; reflexivity |].
    split; [| split; [simpl; lia | intros Hout; simpl; rewrite (Hdone Hout); reflexivity]].
    cbn [map length seq timesteps_total]. f_equal; [lia |].
    rewrite Hsteps. rewrite <- seq_shift, map_map.
    apply map_ext. intros j. lia.
Qed.

Lemma forallb_map_to_list_false (config : gmap string value) (f : string * value -> bool)
    key v :
  config !! key = Some v -> f (key, v) = false ->
  forallb f (map_to_list config) = false.
Proof.
  intros Hkey Hf. destruct (forallb f (map_to_list config)) eqn:Hall; [| reflexivity].
  rewrite forallb_forall in Hall.
  rewrite <- Hf. symmetry. apply Hall. apply list_elem_of_In.
  apply elem_of_map_to_list. exact Hkey.
Qed.

Lemma construct_rejects_unknown_keyword data_train (config : gmap string value) key v :
  config !! key = Some v -> ~ In key init_keywords ->
  construct_with_kwargs data_train config = Raise TypeError.
Proof.
  intros Hkey Hnot. unfold construct_with_kwargs.
  rewrite (forallb_map_to_list_false config _ key v Hkey); [reflexivity |].
  cbn [fst]. apply str_in_not_In. exact Hnot.
Qed.

End Trials.

(** X14. A trial of the search reports after every 3000 training iterations:
    the [j]-th report (counting from one) carries [timesteps_total = 3000 * j],
    there are never more than [num_iter_fit // 3000] reports, and exactly that
    many when [train_reg] returns; so a remainder of [num_iter_fit] below 3000
    is never trained. *)
Theorem train_reg_report_schedule `{SearchDriver.Driver} (config : gmap string value)
    (n : Z) (reports : list SearchDriver.report) (outcome : result unit) :
  config !! "num_iter_fit" = Some (VInt n) ->
  SearchDriver.train_reg config = (reports, outcome) ->
  map SearchDriver.timesteps_total reports
  = map (fun j => (3000 * Z.of_nat (S j))%Z) (seq 0 (length reports)) /\
  (length reports <= Z.to_nat (n / 3000))%nat /\
  (outcome = Ok tt -> length reports = Z.to_nat (n / 3000)).
Proof.
  intros Hn. unfold SearchDriver.train_reg.
  destruct SearchDriver.provide_data as [[[data_train data_valid] data_test] | e].
  2: { intros [= <- <-]. repeat split; simpl; try lia. discriminate. }
  destruct (SearchDriver.construct_with_kwargs data_train config) as [m | e].
  2: { intros [= <- <-]. repeat split; simpl; try lia. discriminate. }
  unfold SearchDriver.rounds, getitem. rewrite Hn. cbn [Py.bind].
  intros Hloop. apply train_reg_loop_reports in Hloop as (new & -> & Hsteps & Hlen & Hdone).
  rewrite app_nil_l. split; [| split; assumption].
  rewrite Hsteps. apply map_ext. intros j. lia.
Qed.

Lemma train_reg_report_schedule_witness :
  map SearchDriver.timesteps_total
      (@SearchDriver.train_reg Fixture5.counting (Fixture5.search_config 10000)).1
  = [3000; 6000; 9000]%Z.
Proof.
  pose proof (@train_reg_report_schedule Fixture5.counting
                (Fixture5.search_config 10000) 10000
                (@SearchDriver.train_reg Fixture5.counting (Fixture5.search_config 10000)).1
                (@SearchDriver.train_reg Fixture5.counting (Fixture5.search_config 10000)).2
                eq_refl) as Hschedule.
  destruct Hschedule as (Hsteps & _ & Hdone).
  - symmetry. apply surjective_pairing.
  - rewrite Hsteps. rewrite Hdone by (vm_compute; reflexivity). reflexivity.
Defined.

(** X15. A key of the trial configuration that is no keyword of
    [GPRegressionMetaLearnedVI.__init__] (as [task_kl_weight] of the search
    space is none) makes the constructor call a [TypeError]: when the data is
    provided, [train_reg] raises it before its first report, and [train_test]
    returns the configuration with the three metrics set to NaN. *)
Theorem trial_rejects_unknown_keyword `{SearchDriver.Driver}
    (config : gmap string value) (key : string) (v : value) d :
  SearchDriver.provide_data = Ok d ->
  config !! key = Some v ->
  ~ In key SearchDriver.init_keywords ->
  SearchDriver.train_reg config = ([], Raise TypeError) /\
  train_test SearchDriver.train_test_body config = Ok (update_metrics config NaN NaN NaN).
Proof.
  intros Hdata Hkey Hnot. split.
  - unfold SearchDriver.train_reg. rewrite Hdata. destruct d as [[data_train data_valid] ?].
    rewrite (construct_rejects_unknown_keyword _ _ _ _ Hkey Hnot). reflexivity.
  - unfold train_test, SearchDriver.train_test_body. rewrite Hdata. cbn [Py.bind].
    rewrite (construct_rejects_unknown_keyword _ _ _ _ Hkey Hnot). reflexivity.
Qed.

Lemma trial_rejects_unknown_keyword_witness :
  @SearchDriver.train_reg Fixture5.counting
    (<["task_kl_weight" := VFloat (Finite 1)]> (Fixture5.search_config 30000))
  = ([], Raise TypeError).
Proof.
  refine (proj1 (@trial_rejects_unknown_keyword Fixture5.counting
            (<["task_kl_weight" := VFloat (Finite 1)]> (Fixture5.search_config 30000))
            "task_kl_weight" (VFloat (Finite 1)) (1%nat, 2%nat, 3%nat) eq_refl _ _)).
  - apply lookup_insert_eq.
  - unfold SearchDriver.init_keywords. simpl. intuition discriminate.
Defined.

(** ** The test runs of the best configurations *)

Section TestRuns.

Import SearchDriver.

(** the copies made of one configuration *)
Definition seeded (config : gmap string value) : list (gmap string value) :=
  map (fun seed => <["random_seed" := VInt seed]> config) TEST_SEEDS.

Lemma seed_loop (config : gmap string value) (seeds : list Z)
    (acc : list (gmap string value)) :
  fold_left
    (fun test_configs seed =>
       let test_config := config in
       let test_config := <["random_seed" := VInt seed]> test_config in
       test_configs ++ [test_config])
    seeds acc
  = acc ++ map (fun seed => <["random_seed" := VInt seed]> config) seeds.
Proof.
  revert acc. induction seeds as [| seed seeds IH]; intros acc; cbn [fold_left map].
  - symmetry. apply app_nil_r.
  - rewrite IH, <- app_assoc. reflexivity.
Qed.

Lemma test_configs_concat (best_configs : list (gmap string value)) :
  test_configs best_configs = concat (map seeded best_configs).
Proof.
  unfold test_configs.
  enough (Hloop : forall acc,
    fold_left
      (fun test_configs config =>
         fold_left
           (fun test_configs seed =>
              let test_config := config in
              let test_config := <["random_seed" := VInt seed]> test_config in
              test_configs ++ [test_config])
           TEST_SEEDS test_configs)
      best_configs acc
    = acc ++ concat (map seeded best_configs)) by apply (Hloop []).
  induction best_configs as [| config best_configs IH]; intros acc; cbn [fold_left map concat].
  - symmetry. apply app_nil_r.
  - rewrite seed_loop, IH, <- app_assoc. reflexivity.
Qed.

Lemma seeded_length config : length (seeded config) = 5%nat.
Proof. reflexivity. Qed.

Lemma test_configs_length best_configs :
  length (test_configs best_configs) = (5 * length best_configs)%nat.
Proof.
  rewrite test_configs_concat.
  induction best_configs as [| config best_configs IH]; [reflexivity |].
  cbn [map concat]. rewrite length_app, seeded_length, IH. cbn [length]. lia.
Qed.

Lemma test_configs_lookup best_configs (i j : nat) config seed :
  best_configs !! i = Some config ->
  TEST_SEEDS !! j = Some seed ->
  test_configs best_configs !! (5 * i + j)%nat
  = Some (<["random_seed" := VInt seed]> config).
Proof.
  rewrite test_configs_concat. intros Hi Hj.
  assert (Hjlt : (j < 5)%nat) by (apply lookup_lt_Some in Hj; exact Hj).
  revert i Hi. induction best_configs as [| c best_configs IH]; intros i Hi.
  - discriminate.
  - cbn [map concat]. destruct i as [| i].
    + injection Hi as ->. rewrite Nat.mul_0_r, Nat.add_0_l.
      rewrite lookup_app_l by (rewrite seeded_length; exact Hjlt).
      unfold seeded. rewrite list_lookup_fmap, Hj. reflexivity.
    + rewrite lookup_app_r by (rewrite seeded_length; lia).
      rewrite seeded_length.
      replace (5 * S i + j - 5)%nat with (5 * i + j)%nat by lia.
      apply IH. exact Hi.
Qed.

Lemma map_result_total {A B} (f : A -> result B) (xs : list A) :
  (forall x, exists y, f x = Ok y) ->
  exists ys, map_result f xs = Ok ys.
Proof.
  intros Hf. induction xs as [| x xs (ys & IH)]; cbn [map_result].
  - eexists. reflexivity.
  - destruct (Hf x) as (y & ->). rewrite IH. eexists. reflexivity.
Qed.

Lemma map_result_lookup {A B} (f : A -> result B) (xs : list A) (ys : list B) i x :
  map_result f xs = Ok ys -> xs !! i = Some x ->
  exists y, ys !! i = Some y /\ f x = Ok y.
Proof.
  revert ys i. induction xs as [| x' xs IH]; intros ys i; cbn [map_result].
  - intros _ Hi. discriminate.
  - destruct (f x') as [y' | e] eqn:Hx; cbn [Py.bind]; [| discriminate].
    destruct (map_result f xs) as [ys' | e]; cbn [Py.bind]; [| discriminate].
    intros [= <-] Hi. destruct i as [| i].
    + injection Hi as ->. exists y'. split; [reflexivity | exact Hx].
    + apply (IH ys' i eq_refl Hi).
Qed.

Lemma train_test_total (fit_and_eval : trial_body) config :
  (forall e, fit_and_eval config = Raise e -> is_Exception e = true) ->
  exists ll rmse calib_err,
    train_test fit_and_eval config = Ok (update_metrics config ll rmse calib_err) /\
    (fit_and_eval config = Ok (ll, rmse, calib_err) \/
     (exists e, fit_and_eval config = Raise e) /\
     ll = NaN /\ rmse = NaN /\ calib_err = NaN).
Proof.
  intros Hexc. unfold train_test.
  destruct (fit_and_eval config) as [[[ll rmse] calib_err] | e].
  - exists ll, rmse, calib_err. split; [reflexivity | left; reflexivity].
  - rewrite (Hexc e eq_refl). exists NaN, NaN, NaN.
    split; [reflexivity | right]. split; [exists e; reflexivity | auto].
Qed.

End TestRuns.

(** X16. The test configurations are the best configurations, each copied once
    per test seed 28, ..., 32 in this order: there are five times as many, and
    the copy number [5 * i + j] is the [i]-th best configuration with
    [random_seed] set to the [j]-th seed and every other entry as it was. *)
Theorem test_configs_layout (best_configs : list (gmap string value)) :
  length (SearchDriver.test_configs best_configs) = (5 * length best_configs)%nat /\
  forall (i j : nat) config seed,
    best_configs !! i = Some config ->
    [28; 29; 30; 31; 32]%Z !! j = Some seed ->
    exists test_config,
      SearchDriver.test_configs best_configs !! (5 * i + j)%nat = Some test_config /\
      test_config !! "random_seed" = Some (VInt seed) /\
      forall key, key <> "random_seed" -> test_config !! key = config !! key.
Proof.
  split; [apply test_configs_length |].
  intros i j config seed Hi Hj.
  exists (<["random_seed" := VInt seed]> config).
  split; [apply test_configs_lookup; assumption |].
  split; [apply lookup_insert_eq |].
  intros key Hkey. apply lookup_insert_ne. congruence.
Qed.

Lemma test_configs_layout_witness :
  exists test_config,
    SearchDriver.test_configs [Fixture5.search_config 30000] !! 3%nat = Some test_config /\
    test_config !! "random_seed" = Some (VInt 31).
Proof.
  destruct (proj2 (test_configs_layout [Fixture5.search_config 30000])
              0%nat 3%nat (Fixture5.search_config 30000) 31%Z eq_refl eq_refl)
    as (test_config & Hat & Hseed & _).
  exists test_config. split; [exact Hat | exact Hseed].
Defined.

(** X17. When the trial body raises nothing but [Exception]s, the test runs give
    a full table: five rows per best configuration, and the row [5 * i + j]
    holds the entries of the [i]-th best configuration, the [j]-th test seed
    under [random_seed], and under [ll], [rmse] and [calib_err] either what the
    trial body computed on that seeded configuration or NaN thrice when it
    raised. *)
Theorem run_tests_table (fit_and_eval : trial_body)
    (best_configs : list (gmap string value)) :
  (forall config e, fit_and_eval config = Raise e -> is_Exception e = true) ->
  exists rows,
    SearchDriver.run_tests fit_and_eval best_configs = Ok rows /\
    length rows = (5 * length best_configs)%nat /\
    forall (i j : nat) config seed,
      best_configs !! i = Some config ->
      SearchDriver.TEST_SEEDS !! j = Some seed ->
      exists row ll rmse calib_err,
        rows !! (5 * i + j)%nat = Some row /\
        row !! "random_seed" = Some (VInt seed) /\
        row !! "ll" = Some (VFloat ll) /\
        row !! "rmse" = Some (VFloat rmse) /\
        row !! "calib_err" = Some (VFloat calib_err) /\
        (forall key, ~ In key ["random_seed"; "ll"; "rmse"; "calib_err"] ->
                     row !! key = config !! key) /\
        (fit_and_eval (<["random_seed" := VInt seed]> config) = Ok (ll, rmse, calib_err) \/
         (exists e, fit_and_eval (<["random_seed" := VInt seed]> config) = Raise e) /\
         ll = NaN /\ rmse = NaN /\ calib_err = NaN).
Proof.
  intros Hexc. unfold SearchDriver.run_tests.
  destruct (map_result_total (train_test fit_and_eval)
              (SearchDriver.test_configs best_configs)) as (rows & Hrows).
  { intros config. destruct (train_test_total fit_and_eval config (Hexc config))
      as (ll & rmse & calib_err & Hrow & _). eexists. exact Hrow. }
  exists rows. split; [exact Hrows |].
  split; [rewrite (map_result_length _ _ _ Hrows); apply test_configs_length |].
  intros i j config seed Hi Hj.
  pose proof (test_configs_lookup best_configs i j config seed Hi Hj) as Hcfg.
  destruct (map_result_lookup _ _ _ _ _ Hrows Hcfg) as (row & Hrow & Hrun).
  destruct (train_test_total fit_and_eval _ (Hexc (<["random_seed" := VInt seed]> config)))
    as (ll & rmse & calib_err & Hrun' & Hmetrics).
  rewrite Hrun in Hrun'. injection Hrun' as ->.
  exists (update_metrics (<["random_seed" := VInt seed]> config) ll rmse calib_err),
    ll, rmse, calib_err.
  split; [exact Hrow |]. unfold update_metrics.
  split; [rewrite !lookup_insert_ne by discriminate; apply lookup_insert_eq |].
  split; [rewrite !lookup_insert_ne by discriminate; apply lookup_insert_eq |].
  split; [rewrite lookup_insert_ne by discriminate; apply lookup_insert_eq |].
  split; [apply lookup_insert_eq |].
  split; [| exact Hmetrics].
  intros key Hkey. cbn [In] in Hkey.
  rewrite !lookup_insert_ne; [reflexivity | | | |]; intros <-; apply Hkey; auto.
Qed.

Lemma run_tests_table_witness :
  exists rows,
    SearchDriver.run_tests (fun _ => Raise ValueError) [Fixture5.search_config 30000]
    = Ok rows /\
    length rows = 5%nat.
Proof.
  destruct (run_tests_table (fun _ => Raise ValueError) [Fixture5.search_config 30000])
    as (rows & Hrows & Hlen & _).
  - intros config e [= <-]. reflexivity.
  - exists rows. split; [exact Hrows | exact Hlen].
Defined.

(** ** The training loop *)

Module Fixture6.

Import MetaFit.

(** an optimizer that leaves the parameters where they are *)
Definition toy_training : @Training Example.toy := {|
  optimizer_step := fun opt _ q => (q, opt_state opt);
  eval_datasets := fun _ _ => Ok (Finite 0, Finite 0, Finite 0);
|}.

Definition toy_rnd (k : nat) : (nat -> nat) * list (list (list R)) :=
  (fun j => (k + j)%nat, Example.toy_eps).

Definition with_schedule (self : @GPRegressionMetaLearnedVI.t Example.toy)
    (scheduler : LRScheduler) : @GPRegressionMetaLearnedVI.t Example.toy :=
  @GPRegressionMetaLearnedVI.mk Example.toy
    (num_iter_fit self) (prior_factor self) (feature_dim self)
    (weight_prior_std self) (bias_prior_std self) (svi_batch_size self)
    (task_batch_size self) (input_dim self) (stats self) (random_gp self)
    (posterior self) (optimizer self) scheduler (task_dicts self) (fitted self).

(** the constructed learner, its learning rate halved every second step *)
Definition start : @state Example.toy :=
  Eval vm_compute in mkState (with_schedule Fixture.learner (StepLR 2 (1 / 2))) 0.

End Fixture6.

Section Fit.

Import MetaFit.

Context `{Training}.

(** What training leaves as it is: the hyper-parameters, the data of the tasks,
    the prior, the kind of optimizer and the schedule. *)
Definition same_setup (a b : t) : Prop :=
  num_iter_fit a = num_iter_fit b /\
  prior_factor a = prior_factor b /\
  feature_dim a = feature_dim b /\
  weight_prior_std a = weight_prior_std b /\
  bias_prior_std a = bias_prior_std b /\
  svi_batch_size a = svi_batch_size b /\
  task_batch_size a = task_batch_size b /\
  input_dim a = input_dim b /\
  stats a = stats b /\
  random_gp a = random_gp b /\
  lr_scheduler a = lr_scheduler b /\
  task_dicts a = task_dicts b /\
  algorithm (optimizer a) = algorithm (optimizer b).

Lemma same_setup_refl a : same_setup a a.
Proof. unfold same_setup. repeat split. Qed.

Lemma same_setup_trans a b c : same_setup a b -> same_setup b c -> same_setup a c.
Proof.
  unfold same_setup. intros Hab Hbc.
  decompose [and] Hab. decompose [and] Hbc. repeat split; congruence.
Qed.

Lemma same_setup_updated a q opt b :
  algorithm opt = algorithm (optimizer a) -> same_setup a (updated a q opt b).
Proof. intros Halg. unfold same_setup. cbn. repeat split. symmetry. exact Halg. Qed.

(** the error of an iteration is never the one of a missing [loss] *)
Definition loop_error (e : error) : Prop :=
  e = ZeroDivisionError \/ exists x, e = PyError x.

Ltac iteration_cases :=
  unfold iteration;
  repeat
    match goal with
    | |- context [match choice ?a ?b ?c with _ => _ end] =>
        let Hc := fresh "Hchoice" in destruct (choice a b c) eqn:Hc
    | |- context [match get_neg_elbo ?a ?b ?c with _ => _ end] =>
        let Hl := fresh "Hloss" in destruct (get_neg_elbo a b c) eqn:Hl
    | |- context [match lr_scheduler_step ?a ?b ?c with _ => _ end] =>
        let Hs := fresh "Hsched" in destruct (lr_scheduler_step a b c) eqn:Hs
    | |- context [match log_now ?a ?b with _ => _ end] =>
        let Hn := fresh "Hnow" in destruct (log_now a b) as [[|] |] eqn:Hn
    | |- context [match eval_datasets ?a ?b with _ => _ end] =>
        let He := fresh "Heval" in destruct (eval_datasets a b) eqn:He
    | |- context [match ?vt with Some _ => _ | None => _ end] =>
        is_var vt; destruct vt
    end.

Lemma iteration_effect vt verbose lp draw eps itr p p' oe :
  iteration vt verbose lp draw eps itr p = (p', oe) ->
  same_setup (learner (current p)) (learner (current p')) /\
  fitted (learner (current p')) = fitted (learner (current p)) /\
  (last_epoch (current p) <= last_epoch (current p') <= S (last_epoch (current p)))%nat /\
  (oe = None ->
   last_epoch (current p') = S (last_epoch (current p)) /\ exists l, loss p' = Some l) /\
  (forall e, oe = Some e -> loop_error e).
Proof.
  iteration_cases; intros [= <- <-]; cbn;
    (split; [first [apply same_setup_refl | apply same_setup_updated; reflexivity] |]);
    (split; [reflexivity |]); (split; [lia |]);
    (split; [first [discriminate | intros _; split; [reflexivity | eexists; reflexivity]] |]);
    intros e' He'; try discriminate; injection He' as <-; unfold loop_error; eauto.
Qed.

Lemma loop_effect vt verbose lp rnd n k p p' oe :
  loop vt verbose lp rnd n k p = (p', oe) ->
  same_setup (learner (current p)) (learner (current p')) /\
  fitted (learner (current p')) = fitted (learner (current p)) /\
  (last_epoch (current p) <= last_epoch (current p') <= last_epoch (current p) + n)%nat /\
  (oe = None ->
   last_epoch (current p') = (last_epoch (current p) + n)%nat /\
   (n = 0%nat -> p' = p) /\
   (0 < n -> exists l, loss p' = Some l)%nat) /\
  (forall e, oe = Some e -> loop_error e).
Proof.
  revert k p. induction n as [| n IH]; intros k p; cbn [loop].
  - intros [= <- <-]. split; [apply same_setup_refl |].
    split; [reflexivity |]. split; [lia |].
    split; [intros _; split; [lia | split; [reflexivity | lia]] | discriminate].
  - destruct (iteration vt verbose lp (rnd k).1 (rnd k).2 (Z.of_nat (S k)) p)
      as [p1 [e1 |]] eqn:Hit;
      apply iteration_effect in Hit as (Hsetup & Hfit & Hep & Hok & Herr).
    + intros [= <- <-]. split; [exact Hsetup |]. split; [exact Hfit |].
      split; [lia |]. split; [discriminate | exact Herr].
    + intros Hloop. destruct (Hok eq_refl) as (Hep1 & l1 & Hl1).
      pose proof (IH _ _ Hloop) as (Hsetup' & Hfit' & Hep' & Hok' & Herr').
      split; [exact (same_setup_trans _ _ _ Hsetup Hsetup') |].
      split; [congruence |]. split; [lia |].
      split; [| exact Herr'].
      intros Hnone. destruct (Hok' Hnone) as (Hep2 & Hzero & Hpos).
      split; [lia |]. split; [lia |]. intros _.
      destruct n as [| n]; [rewrite (Hzero eq_refl); eauto | apply Hpos; lia].
Qed.

(** *** What is logged *)

(** [itr == 1 or itr % log_period == 0], when it has a value *)
Definition logs_at (log_period itr : Z) : bool :=
  (itr =? 1)%Z || (itr mod log_period =? 0)%Z.

(** a message names the learner's [num_iter_fit] as the total, and carries
    validation metrics exactly when validation data was given *)
Definition message_of (self : t) (valid_tuples : option (list (list Tensor)))
    (m : log_entry) : Prop :=
  log_total m = num_iter_fit self /\ (log_valid m = None <-> valid_tuples = None).

Lemma log_now_value itr lp b : log_now itr lp = Some b -> b = logs_at lp itr.
Proof.
  unfold log_now, logs_at. destruct (itr =? 1)%Z; [intros [= <-]; reflexivity |].
  destruct (lp =? 0)%Z; [discriminate |]. intros [= <-]. reflexivity.
Qed.

Lemma iteration_logs vt verbose lp draw eps itr p p' :
  iteration vt verbose lp draw eps itr p = (p', None) ->
  exists new,
    logged p' = logged p ++ new /\
    map log_itr new = (if verbose && logs_at lp itr then [itr] else []) /\
    Forall (message_of (learner (current p)) vt) new.
Proof.
  iteration_cases; intros Heq; try discriminate; injection Heq as <-;
    apply log_now_value in Hnow; rewrite <- Hnow; cbn [logged];
    destruct verbose; cbn [andb];
    try (exists []; rewrite app_nil_r; repeat split; constructor);
    eexists; (split; [reflexivity |]); (split; [reflexivity |]);
    repeat constructor; cbn; intros; discriminate.
Qed.

Lemma iteration_quiet vt lp draw eps itr p p' oe :
  iteration vt false lp draw eps itr p = (p', oe) -> logged p' = logged p.
Proof. iteration_cases; intros [= <- <-]; reflexivity. Qed.

Lemma loop_quiet vt lp rnd n k p p' oe :
  loop vt false lp rnd n k p = (p', oe) -> logged p' = logged p.
Proof.
  revert k p. induction n as [| n IH]; intros k p; cbn [loop].
  - intros [= <- <-]. reflexivity.
  - destruct (iteration vt false lp (rnd k).1 (rnd k).2 (Z.of_nat (S k)) p)
      as [p1 [e1 |]] eqn:Hit; apply iteration_quiet in Hit.
    + intros [= <- <-]. exact Hit.
    + intros Hloop. rewrite (IH _ _ Hloop). exact Hit.
Qed.

Lemma loop_logs vt lp rnd n k p p' :
  loop vt true lp rnd n k p = (p', None) ->
  exists new,
    logged p' = logged p ++ new /\
    map log_itr new
    = List.filter (logs_at lp) (map (fun j => Z.of_nat (S j)) (seq k n)) /\
    Forall (message_of (learner (current p)) vt) new.
Proof.
  revert k p. induction n as [| n IH]; intros k p; cbn [loop].
  - intros [= <-]. exists []. rewrite app_nil_r. repeat split; constructor.
  - destruct (iteration vt true lp (rnd k).1 (rnd k).2 (Z.of_nat (S k)) p)
      as [p1 [e1 |]] eqn:Hit; [discriminate |].
    intros Hloop.
    pose proof (iteration_effect _ _ _ _ _ _ _ _ _ Hit) as (Hsetup & _).
    apply iteration_logs in Hit as (new1 & Hlog1 & Hitr1 & Hmsg1).
    apply IH in Hloop as (new2 & Hlog2 & Hitr2 & Hmsg2).
    exists (new1 ++ new2). split; [rewrite Hlog2, Hlog1, app_assoc; reflexivity |].
    split.
    + rewrite map_app, Hitr1, Hitr2. cbn [andb seq map List.filter].
      destruct (logs_at lp (Z.of_nat (S k))); reflexivity.
    + apply Forall_app. split; [exact Hmsg1 |].
      unfold message_of in *. destruct Hsetup as (Htotal & _). rewrite Htotal. exact Hmsg2.
Qed.

(** *** A log period of zero *)

Lemma iteration_zero_period vt verbose draw eps itr p p' oe :
  itr <> 1%Z ->
  iteration vt verbose 0 draw eps itr p = (p', oe) -> oe <> None.
Proof.
  intros Hitr.
  assert (Hnone : log_now itr 0 = None).
  { unfold log_now. destruct (Z.eqb_spec itr 1); [contradiction | reflexivity]. }
  iteration_cases; intros [= <- <-]; try discriminate; congruence.
Qed.

Lemma loop_zero_period vt verbose rnd n k p p' oe :
  (1 <= k)%nat -> (1 <= n)%nat ->
  loop vt verbose 0 rnd n k p = (p', oe) ->
  oe <> None /\ (last_epoch (current p') <= S (last_epoch (current p)))%nat.
Proof.
  intros Hk Hn. destruct n as [| n]; [lia |]. cbn [loop].
  destruct (iteration vt verbose 0 (rnd k).1 (rnd k).2 (Z.of_nat (S k)) p)
    as [p1 [e1 |]] eqn:Hit.
  - intros [= <- <-]. split; [discriminate |].
    apply iteration_effect in Hit. lia.
  - apply iteration_zero_period in Hit; [contradiction | lia].
Qed.

(** *** The learning rate *)

Lemma div_succ (e s : nat) :
  s <> 0%nat ->
  (S e / s = e / s + (if (S e mod s =? 0) then 1 else 0))%nat.
Proof.
  intros Hs.
  pose proof (Nat.div_mod_eq e s) as He.
  pose proof (Nat.mod_upper_bound e s Hs) as Hr.
  destruct (Nat.eq_dec (S (e mod s)) s) as [Hfull | Hpart].
  - assert (Hm : (S e mod s = 0)%nat).
    { symmetry. apply (Nat.mod_unique _ _ (e / s + 1)); nia. }
    rewrite Hm. cbn [Nat.eqb]. symmetry. apply (Nat.div_unique _ _ _ 0); nia.
  - assert (Hm : (S e mod s = S (e mod s))%nat).
    { symmetry. apply (Nat.mod_unique _ _ (e / s)); lia. }
    rewrite Hm. cbn [Nat.eqb]. symmetry. apply (Nat.div_unique _ _ _ (S (e mod s))); lia.
Qed.

(** the factor that a [StepLR] schedule has applied between two epochs *)
Definition decay (scheduler : LRScheduler) (epoch epoch' : nat) : R :=
  match scheduler with
  | StepLR step_size gamma => gamma ^ (epoch' / step_size - epoch / step_size)
  | DummyLRScheduler => 1
  end.

Definition sound_schedule (scheduler : LRScheduler) : Prop :=
  match scheduler with
  | StepLR step_size _ => step_size <> 0%nat
  | DummyLRScheduler => True
  end.

Lemma decay_same scheduler e : decay scheduler e e = 1%R.
Proof. destruct scheduler; cbn; [rewrite Nat.sub_diag |]; reflexivity. Qed.

Lemma decay_compose scheduler e0 e1 e2 :
  (e0 <= e1 <= e2)%nat ->
  (decay scheduler e0 e1 * decay scheduler e1 e2 = decay scheduler e0 e2)%R.
Proof.
  intros He. destruct scheduler as [s g |]; cbn; [| lra].
  rewrite <- pow_add. f_equal.
  pose proof (Nat.Div0.div_le_mono e0 e1 s). pose proof (Nat.Div0.div_le_mono e1 e2 s). lia.
Qed.

Lemma lr_scheduler_step_decay scheduler e (r r' : R) :
  sound_schedule scheduler ->
  lr_scheduler_step scheduler (S e) r = Some r' ->
  r' = (r * decay scheduler e (S e))%R.
Proof.
  destruct scheduler as [s g |]; cbn [sound_schedule lr_scheduler_step decay Nat.eqb].
  - intros Hs. destruct (Nat.eqb_spec s 0); [contradiction |].
    rewrite (div_succ e s Hs).
    destruct (S e mod s =? 0)%nat; cbn [negb]; intros [= <-].
    + replace (e / s + 1 - e / s)%nat with 1%nat by lia. simpl. ring.
    + replace (e / s + 0 - e / s)%nat with 0%nat by lia. simpl. ring.
  - intros _ [= <-]. ring.
Qed.

Lemma lr_scheduler_step_some scheduler e (r : R) :
  sound_schedule scheduler -> lr_scheduler_step scheduler (S e) r <> None.
Proof.
  destruct scheduler as [s g |]; cbn [sound_schedule lr_scheduler_step Nat.eqb];
    [| discriminate].
  intros Hs. destruct (Nat.eqb_spec s 0); [contradiction |].
  destruct (negb _); discriminate.
Qed.

Lemma iteration_lr vt verbose lp draw eps itr p p' oe :
  sound_schedule (lr_scheduler (learner (current p))) ->
  iteration vt verbose lp draw eps itr p = (p', oe) ->
  lr (optimizer (learner (current p')))
  = (lr (optimizer (learner (current p)))
     * decay (lr_scheduler (learner (current p)))
             (last_epoch (current p)) (last_epoch (current p')))%R.
Proof.
  intros Hsound.
  iteration_cases; intros [= <- <-]; cbn;
    try (rewrite decay_same; ring);
    try (exfalso; exact (lr_scheduler_step_some _ _ _ Hsound Hsched));
    apply (lr_scheduler_step_decay _ _ _ _ Hsound) in Hsched; exact Hsched.
Qed.

Lemma loop_lr vt verbose lp rnd n k p p' oe :
  sound_schedule (lr_scheduler (learner (current p))) ->
  loop vt verbose lp rnd n k p = (p', oe) ->
  lr (optimizer (learner (current p')))
  = (lr (optimizer (learner (current p)))
     * decay (lr_scheduler (learner (current p)))
             (last_epoch (current p)) (last_epoch (current p')))%R.
Proof.
  revert k p. induction n as [| n IH]; intros k p Hsound; cbn [loop].
  - intros [= <- <-]. rewrite decay_same. ring.
  - destruct (iteration vt verbose lp (rnd k).1 (rnd k).2 (Z.of_nat (S k)) p)
      as [p1 [e1 |]] eqn:Hit.
    + intros [= <- <-]. exact (iteration_lr _ _ _ _ _ _ _ _ _ Hsound Hit).
    + intros Hloop.
      pose proof (iteration_effect _ _ _ _ _ _ _ _ _ Hit) as (Hsetup & _ & Hep & _).
      pose proof (loop_effect _ _ _ _ _ _ _ _ _ Hloop) as (_ & _ & Hep' & _).
      assert (Hsched : lr_scheduler (learner (current p1))
                       = lr_scheduler (learner (current p))).
      { symmetry. apply Hsetup. }
      rewrite (IH _ _ ltac:(rewrite Hsched; exact Hsound) Hloop).
      rewrite (iteration_lr _ _ _ _ _ _ _ _ _ Hsound Hit), Hsched.
      rewrite Rmult_assoc, decay_compose by lia. reflexivity.
Qed.

(** *** Training in rounds *)

(** two states that differ at most in the [fitted] mark *)
Definition same_training (a b : state) : Prop :=
  same_setup (learner a) (learner b) /\
  posterior (learner a) = posterior (learner b) /\
  optimizer (learner a) = optimizer (learner b) /\
  last_epoch a = last_epoch b.

Lemma same_training_refl a : same_training a a.
Proof. unfold same_training. split; [apply same_setup_refl | auto]. Qed.

Lemma same_training_marked s b :
  same_training s
    (mkState (updated (learner s) (posterior (learner s)) (optimizer (learner s)) b)
             (last_epoch s)).
Proof.
  unfold same_training. cbn. split; [apply same_setup_updated; reflexivity | auto].
Qed.

Lemma same_setup_sym a b : same_setup a b -> same_setup b a.
Proof. unfold same_setup. intros Hab. decompose [and] Hab. repeat split; congruence. Qed.

Lemma same_training_sym a b : same_training a b -> same_training b a.
Proof.
  unfold same_training. intros (Hs & Hp & Ho & He).
  split; [apply same_setup_sym; exact Hs | auto].
Qed.

Lemma same_training_trans a b c :
  same_training a b -> same_training b c -> same_training a c.
Proof.
  unfold same_training. intros (Hs & Hp & Ho & He) (Hs' & Hp' & Ho' & He').
  split; [exact (same_setup_trans _ _ _ Hs Hs') |]. repeat split; congruence.
Qed.

Lemma same_training_marks_equal a b :
  same_training a b ->
  mkState (updated (learner a) (posterior (learner a)) (optimizer (learner a)) true)
          (last_epoch a)
  = mkState (updated (learner b) (posterior (learner b)) (optimizer (learner b)) true)
            (last_epoch b).
Proof.
  unfold same_training, same_setup, updated. intros (Hs & -> & -> & ->).
  decompose [and] Hs.
  repeat match goal with Heq : _ (learner a) = _ (learner b) |- _ => rewrite Heq; clear Heq end.
  reflexivity.
Qed.

Lemma objective_same (a b : t) opt opt' f f' eps batch :
  same_setup a b ->
  (fun q : RandomGPPosterior.t => get_neg_elbo (updated a q opt f) eps batch)
  = (fun q : RandomGPPosterior.t => get_neg_elbo (updated b q opt' f') eps batch).
Proof.
  unfold same_setup, get_neg_elbo, updated. cbn. intros Hs. decompose [and] Hs.
  repeat match goal with Heq : _ a = _ b |- _ => rewrite Heq; clear Heq end.
  reflexivity.
Qed.

Lemma get_neg_elbo_same (a b : t) eps batch :
  same_setup a b -> posterior a = posterior b ->
  get_neg_elbo a eps batch = get_neg_elbo b eps batch.
Proof.
  unfold same_setup, get_neg_elbo. intros Hs Hp. decompose [and] Hs.
  rewrite Hp.
  repeat match goal with Heq : _ a = _ b |- _ => rewrite Heq; clear Heq end.
  reflexivity.
Qed.

Lemma iteration_same verbose verbose' lp lp' draw eps itr itr' p p' q :
  same_training (current p) (current q) ->
  iteration None verbose lp draw eps itr p = (p', None) ->
  log_now itr' lp' <> None ->
  exists q',
    iteration None verbose' lp' draw eps itr' q = (q', None) /\
    same_training (current p') (current q') /\
    loss q' = loss p'.
Proof.
  intros (Hs & Hp & Ho & He) Hit Hnow'.
  pose proof Hs as (E1 & E2 & E3 & E4 & E5 & E6 & E7 & E8 & E9 & E10 & E11 & E12 & E13).
  unfold iteration in *. cbv zeta in *.
  rewrite <- ?E1, <- ?E2, <- ?E3, <- ?E4, <- ?E5, <- ?E6, <- ?E7, <- ?E8, <- ?E9,
    <- ?E10, <- ?E11, <- ?E12, <- ?E13, <- ?Hp, <- ?Ho, <- ?He.
  revert Hit.
  destruct (choice _ _ _) as [batch | e]; [| discriminate].
  rewrite <- (get_neg_elbo_same _ _ eps batch Hs Hp).
  destruct (get_neg_elbo _ _ _) as [l | e]; [| discriminate].
  rewrite <- (objective_same (learner (current p)) (learner (current q))
                (optimizer (learner (current p))) (optimizer (learner (current p)))
                (fitted (learner (current p))) (fitted (learner (current q)))
                eps batch Hs).
  destruct (lr_scheduler_step _ _ _) as [r |]; [| discriminate].
  intros Hit.
  destruct (log_now itr lp) as [[|] |]; [| | discriminate]; injection Hit as <-;
    (destruct (log_now itr' lp') as [[|] |]; [| | contradiction]);
    (eexists; split; [reflexivity |]; split; [| reflexivity]);
    unfold same_training; cbn; (split; [| auto]);
    (eapply same_setup_trans; [apply same_setup_sym, same_setup_updated; reflexivity |]);
    (eapply same_setup_trans; [exact Hs |]);
    apply same_setup_updated; cbn; rewrite Ho; reflexivity.
Qed.

Lemma log_now_some itr lp : lp <> 0%Z -> log_now itr lp <> None.
Proof.
  intros Hlp. unfold log_now. destruct (itr =? 1)%Z; [discriminate |].
  destruct (Z.eqb_spec lp 0); [contradiction | discriminate].
Qed.

Lemma loop_same verbose verbose' lp lp' rnd rnd' n k k' p p' q :
  (forall j, (j < n)%nat -> rnd' (k' + j)%nat = rnd (k + j)%nat) ->
  lp' <> 0%Z ->
  same_training (current p) (current q) ->
  loop None verbose lp rnd n k p = (p', None) ->
  exists q',
    loop None verbose' lp' rnd' n k' q = (q', None) /\
    same_training (current p') (current q') /\
    ((0 < n)%nat -> loss q' = loss p').
Proof.
  intros Hrnd Hlp. revert k k' p q Hrnd.
  induction n as [| n IH]; intros k k' p q Hrnd Hsame; cbn [loop].
  - intros [= <-]. exists q. split; [reflexivity |]. split; [exact Hsame | lia].
  - destruct (iteration None verbose lp (rnd k).1 (rnd k).2 (Z.of_nat (S k)) p)
      as [p1 [e1 |]] eqn:Hit; [discriminate |].
    intros Hloop.
    destruct (iteration_same verbose verbose' lp lp' _ _ _ (Z.of_nat (S k')) _ _ q
                Hsame Hit (log_now_some _ _ Hlp)) as (q1 & Hit' & Hsame1 & Hloss1).
    pose proof (Hrnd 0%nat ltac:(lia)) as Hrnd0. rewrite !Nat.add_0_r in Hrnd0.
    rewrite Hrnd0, Hit'.
    destruct (IH (S k) (S k') p1 q1) as (q' & Hloop' & Hsame' & Hloss'); [| exact Hsame1 | exact Hloop |].
    { intros j Hj. specialize (Hrnd (S j) ltac:(lia)).
      rewrite !Nat.add_succ_r in Hrnd. exact Hrnd. }
    exists q'. split; [exact Hloop' |]. split; [exact Hsame' |]. intros _.
    destruct n as [| n]; [| apply Hloss'; lia].
    cbn [loop] in Hloop, Hloop'. injection Hloop as <-. injection Hloop' as <-.
    exact Hloss1.
Qed.

Lemma loop_app vt verbose lp rnd n m k p :
  loop vt verbose lp rnd (n + m) k p
  = match loop vt verbose lp rnd n k p with
    | (p1, Some e) => (p1, Some e)
    | (p1, None) => loop vt verbose lp rnd m (k + n) p1
    end.
Proof.
  revert k p. induction n as [| n IH]; intros k p; cbn [loop Nat.add].
  - rewrite Nat.add_0_r. reflexivity.
  - destruct (iteration vt verbose lp (rnd k).1 (rnd k).2 (Z.of_nat (S k)) p)
      as [p1 [e1 |]]; [reflexivity |].
    rewrite IH, Nat.add_succ_r. reflexivity.
Qed.

Lemma meta_fit_rounds_positive self verbose lp n rnd self' logs l :
  meta_fit self None verbose lp (Some n) rnd = (self', logs, Returned l) -> (1 <= n)%Z.
Proof.
  unfold meta_fit. cbn [negb].
  destruct (loop _ _ _ _ _ _ _) as [p [e |]] eqn:Hloop; [discriminate |].
  destruct (loss p) as [l' |] eqn:Hl; [| discriminate]. intros _.
  apply loop_effect in Hloop as (_ & _ & _ & Hok & _).
  destruct (Hok eq_refl) as (_ & Hzero & _).
  destruct (Z.to_nat n) eqn:Hn; [| lia].
  rewrite (Hzero eq_refl) in Hl. discriminate.
Qed.

End Fit.

(** X18. Whatever way [meta_fit] ends, it leaves the hyper-parameters, the
    data of the tasks, the prior, the kind of optimizer and the schedule as
    they were, and it takes at most [n_iter] scheduler steps.  When it returns
    a loss it has taken exactly [n_iter >= 1] steps and the learner is marked
    as fitted; when an iteration fails the mark is as before. *)
Theorem meta_fit_frame `{MetaFit.Training} (self self' : MetaFit.state)
    (valid_tuples : option (list (list Tensor))) (verbose : bool) (log_period : Z)
    (n_iter : option Z) rnd (logs : list MetaFit.log_entry) (out : MetaFit.outcome) :
  MetaFit.meta_fit self valid_tuples verbose log_period n_iter rnd = (self', logs, out) ->
  let n := match n_iter with
           | None => num_iter_fit (MetaFit.learner self)
           | Some n => n
           end in
  same_setup (MetaFit.learner self) (MetaFit.learner self') /\
  (MetaFit.last_epoch self <= MetaFit.last_epoch self'
   <= MetaFit.last_epoch self + Z.to_nat n)%nat /\
  match out with
  | MetaFit.Returned _ =>
      fitted (MetaFit.learner self') = true /\
      MetaFit.last_epoch self' = (MetaFit.last_epoch self + Z.to_nat n)%nat /\
      (1 <= n)%Z
  | MetaFit.Failed (MetaFit.UnboundLocalError _) =>
      fitted (MetaFit.learner self') = true /\ (n <= 0)%Z
  | MetaFit.Failed _ =>
      fitted (MetaFit.learner self') = fitted (MetaFit.learner self)
  end.
Proof.
  intros Hfit n. unfold MetaFit.meta_fit in Hfit. fold n in Hfit.
  destruct (negb _) in Hfit.
  { injection Hfit as <- <- <-. split; [apply same_setup_refl |]. split; [lia | reflexivity]. }
  destruct (MetaFit.loop _ _ _ _ _ _ _) as [p [e |]] eqn:Hloop;
    apply loop_effect in Hloop as (Hsetup & Hfitted & Hep & Hok & Herr);
    cbn in Hep, Hsetup, Hfitted; injection Hfit as <- <- <-.
  - split; [exact Hsetup |]. split; [exact Hep |].
    destruct (Herr e eq_refl) as [-> | (x & ->)]; exact Hfitted.
  - destruct (Hok eq_refl) as (Hep' & Hzero & Hpos). cbn in Hep'.
    split; [| split; [cbn; lia |]].
    { eapply same_setup_trans; [exact Hsetup |]. apply same_setup_updated. reflexivity. }
    destruct (MetaFit.loss p) as [l |] eqn:Hl; cbn.
    + split; [reflexivity |]. split; [exact Hep' |].
      destruct (Z.to_nat n) as [| k] eqn:Hn; [| lia].
      rewrite (Hzero eq_refl) in Hl. discriminate.
    + split; [reflexivity |].
      destruct (Z.to_nat n) as [| k] eqn:Hn; [lia |].
      destruct Hpos as (l & Hl'); [lia | congruence].
Qed.

Module Fixture7.

Import MetaFit.

Definition no_state : @state Example.toy := mkState Fixture.no_learner 0.

(** three iterations, logged at every second one *)
Definition run3 : @state Example.toy * list log_entry * outcome :=
  Eval vm_compute in
    @meta_fit Example.toy Fixture6.toy_training Fixture6.start None true 2 (Some 3%Z)
      Fixture6.toy_rnd.

Definition trained : @state Example.toy := Eval vm_compute in run3.1.1.
Definition trained_logs : list log_entry := Eval vm_compute in run3.1.2.
Definition trained_loss : float :=
  Eval vm_compute in match run3.2 with Returned l => l | Failed _ => NaN end.

(** the same three iterations in a round of two and a round of one *)
Definition round1 : @state Example.toy * list log_entry * outcome :=
  Eval vm_compute in
    @meta_fit Example.toy Fixture6.toy_training Fixture6.start None false 2000 (Some 2%Z)
      Fixture6.toy_rnd.

Definition after_round1 : @state Example.toy := Eval vm_compute in round1.1.1.
Definition loss_round1 : float :=
  Eval vm_compute in match round1.2 with Returned l => l | Failed _ => NaN end.

(** two iterations with a log period of zero *)
Definition run_zero : @state Example.toy * list log_entry * outcome :=
  Eval vm_compute in
    @meta_fit Example.toy Fixture6.toy_training Fixture6.start None true 0 (Some 2%Z)
      Fixture6.toy_rnd.

End Fixture7.

Lemma start_trained :
  @MetaFit.meta_fit Example.toy Fixture6.toy_training Fixture6.start None true 2 (Some 3%Z)
    Fixture6.toy_rnd
  = (Fixture7.trained, Fixture7.trained_logs, MetaFit.Returned Fixture7.trained_loss).
Proof. vm_compute. reflexivity. Qed.

Lemma start_round1 :
  @MetaFit.meta_fit Example.toy Fixture6.toy_training Fixture6.start None false 2000
    (Some 2%Z) Fixture6.toy_rnd
  = (Fixture7.after_round1, [], MetaFit.Returned Fixture7.loss_round1).
Proof. vm_compute. reflexivity. Qed.

Lemma round1_round2 :
  @MetaFit.meta_fit Example.toy Fixture6.toy_training Fixture7.after_round1 None false 2000
    (Some 1%Z) (fun k => Fixture6.toy_rnd (Z.to_nat 2 + k))
  = (Fixture7.trained, [], MetaFit.Returned Fixture7.trained_loss).
Proof. vm_compute. reflexivity. Qed.

Lemma start_run_zero :
  @MetaFit.meta_fit Example.toy Fixture6.toy_training Fixture6.start None true 0 (Some 2%Z)
    Fixture6.toy_rnd
  = (Fixture7.run_zero.1.1, Fixture7.run_zero.1.2, Fixture7.run_zero.2).
Proof. vm_compute. reflexivity. Qed.

Lemma meta_fit_frame_witness :
  fitted (MetaFit.learner Fixture7.trained) = true /\
  MetaFit.last_epoch Fixture7.trained = 3%nat.
Proof.
  pose proof (@meta_fit_frame Example.toy Fixture6.toy_training _ _ _ _ _ _ _ _ _
                start_trained) as (_ & _ & Hfitted & Hepoch & _).
  split; [exact Hfitted | exact Hepoch].
Defined.

(** X19. With no iteration to run ([n_iter], or [num_iter_fit] in its place,
    not positive) and well-formed validation tuples, [meta_fit] marks the
    learner as fitted, its parameters and optimizer untouched, logs nothing and
    then fails with [UnboundLocalError] on the [loss] it never computed. *)
Theorem meta_fit_without_iterations `{MetaFit.Training} (self : MetaFit.state)
    (valid_tuples : option (list (list Tensor))) (verbose : bool) (log_period : Z)
    (n_iter : option Z) rnd :
  match valid_tuples with
  | None => True
  | Some valid_tuples => MetaFit.all_of_length_4 valid_tuples = true
  end ->
  (match n_iter with
   | None => num_iter_fit (MetaFit.learner self)
   | Some n => n
   end <= 0)%Z ->
  MetaFit.meta_fit self valid_tuples verbose log_period n_iter rnd
  = (MetaFit.mkState
       (MetaFit.updated (MetaFit.learner self) (posterior (MetaFit.learner self))
          (optimizer (MetaFit.learner self)) true)
       (MetaFit.last_epoch self),
     [], MetaFit.Failed (MetaFit.UnboundLocalError "loss")).
Proof.
  intros Hvalid Hn. unfold MetaFit.meta_fit.
  replace (negb _) with false
    by (destruct valid_tuples; [rewrite Hvalid |]; reflexivity).
  rewrite (Z2Nat.nonpos _ Hn). reflexivity.
Qed.

Lemma meta_fit_without_iterations_witness :
  (@MetaFit.meta_fit Example.toy Fixture6.toy_training Fixture6.start None true 500
     (Some 0%Z) Fixture6.toy_rnd).2
  = MetaFit.Failed (MetaFit.UnboundLocalError "loss").
Proof.
  rewrite (@meta_fit_without_iterations Example.toy Fixture6.toy_training
             Fixture6.start None true 500 (Some 0%Z) Fixture6.toy_rnd I ltac:(lia)).
  reflexivity.
Defined.

(** X20. What [meta_fit] logs.  Without [verbose] it never logs.  With it, a
    call that returns has logged the iterations 1 and every multiple of
    [log_period] up to [n_iter], in this order and each once; every message
    names the learner's [num_iter_fit] as the total, whatever [n_iter] is, and
    carries validation metrics exactly when validation tuples were given. *)
Theorem meta_fit_log_schedule `{MetaFit.Training} (self self' : MetaFit.state)
    (valid_tuples : option (list (list Tensor))) (verbose : bool) (log_period : Z)
    (n_iter : option Z) rnd (logs : list MetaFit.log_entry) (out : MetaFit.outcome) :
  MetaFit.meta_fit self valid_tuples verbose log_period n_iter rnd = (self', logs, out) ->
  let n := match n_iter with
           | None => num_iter_fit (MetaFit.learner self)
           | Some n => n
           end in
  (verbose = false -> logs = []) /\
  (verbose = true -> forall l, out = MetaFit.Returned l ->
   map MetaFit.log_itr logs
   = List.filter (fun itr => (itr =? 1)%Z || (itr mod log_period =? 0)%Z)
       (map (fun j => Z.of_nat (S j)) (seq 0 (Z.to_nat n))) /\
   Forall (fun m => MetaFit.log_total m = num_iter_fit (MetaFit.learner self) /\
                    (MetaFit.log_valid m = None <-> valid_tuples = None)) logs).
Proof.
  intros Hfit n. unfold MetaFit.meta_fit in Hfit. fold n in Hfit.
  destruct (negb _) in Hfit.
  { injection Hfit as <- <- <-. split; [reflexivity | discriminate]. }
  destruct (MetaFit.loop _ _ _ _ _ _ _) as [p [e |]] eqn:Hloop;
    injection Hfit as <- <- <-.
  - split; [| discriminate].
    intros ->. apply loop_quiet in Hloop. exact Hloop.
  - split.
    + intros ->. apply loop_quiet in Hloop. exact Hloop.
    + intros -> l _. apply loop_logs in Hloop as (new & -> & Hitr & Hmsg).
      split; [exact Hitr | exact Hmsg].
Qed.

Lemma meta_fit_log_schedule_witness :
  map MetaFit.log_itr Fixture7.trained_logs = [1; 2]%Z.
Proof.
  pose proof (@meta_fit_log_schedule Example.toy Fixture6.toy_training _ _ _ _ _ _ _ _ _
                start_trained) as (_ & Hlogs).
  destruct (Hlogs eq_refl _ eq_refl) as (Hitr & _). exact Hitr.
Defined.

(** X21. With a log period of zero [meta_fit] never gets past its second
    iteration: asked for two or more, it fails ([ZeroDivisionError] at the
    second, unless an exception came earlier) after at most two steps, and the
    learner is not marked as fitted. *)
Theorem meta_fit_zero_log_period `{MetaFit.Training} (self self' : MetaFit.state)
    (valid_tuples : option (list (list Tensor))) (verbose : bool)
    (n_iter : option Z) rnd (logs : list MetaFit.log_entry) (out : MetaFit.outcome) :
  MetaFit.meta_fit self valid_tuples verbose 0 n_iter rnd = (self', logs, out) ->
  (2 <= match n_iter with
        | None => num_iter_fit (MetaFit.learner self)
        | Some n => n
        end)%Z ->
  (out = MetaFit.Failed MetaFit.ZeroDivisionError \/
   exists e, out = MetaFit.Failed (MetaFit.PyError e)) /\
  fitted (MetaFit.learner self') = fitted (MetaFit.learner self) /\
  (MetaFit.last_epoch self' <= MetaFit.last_epoch self + 2)%nat.
Proof.
  intros Hfit Hn. unfold MetaFit.meta_fit in Hfit.
  destruct (negb _) in Hfit.
  { injection Hfit as <- <- <-. split; [right; eauto |]. split; [reflexivity | lia]. }
  remember (Z.to_nat _) as n eqn:Hnat in Hfit.
  destruct n as [| [| n]]; [lia | lia |].
  assert (Hfail : exists p e,
            MetaFit.loop valid_tuples verbose 0 rnd (S (S n)) 0
              (MetaFit.mkProgress self [] None) = (p, Some e) /\
            loop_error e /\
            fitted (MetaFit.learner (MetaFit.current p)) = fitted (MetaFit.learner self) /\
            (MetaFit.last_epoch (MetaFit.current p) <= MetaFit.last_epoch self + 2)%nat).
  { destruct (MetaFit.loop _ _ _ _ _ _ _) as [p oe] eqn:Hloop.
    pose proof (loop_effect _ _ _ _ _ _ _ _ _ Hloop) as (_ & Hfitted & _ & _ & Herr).
    cbn [MetaFit.loop] in Hloop.
    destruct (MetaFit.iteration _ _ _ _ _ _ _) as [p1 [e1 |]] eqn:Hit.
    - injection Hloop as <- <-. exists p1, e1. split; [reflexivity |].
      split; [apply Herr; reflexivity |]. split; [exact Hfitted |].
      apply iteration_effect in Hit. cbn in Hit. lia.
    - pose proof (iteration_effect _ _ _ _ _ _ _ _ _ Hit) as (_ & _ & Hep & _).
      assert (Htail : MetaFit.loop valid_tuples verbose 0 rnd (S n) 1 p1 = (p, oe))
        by exact Hloop.
      apply loop_zero_period in Htail as (Hsome & Hep'); [| lia | lia].
      destruct oe as [e |]; [| contradiction].
      exists p, e. split; [reflexivity |]. split; [apply Herr; reflexivity |].
      split; [exact Hfitted |]. cbn in Hep. lia. }
  destruct Hfail as (p & e & Hloop & Herr & Hfitted & Hep).
  rewrite Hloop in Hfit. injection Hfit as <- <- <-.
  split; [| split; [exact Hfitted | exact Hep]].
  destruct Herr as [-> | (x & ->)]; [left; reflexivity | right; eauto].
Qed.

Lemma meta_fit_zero_log_period_witness :
  Fixture7.run_zero.2 = MetaFit.Failed MetaFit.ZeroDivisionError \/
  exists e, Fixture7.run_zero.2 = MetaFit.Failed (MetaFit.PyError e).
Proof.
  exact (proj1 (@meta_fit_zero_log_period Example.toy Fixture6.toy_training _ _ _ _ _ _ _ _
                  start_run_zero ltac:(lia))).
Defined.

(** X22. The learning rate after a call of [meta_fit] that returns: under a
    [StepLR] schedule it has been multiplied by [gamma] once for every
    multiple of [step_size] among the scheduler steps of this call, under the
    dummy schedule it is as before. *)
Theorem meta_fit_learning_rate `{MetaFit.Training} (self self' : MetaFit.state)
    (valid_tuples : option (list (list Tensor))) (verbose : bool) (log_period : Z)
    (n_iter : option Z) rnd (logs : list MetaFit.log_entry) (l : float) :
  MetaFit.meta_fit self valid_tuples verbose log_period n_iter rnd
  = (self', logs, MetaFit.Returned l) ->
  let n := Z.to_nat match n_iter with
                    | None => num_iter_fit (MetaFit.learner self)
                    | Some n => n
                    end in
  match lr_scheduler (MetaFit.learner self) with
  | StepLR step_size gamma =>
      step_size <> 0%nat ->
      lr (optimizer (MetaFit.learner self'))
      = (lr (optimizer (MetaFit.learner self))
         * gamma ^ ((MetaFit.last_epoch self + n) / step_size
                    - MetaFit.last_epoch self / step_size))%R
  | DummyLRScheduler =>
      lr (optimizer (MetaFit.learner self')) = lr (optimizer (MetaFit.learner self))
  end.
Proof.
  intros Hfit n. unfold MetaFit.meta_fit in Hfit. fold n in Hfit.
  destruct (negb _) in Hfit; [discriminate |].
  destruct (MetaFit.loop _ _ _ _ _ _ _) as [p [e |]] eqn:Hloop; [discriminate |].
  injection Hfit as <- _ _.
  pose proof (loop_effect _ _ _ _ _ _ _ _ _ Hloop) as (_ & _ & _ & Hok & _).
  destruct (Hok eq_refl) as (Hep & _). cbn in Hep.
  pose proof (fun Hsound => loop_lr _ _ _ _ _ _ _ _ _ Hsound Hloop) as Hlr.
  cbn [MetaFit.learner MetaFit.current MetaFit.last_epoch] in Hlr |- *.
  cbn [MetaFit.updated optimizer]. rewrite Hep in Hlr.
  destruct (lr_scheduler (MetaFit.learner self)) as [s g |];
    cbn [sound_schedule decay] in Hlr.
  - exact Hlr.
  - rewrite (Hlr I). ring.
Qed.

Lemma meta_fit_learning_rate_witness :
  lr (optimizer (MetaFit.learner Fixture7.trained))
  = (lr (optimizer (MetaFit.learner Fixture6.start)) * (1 / 2) ^ 1)%R.
Proof.
  exact (@meta_fit_learning_rate Example.toy Fixture6.toy_training _ _ _ _ _ _ _ _ _
           start_trained ltac:(discriminate)).
Defined.

(** X23. Training in rounds is training in one go: when a call of [meta_fit]
    for [n] iterations and a second call for [m] more, both without validation
    tuples and on the random numbers that follow, return, then one call for
    [n + m] iterations with any log period but zero returns the same last loss
    and leaves the same learner. *)
Theorem meta_fit_in_rounds `{MetaFit.Training} (self s1 s2 : MetaFit.state)
    (verbose verbose1 verbose2 : bool) (log_period log_period1 log_period2 : Z)
    (n m : Z) rnd (logs1 logs2 : list MetaFit.log_entry) (l1 l2 : float) :
  MetaFit.meta_fit self None verbose1 log_period1 (Some n) rnd
  = (s1, logs1, MetaFit.Returned l1) ->
  MetaFit.meta_fit s1 None verbose2 log_period2 (Some m)
    (fun k => rnd (Z.to_nat n + k)%nat)
  = (s2, logs2, MetaFit.Returned l2) ->
  log_period <> 0%Z ->
  exists logs,
    MetaFit.meta_fit self None verbose log_period (Some (n + m)%Z) rnd
    = (s2, logs, MetaFit.Returned l2).
Proof.
  intros Hfit1 Hfit2 Hlp.
  pose proof (meta_fit_rounds_positive _ _ _ _ _ _ _ _ Hfit1) as Hn.
  pose proof (meta_fit_rounds_positive _ _ _ _ _ _ _ _ Hfit2) as Hm.
  unfold MetaFit.meta_fit in *. cbn [negb] in *.
  destruct (MetaFit.loop None verbose1 _ _ _ _ _) as [p1 [e1 |]] eqn:Hloop1;
    [discriminate |].
  destruct (MetaFit.loss p1) as [l1' |] eqn:Hl1; [| discriminate].
  injection Hfit1 as <- _ _.
  destruct (MetaFit.loop None verbose2 _ _ _ _ _) as [p2 [e2 |]] eqn:Hloop2;
    [discriminate |].
  destruct (MetaFit.loss p2) as [l2' |] eqn:Hl2; [| discriminate].
  injection Hfit2 as <- _ <-.
  rewrite Z2Nat.inj_add by lia. rewrite loop_app.
  destruct (loop_same verbose1 verbose log_period1 log_period rnd rnd _ 0%nat 0%nat _ _
              (MetaFit.mkProgress self [] None) (fun _ _ => eq_refl) Hlp
              (same_training_refl _) Hloop1) as (q1 & -> & Hsame1 & _).
  pose proof (fun Hr Hs =>
                loop_same verbose2 verbose log_period2 log_period
                  (fun k => rnd (Z.to_nat n + k)%nat) rnd _ 0%nat (0 + Z.to_nat n)%nat
                  _ _ q1 Hr Hlp Hs Hloop2) as Hstep.
  destruct Hstep as (q2 & -> & Hsame2 & Hloss2).
  { intros j _. cbn beta. f_equal. }
  { cbn [MetaFit.current].
    apply (same_training_trans _ (MetaFit.current p1)); [| exact Hsame1].
    apply same_training_sym. apply (same_training_marked _ true). }
  rewrite Hloss2 by lia. rewrite Hl2.
  rewrite <- (same_training_marks_equal _ _ Hsame2).
  eexists. reflexivity.
Qed.

Lemma meta_fit_in_rounds_witness :
  exists logs,
    @MetaFit.meta_fit Example.toy Fixture6.toy_training Fixture6.start None true 2
      (Some (2 + 1)%Z) Fixture6.toy_rnd
    = (Fixture7.trained, logs, MetaFit.Returned Fixture7.trained_loss).
Proof.
  exact (@meta_fit_in_rounds Example.toy Fixture6.toy_training _ _ _ true _ _ 2 _ _ _ _ _ _ _
           _ _ start_round1 round1_round2 ltac:(discriminate)).
Defined.
